(** * Enhanced 3D scene viewer: SceneManager, ViewManager and DbHelper

    A shallow embedding of the rendering core of the viewer
    (Source/SceneManager.cpp, the ViewManager and DbHelper translation
    units) together with the properties its specification states.

    Conventions of the embedding:
    - C++ [float] and [double] values are rationals ([Q]).  Where the
      source converts a [double] to [float] or computes with the stored
      [float]s (the cursor position and the clock of the view manager),
      the rounding is written out ([Ieee.float32], [Ieee.float64]); the
      single-precision constants and products handed to GLM, and the
      arithmetic of the camera, which is not among the sources, are
      exact.  Equalities between computed scalars are stated up to [Qeq]
      where arithmetic is involved.
    - GLM matrices are kept as the expression that builds them
      ([glm::scale], [glm::rotate], [operator*], ...): what is verified
      is which matrices are composed and in which order, not the value of
      a cosine.
    - The shader program (the "uniform sink") is the ordered log of the
      writes it received; the current value of a uniform is the last write
      under its name.
    - A pointer that may be null is an [option]; a call through a null
      pointer that the source does not guard has no result ([None]).
    - OpenGL texture state, the image files on disk and the diagnostic
      stream are fields of an explicit [World]. *)

From Stdlib Require Import QArith ZArith Qround Qabs.
From stdpp Require Import gmap strings list fin_maps pretty.

Open Scope string_scope.
Open Scope list_scope.

(* ===================================================================== *)
(** * Part I: the program *)
(* ===================================================================== *)

(** ** GLM values *)

Module Glm.

Record vec2 := Vec2 { v2x : Q; v2y : Q }.
Record vec3 := Vec3 { v3x : Q; v3y : Q; v3z : Q }.
Record vec4 := Vec4 { v4r : Q; v4g : Q; v4b : Q; v4a : Q }.

(** [glm::vec3(s)]: the same scalar in the three components. *)
Definition vec3_splat (s : Q) : vec3 := Vec3 s s s.

Definition vec3_add (a b : vec3) : vec3 :=
  Vec3 (v3x a + v3x b) (v3y a + v3y b) (v3z a + v3z b).
Definition vec3_sub (a b : vec3) : vec3 :=
  Vec3 (v3x a - v3x b) (v3y a - v3y b) (v3z a - v3z b).
Definition vec3_scale (a : vec3) (k : Q) : vec3 :=
  Vec3 (v3x a * k) (v3y a * k) (v3z a * k).

(** An angle in radians, kept as the number of degrees it was converted
    from: [glm::radians(d)]. *)
Inductive angle := radians (degrees : Q).

(** A 4x4 matrix, as the GLM expression that produced it. *)
Inductive mat4 :=
| scale (v : vec3)
| rotate (a : angle) (axis : vec3)
| translate (v : vec3)
| ortho (left right bottom top zNear zFar : Q)
| perspective (fovy : angle) (aspect zNear zFar : Q)
| lookAt (eye center up : vec3)
| mul (a b : mat4).

End Glm.

Export Glm.

Declare Scope mat_scope.
Delimit Scope mat_scope with mat.
Bind Scope mat_scope with mat4.
Infix "×" := mul (at level 40, left associativity) : mat_scope.

(** ** The uniform sink (ShaderManager) *)

Inductive uniform_value :=
| UMat4 (m : mat4)
| UVec2 (v : vec2)
| UVec3 (v : vec3)
| UVec4 (v : vec4)
| UFloat (f : Q)
| UInt (i : Z)
| UBool (b : bool)
| USampler2D (slot : Z).

(** Modelled from the spec: ShaderManager.h is not part of the sources; the
    specification describes it as a sink of named, typed values
    ([setMat4/setVec2/setVec3/setVec4/setFloat/setInt/setBool(name, value)],
    no return value).  The sink is the list of writes, oldest first. *)
Definition ShaderManager := list (string * uniform_value).

Definition setMat4Value (name : string) (m : mat4) (s : ShaderManager) : ShaderManager :=
  s ++ [(name, UMat4 m)].
Definition setVec2Value (name : string) (v : vec2) (s : ShaderManager) : ShaderManager :=
  s ++ [(name, UVec2 v)].
Definition setVec3Value (name : string) (v : vec3) (s : ShaderManager) : ShaderManager :=
  s ++ [(name, UVec3 v)].
Definition setVec4Value (name : string) (v : vec4) (s : ShaderManager) : ShaderManager :=
  s ++ [(name, UVec4 v)].
Definition setFloatValue (name : string) (f : Q) (s : ShaderManager) : ShaderManager :=
  s ++ [(name, UFloat f)].
Definition setIntValue (name : string) (i : Z) (s : ShaderManager) : ShaderManager :=
  s ++ [(name, UInt i)].
Definition setBoolValue (name : string) (b : bool) (s : ShaderManager) : ShaderManager :=
  s ++ [(name, UBool b)].
Definition setSampler2DValue (name : string) (slot : Z) (s : ShaderManager) : ShaderManager :=
  s ++ [(name, USampler2D slot)].

(** The value a draw call reads: the last write under each name. *)
Definition uniforms (s : ShaderManager) : gmap string uniform_value :=
  foldl (fun m w => <[w.1 := w.2]> m) ∅ s.

(** The C++ conversion of [bool] to [int] at a [setIntValue] call site. *)
Definition int_of_bool (b : bool) : Z := if b then 1%Z else 0%Z.

(** ** SceneManager: data *)

Definition g_ModelName := "model".
Definition g_ColorValueName := "objectColor".
Definition g_TextureValueName := "objectTexture".
Definition g_UseTextureName := "bUseTexture".
Definition g_UseLightingName := "bUseLighting".

Abbreviation GLuint := N.

Record OBJECT_MATERIAL := {
  diffuseColor : vec3;
  specularColor : vec3;
  shininess : Q;
  tag : string
}.

Record TEXTURE_INFO := {
  ID : GLuint;
  tex_tag : string
}.

Record SceneManager := {
  m_pShaderManager : option ShaderManager;
  m_objectMaterials : list OBJECT_MATERIAL;
  m_textureMap : gmap string GLuint;
  m_textureIDs : list TEXTURE_INFO
}.

Definition with_shader (sm : SceneManager) (s : option ShaderManager) : SceneManager :=
  {| m_pShaderManager := s;
     m_objectMaterials := m_objectMaterials sm;
     m_textureMap := m_textureMap sm;
     m_textureIDs := m_textureIDs sm |}.

Definition with_textureMap (sm : SceneManager) (m : gmap string GLuint) : SceneManager :=
  {| m_pShaderManager := m_pShaderManager sm;
     m_objectMaterials := m_objectMaterials sm;
     m_textureMap := m;
     m_textureIDs := m_textureIDs sm |}.

Definition with_textureIDs (sm : SceneManager) (l : list TEXTURE_INFO) : SceneManager :=
  {| m_pShaderManager := m_pShaderManager sm;
     m_objectMaterials := m_objectMaterials sm;
     m_textureMap := m_textureMap sm;
     m_textureIDs := l |}.

(** ** SceneManager: materials *)

(** The [while] loop of [FindMaterial], started at [index] with [bFound]
    false: the remaining entries are [ms].  It returns [bFound] and the
    out-parameter.  Only the three colour fields are copied. *)
Fixpoint FindMaterial_loop (ms : list OBJECT_MATERIAL) (t : string)
    (material : OBJECT_MATERIAL) : bool * OBJECT_MATERIAL :=
  match ms with
  | [] => (false, material)
  | m :: rest =>
      if String.eqb (tag m) t
      then (true, {| diffuseColor := diffuseColor m;
                     specularColor := specularColor m;
                     shininess := shininess m;
                     tag := tag material |})
      else FindMaterial_loop rest t material
  end.

(** [FindMaterial(tag, material)]: the returned flag and the out-parameter.
    The function ends in [return(true)], whatever [bFound] is. *)
Definition FindMaterial (sm : SceneManager) (t : string) (material : OBJECT_MATERIAL)
  : bool * OBJECT_MATERIAL :=
  if (length (m_objectMaterials sm) =? 0)%nat then (false, material)
  else
    let '(bFound, material') := FindMaterial_loop (m_objectMaterials sm) t material in
    (true, material').

(** [SetShaderMaterial(materialTag)].  [material] is the local the source
    declares without initialising it.  The shader manager is used without
    a null test. *)
Definition SetShaderMaterial (sm : SceneManager) (materialTag : string)
    (material : OBJECT_MATERIAL) : option SceneManager :=
  if (0 <? length (m_objectMaterials sm))%nat then
    let '(bReturn, material') := FindMaterial sm materialTag material in
    if bReturn then
      match m_pShaderManager sm with
      | None => None
      | Some s =>
          let s := setVec3Value "material.diffuseColor" (diffuseColor material') s in
          let s := setVec3Value "material.specularColor" (specularColor material') s in
          let s := setFloatValue "material.shininess" (shininess material') s in
          Some (with_shader sm (Some s))
      end
    else Some sm
  else Some sm.

(** ** SceneManager: transformations and colour *)

Definition SetTransformations (sm : SceneManager) (scaleXYZ : vec3)
    (XrotationDegrees YrotationDegrees ZrotationDegrees : Q) (positionXYZ : vec3)
  : SceneManager :=
  let scale := Glm.scale scaleXYZ in
  let rotationX := rotate (radians XrotationDegrees) (Vec3 1 0 0) in
  let rotationY := rotate (radians YrotationDegrees) (Vec3 0 1 0) in
  let rotationZ := rotate (radians ZrotationDegrees) (Vec3 0 0 1) in
  let translation := translate positionXYZ in
  let modelView := (translation × rotationZ × rotationY × rotationX × scale)%mat in
  match m_pShaderManager sm with
  | Some s => with_shader sm (Some (setMat4Value g_ModelName modelView s))
  | None => sm
  end.

Definition SetShaderColor (sm : SceneManager)
    (redColorValue greenColorValue blueColorValue alphaValue : Q) : SceneManager :=
  let currentColor := Vec4 redColorValue greenColorValue blueColorValue alphaValue in
  match m_pShaderManager sm with
  | Some s =>
      let s := setIntValue g_UseTextureName (int_of_bool false) s in
      let s := setVec4Value g_ColorValueName currentColor s in
      with_shader sm (Some s)
  | None => sm
  end.

(** ** The world outside the managers: OpenGL textures, image files, console *)

Inductive GLenum :=
| GL_RED | GL_RGB | GL_RGBA | GL_RGB8 | GL_RGBA8
| GL_TEXTURE_WRAP_S | GL_TEXTURE_WRAP_T
| GL_TEXTURE_MIN_FILTER | GL_TEXTURE_MAG_FILTER
| GL_REPEAT | GL_LINEAR | GL_LINEAR_MIPMAP_LINEAR.

(** What [glTexImage2D] stored in a texture object. *)
Record TexImage := {
  internalformat : GLenum;
  tex_width : Z;
  tex_height : Z;
  format : GLenum
}.

Record TexObject := {
  tex_image : option TexImage;
  tex_params : list (GLenum * GLenum);
  tex_mipmaps : bool
}.

Definition new_texture : TexObject :=
  {| tex_image := None; tex_params := []; tex_mipmaps := false |}.

(** What [stbi_load] yields for a file it can decode. *)
Record Image := {
  width : Z;
  height : Z;
  channels : Z
}.

Inductive message :=
| msg_stbi_load_failed (filePath : string)
| msg_unsupported_channel_count (channels : Z) (filePath : string)
| msg_failed_to_create_texture (tag filePath : string)
| msg_successfully_loaded (filename : string) (width height channels : Z)
| msg_not_implemented_channels (channels : Z)
| msg_could_not_load_image (filename : string)
| msg_failed_to_load_texture (filepath : string).

Record World := {
  gl_textures : gmap GLuint TexObject;  (* the texture names in use *)
  gl_bound : GLuint;                    (* the GL_TEXTURE_2D binding *)
  gl_deleted : list GLuint;             (* names given to glDeleteTextures *)
  stbi_flip : bool;                     (* stbi_set_flip_vertically_on_load *)
  files : gmap string Image;            (* the files stbi_load can decode *)
  console : list message                (* std::cout and std::cerr *)
}.

Definition with_gl (w : World) (t : gmap GLuint TexObject) (b : GLuint) (d : list GLuint) : World :=
  {| gl_textures := t; gl_bound := b; gl_deleted := d;
     stbi_flip := stbi_flip w; files := files w; console := console w |}.

Definition print (m : message) (w : World) : World :=
  {| gl_textures := gl_textures w; gl_bound := gl_bound w; gl_deleted := gl_deleted w;
     stbi_flip := stbi_flip w; files := files w; console := console w ++ [m] |}.

Definition stbi_set_flip_vertically_on_load (b : bool) (w : World) : World :=
  {| gl_textures := gl_textures w; gl_bound := gl_bound w; gl_deleted := gl_deleted w;
     stbi_flip := b; files := files w; console := console w |}.

Definition stbi_load (path : string) (w : World) : option Image := files w !! path.

(** [glGenTextures(1, &id)]: a name that is not in use and is not 0. *)
Definition fresh_name (w : World) : GLuint := fresh ({[0%N]} ∪ dom (gl_textures w)).

Definition glGenTextures (w : World) : GLuint * World :=
  let id := fresh_name w in
  (id, with_gl w (<[id := new_texture]> (gl_textures w)) (gl_bound w) (gl_deleted w)).

Definition glBindTexture (id : GLuint) (w : World) : World :=
  with_gl w (gl_textures w) id (gl_deleted w).

Definition on_bound (f : TexObject -> TexObject) (w : World) : World :=
  with_gl w (alter f (gl_bound w) (gl_textures w)) (gl_bound w) (gl_deleted w).

Definition glTexParameteri (pname param : GLenum) : World -> World :=
  on_bound (fun t => {| tex_image := tex_image t;
                        tex_params := tex_params t ++ [(pname, param)];
                        tex_mipmaps := tex_mipmaps t |}).

Definition glTexImage2D (internal : GLenum) (wd ht : Z) (fmt : GLenum) : World -> World :=
  on_bound (fun t => {| tex_image := Some {| internalformat := internal; tex_width := wd;
                                             tex_height := ht; format := fmt |};
                        tex_params := tex_params t;
                        tex_mipmaps := tex_mipmaps t |}).

Definition glGenerateMipmap : World -> World :=
  on_bound (fun t => {| tex_image := tex_image t;
                        tex_params := tex_params t;
                        tex_mipmaps := true |}).

(** [glDeleteTextures(1, &id)]: the name is free again; a deleted texture
    that was bound leaves the binding at 0. *)
Definition glDeleteTextures (id : GLuint) (w : World) : World :=
  with_gl w (delete id (gl_textures w))
            (if N.eqb (gl_bound w) id then 0%N else gl_bound w)
            (gl_deleted w ++ [id]).

(** A handle is live when OpenGL still holds a texture under that name. *)
Definition live (w : World) (id : GLuint) : Prop := id ∈ dom (gl_textures w).

(** ** SceneManager: the texture registry *)

(** The pixel format [loadTextureFromFile] selects; [None] is its
    "unsupported channel count" branch. *)
Definition format_of_channels (channels : Z) : option GLenum :=
  if (channels =? 1)%Z then Some GL_RED
  else if (channels =? 3)%Z then Some GL_RGB
  else if (channels =? 4)%Z then Some GL_RGBA
  else None.

(** [loadTextureFromFile(filePath, outTex, flipVertically)]: the returned
    flag, the reference parameter [outTex] and the world. *)
Definition loadTextureFromFile (filePath : string) (outTex : GLuint) (flipVertically : bool)
    (w : World) : bool * GLuint * World :=
  let w := stbi_set_flip_vertically_on_load flipVertically w in
  match stbi_load filePath w with
  | None => (false, outTex, print (msg_stbi_load_failed filePath) w)
  | Some data =>
      match format_of_channels (channels data) with
      | None =>
          (false, outTex, print (msg_unsupported_channel_count (channels data) filePath) w)
      | Some format =>
          let '(outTex, w) := glGenTextures w in
          let w := glBindTexture outTex w in
          let w := glTexImage2D format (width data) (height data) format w in
          let w := glGenerateMipmap w in
          let w := glTexParameteri GL_TEXTURE_WRAP_S GL_REPEAT w in
          let w := glTexParameteri GL_TEXTURE_WRAP_T GL_REPEAT w in
          let w := glTexParameteri GL_TEXTURE_MIN_FILTER GL_LINEAR_MIPMAP_LINEAR w in
          let w := glTexParameteri GL_TEXTURE_MAG_FILTER GL_LINEAR w in
          let w := glBindTexture 0%N w in
          (true, outTex, w)
      end
  end.

(** The middle of [CreateGLTexture]: the texture already stored under the
    tag, if any and if not 0, is deleted. *)
Definition release_previous (sm : SceneManager) (t : string) (w : World) : World :=
  match m_textureMap sm !! t with
  | Some old => if negb (N.eqb old 0%N) then glDeleteTextures old w else w
  | None => w
  end.

(** [CreateGLTexture(tag, filePath, flipVertically)]. *)
Definition CreateGLTexture (sm : SceneManager) (t filePath : string) (flipVertically : bool)
    (w : World) : bool * SceneManager * World :=
  let tex := 0%N in
  let '(ok, tex, w) := loadTextureFromFile filePath tex flipVertically w in
  if negb ok then
    (false, sm, print (msg_failed_to_create_texture t filePath) w)
  else
    let w := release_previous sm t w in
    (true, with_textureMap sm (<[t := tex]> (m_textureMap sm)), w).

(** The body of the loop of [DestroyGLTextures], for one entry [kv]. *)
Definition delete_entry (w : World) (kv : string * GLuint) : World :=
  if negb (N.eqb kv.2 0%N) then glDeleteTextures kv.2 w else w.

(** [DestroyGLTextures()].  The entries are visited in the order of
    [map_to_list]; no property below depends on that order. *)
Definition DestroyGLTextures (sm : SceneManager) (w : World) : SceneManager * World :=
  let w := foldl delete_entry w (map_to_list (m_textureMap sm)) in
  (with_textureMap sm ∅, w).

Definition FindTextureID (sm : SceneManager) (t : string) : GLuint :=
  match m_textureMap sm !! t with
  | Some id => id
  | None => 0%N
  end.

Definition TextureExists (sm : SceneManager) (t : string) : bool :=
  bool_decide (is_Some (m_textureMap sm !! t)).

Definition BindTextureByTag (sm : SceneManager) (t : string) (w : World) : bool * World :=
  let id := FindTextureID sm t in
  if N.eqb id 0%N then (false, w) else (true, glBindTexture id w).

(** [LoadTexture(filepath)]: the returned handle and the world. *)
Definition LoadTexture (filepath : string) (w : World) : GLuint * World :=
  let '(textureID, w) := glGenTextures w in
  let w := glBindTexture textureID w in
  let w := glTexParameteri GL_TEXTURE_WRAP_S GL_REPEAT w in
  let w := glTexParameteri GL_TEXTURE_WRAP_T GL_REPEAT w in
  let w := glTexParameteri GL_TEXTURE_MIN_FILTER GL_LINEAR w in
  let w := glTexParameteri GL_TEXTURE_MAG_FILTER GL_LINEAR w in
  match stbi_load filepath w with
  | Some data =>
      let format := if (channels data =? 3)%Z then GL_RGB else GL_RGBA in
      let w := glTexImage2D format (width data) (height data) format w in
      let w := glGenerateMipmap w in
      (textureID, w)
  | None =>
      (0%N, print (msg_failed_to_load_texture filepath) w)
  end.

(** The conversion of a [GLuint] to [int], as in [int textureID = ..ID]:
    the 32-bit pattern read as a two's complement number, so that names
    from 2^31 on come out negative, 4294967295 as -1. *)
Definition int_of_GLuint (id : GLuint) : Z :=
  ((Z.of_N id + 2 ^ 31) mod 2 ^ 32 - 2 ^ 31)%Z.

(** The number of elements of the array [m_textureIDs].  Its declaration
    is in SceneManager.h, which is not among the sources; the size is the
    one the comment of [BindGLTextures] gives: "There are up to 16
    slots". *)
Definition MAX_TEXTURES : nat := 16.

(** The earlier version of the registry: an array of (ID, tag) slots filled
    in order, [m_loadedTextures] being the length of the list. *)
Module Legacy.

(** [CreateGLTexture(filename, tag)].  The store into
    [m_textureIDs[m_loadedTextures]] is made without a test of the index:
    with all slots filled it is a write past the end of the array, which
    has no defined result ([None]). *)
Definition CreateGLTexture (sm : SceneManager) (filename t : string) (w : World)
  : option (bool * SceneManager * World) :=
  let w := stbi_set_flip_vertically_on_load true w in
  match stbi_load filename w with
  | Some image =>
      let w := print (msg_successfully_loaded filename (width image) (height image)
                                              (channels image)) w in
      let '(textureID, w) := glGenTextures w in
      let w := glBindTexture textureID w in
      let w := glTexParameteri GL_TEXTURE_WRAP_S GL_REPEAT w in
      let w := glTexParameteri GL_TEXTURE_WRAP_T GL_REPEAT w in
      let w := glTexParameteri GL_TEXTURE_MIN_FILTER GL_LINEAR w in
      let w := glTexParameteri GL_TEXTURE_MAG_FILTER GL_LINEAR w in
      let upload :=
        if (channels image =? 3)%Z
        then Some (glTexImage2D GL_RGB8 (width image) (height image) GL_RGB w)
        else if (channels image =? 4)%Z
        then Some (glTexImage2D GL_RGBA8 (width image) (height image) GL_RGBA w)
        else None in
      match upload with
      | None => Some (false, sm, print (msg_not_implemented_channels (channels image)) w)
      | Some w =>
          let w := glGenerateMipmap w in
          let w := glBindTexture 0%N w in
          if decide (length (m_textureIDs sm) < MAX_TEXTURES)%nat
          then Some (true,
                     with_textureIDs sm
                       (m_textureIDs sm ++ [{| ID := textureID; tex_tag := t |}]),
                     w)
          else None
      end
  | None => Some (false, sm, print (msg_could_not_load_image filename) w)
  end.

(** The loop of [FindTextureID] over the filled slots; -1 when absent.  The
    ID found is returned through [int]. *)
Fixpoint FindTextureID_loop (slots : list TEXTURE_INFO) (t : string) : Z :=
  match slots with
  | [] => (-1)%Z
  | e :: rest =>
      if String.eqb (tex_tag e) t then int_of_GLuint (ID e) else FindTextureID_loop rest t
  end.

Definition FindTextureID (sm : SceneManager) (t : string) : Z :=
  FindTextureID_loop (m_textureIDs sm) t.

End Legacy.

(** ** Single and double precision *)

Open Scope Q_scope.

(** Conversion of a rational to a binary floating-point format, rounding
    to nearest, ties to even.  The exponent is not bounded above: a
    rational has no infinity, so [round] is the conversion of the hardware
    for the values that do not overflow, and the properties that depend on
    a converted value assume that range. *)
Module Ieee.

(** The integer part of the binary logarithm of |q|, for q other than 0. *)
Definition ilog2 (q : Q) : Z :=
  let k := (Z.log2 (Z.abs (Qnum q)) - Z.log2 (Zpos (Qden q)))%Z in
  if Qle_bool (2 ^ k) (Qabs q) then k else (k - 1)%Z.

(** The integer nearest to q, the even one of the two when q is halfway. *)
Definition nearest_even (q : Q) : Z :=
  let f := Qfloor q in
  match Qcompare (q - inject_Z f) (1 # 2) with
  | Lt => f
  | Gt => (f + 1)%Z
  | Eq => if Z.even f then f else (f + 1)%Z
  end.

(** The value of the format with [prec] significand bits and least
    subnormal 2^emin that is nearest to q. *)
Definition round (prec emin : Z) (q : Q) : Q :=
  let q := Qred q in
  if Qeq_bool q 0 then 0
  else
    let e := Z.max (ilog2 q - (prec - 1)) emin in
    Qred (inject_Z (nearest_even (q / 2 ^ e)) * 2 ^ e).

(** [float]: binary32. *)
Definition float32 : Q -> Q := round 24 (-149).

(** [double]: binary64. *)
Definition float64 : Q -> Q := round 53 (-1074).

(** The largest finite [float]. *)
Definition FLT_MAX : Q := (2 ^ 24 - 1) * 2 ^ 104.

End Ieee.

Export Ieee.

(** ** The camera *)

Inductive Camera_Movement := FORWARD | BACKWARD | LEFT | RIGHT | UP | DOWN.

(** The members of [Camera] the view manager reads and writes, with the
    yaw and pitch angles (degrees) of the specification's CameraState. *)
Record Camera := {
  Position : vec3;
  Front : vec3;
  Up : vec3;
  Zoom : Q;
  MovementSpeed : Q;
  Yaw : Q;
  Pitch : Q
}.

(** The constants and the trigonometry of camera.h, which is not part of
    the sources: the mouse sensitivity, the pitch limit, the front vector
    of a yaw and a pitch, and the normalised cross product of front and
    up. *)
Class CameraLib := {
  MouseSensitivity : Q;
  PitchLimit : Q;
  front_of : Q -> Q -> vec3;
  right_of : vec3 -> vec3 -> vec3
}.

Definition constrain_pitch `{CameraLib} (pitch : Q) : Q :=
  if negb (Qle_bool pitch PitchLimit) then PitchLimit
  else if negb (Qle_bool (- PitchLimit) pitch) then - PitchLimit
  else pitch.

(** Modelled from the spec: [Camera::ProcessMouseMovement] is in camera.h,
    which is missing.  "yaw += dx·sensitivity, pitch += dy·sensitivity,
    pitch clamped to avoid gimbal flip at ±90°; recompute front from
    yaw/pitch." *)
Definition ProcessMouseMovement `{CameraLib} (xoffset yoffset : Q) (c : Camera) : Camera :=
  let yaw := Yaw c + xoffset * MouseSensitivity in
  let pitch := constrain_pitch (Pitch c + yoffset * MouseSensitivity) in
  {| Position := Position c; Front := front_of yaw pitch; Up := Up c;
     Zoom := Zoom c; MovementSpeed := MovementSpeed c;
     Yaw := yaw; Pitch := pitch |}.

Definition move_to (c : Camera) (p : vec3) : Camera :=
  {| Position := p; Front := Front c; Up := Up c;
     Zoom := Zoom c; MovementSpeed := MovementSpeed c;
     Yaw := Yaw c; Pitch := Pitch c |}.

(** Modelled from the spec: [Camera::ProcessKeyboard] is in camera.h, which
    is missing.  It "moves position along front, the right vector
    (front × up, normalized), or up itself, scaled by
    movementSpeed · deltaTime". *)
Definition ProcessKeyboard `{CameraLib} (direction : Camera_Movement) (deltaTime : Q)
    (c : Camera) : Camera :=
  let velocity := MovementSpeed c * deltaTime in
  let right := right_of (Front c) (Up c) in
  match direction with
  | FORWARD => move_to c (vec3_add (Position c) (vec3_scale (Front c) velocity))
  | BACKWARD => move_to c (vec3_sub (Position c) (vec3_scale (Front c) velocity))
  | LEFT => move_to c (vec3_sub (Position c) (vec3_scale right velocity))
  | RIGHT => move_to c (vec3_add (Position c) (vec3_scale right velocity))
  | UP => move_to c (vec3_add (Position c) (vec3_scale (Up c) velocity))
  | DOWN => move_to c (vec3_sub (Position c) (vec3_scale (Up c) velocity))
  end.

(** Modelled from the spec: [Camera::GetViewMatrix] is in camera.h, which
    is missing: "a look-at from position toward position + front with
    up". *)
Definition GetViewMatrix (c : Camera) : mat4 :=
  lookAt (Position c) (vec3_add (Position c) (Front c)) (Up c).

(** ** ViewManager *)

Module View.

Inductive Key :=
| GLFW_KEY_ESCAPE
| GLFW_KEY_W | GLFW_KEY_S | GLFW_KEY_A | GLFW_KEY_D
| GLFW_KEY_Q | GLFW_KEY_E
| GLFW_KEY_P | GLFW_KEY_O.

(** The names the translation unit uses without declaring them in the
    sources at hand: the window size and the two uniform names. *)
Class Defines := {
  WINDOW_WIDTH : Z;
  WINDOW_HEIGHT : Z;
  g_ViewName : string;
  g_ProjectionName : string
}.




(** The view manager with the file-scope variables its methods use.  The
    mouse position, the frame time and the delta time are [float]s. *)
Record ViewManager := {
  m_pShaderManager : option ShaderManager;
  g_pCamera : option Camera;
  gLastX : Q;
  gLastY : Q;
  gFirstMouse : bool;
  gDeltaTime : Q;
  gLastFrame : Q;
  bOrthographicProjection : bool;
  windowShouldClose : bool
}.


Definition set_camera (v : ViewManager) (c : option Camera) : ViewManager :=
  {| m_pShaderManager := m_pShaderManager v; g_pCamera := c;
     gLastX := gLastX v; gLastY := gLastY v; gFirstMouse := gFirstMouse v;
     gDeltaTime := gDeltaTime v; gLastFrame := gLastFrame v;
     bOrthographicProjection := bOrthographicProjection v;
     windowShouldClose := windowShouldClose v |}.

Definition set_time (v : ViewManager) (delta last : Q) : ViewManager :=
  {| m_pShaderManager := m_pShaderManager v; g_pCamera := g_pCamera v;
     gLastX := gLastX v; gLastY := gLastY v; gFirstMouse := gFirstMouse v;
     gDeltaTime := delta; gLastFrame := last;
     bOrthographicProjection := bOrthographicProjection v;
     windowShouldClose := windowShouldClose v |}.

Definition set_ortho (v : ViewManager) (b : bool) : ViewManager :=
  {| m_pShaderManager := m_pShaderManager v; g_pCamera := g_pCamera v;
     gLastX := gLastX v; gLastY := gLastY v; gFirstMouse := gFirstMouse v;
     gDeltaTime := gDeltaTime v; gLastFrame := gLastFrame v;
     bOrthographicProjection := b;
     windowShouldClose := windowShouldClose v |}.

Definition set_close (v : ViewManager) (b : bool) : ViewManager :=
  {| m_pShaderManager := m_pShaderManager v; g_pCamera := g_pCamera v;
     gLastX := gLastX v; gLastY := gLastY v; gFirstMouse := gFirstMouse v;
     gDeltaTime := gDeltaTime v; gLastFrame := gLastFrame v;
     bOrthographicProjection := bOrthographicProjection v;
     windowShouldClose := b |}.

Definition set_shader (v : ViewManager) (s : option ShaderManager) : ViewManager :=
  {| m_pShaderManager := s; g_pCamera := g_pCamera v;
     gLastX := gLastX v; gLastY := gLastY v; gFirstMouse := gFirstMouse v;
     gDeltaTime := gDeltaTime v; gLastFrame := gLastFrame v;
     bOrthographicProjection := bOrthographicProjection v;
     windowShouldClose := windowShouldClose v |}.


(** One [if (glfwGetKey(..) == GLFW_PRESS) g_pCamera->ProcessKeyboard(..)]. *)
Definition on_key `{CameraLib} (pressed : Key -> bool) (k : Key) (d : Camera_Movement)
    (deltaTime : Q) (c : Camera) : Camera :=
  if pressed k then ProcessKeyboard d deltaTime c else c.

(** [ProcessKeyboardEvents()]; [pressed] is what [glfwGetKey] reports. *)
Definition ProcessKeyboardEvents `{CameraLib} (pressed : Key -> bool) (v : ViewManager)
  : ViewManager :=
  let v := if pressed GLFW_KEY_ESCAPE then set_close v true else v in
  match g_pCamera v with
  | None => v
  | Some c =>
      let c := on_key pressed GLFW_KEY_W FORWARD (gDeltaTime v) c in
      let c := on_key pressed GLFW_KEY_S BACKWARD (gDeltaTime v) c in
      let c := on_key pressed GLFW_KEY_A LEFT (gDeltaTime v) c in
      let c := on_key pressed GLFW_KEY_D RIGHT (gDeltaTime v) c in
      let c := on_key pressed GLFW_KEY_Q UP (gDeltaTime v) c in
      let c := on_key pressed GLFW_KEY_E DOWN (gDeltaTime v) c in
      let v := set_camera v (Some c) in
      let v := if pressed GLFW_KEY_P then set_ortho v false else v in
      let v := if pressed GLFW_KEY_O then set_ortho v true else v in
      v
  end.

(** The projection matrix [PrepareSceneView] builds for a projection mode
    and a camera zoom. *)
Definition projection_matrix `{Defines} (orthographic : bool) (zoom : Q) : mat4 :=
  if orthographic then
    let aspect := inject_Z WINDOW_WIDTH / inject_Z WINDOW_HEIGHT in
    let orthoHeight := 10 in
    let orthoWidth := orthoHeight * aspect in
    ortho (- orthoWidth / 2) (orthoWidth / 2)
          (- orthoHeight / 2) (orthoHeight / 2)
          0.1 100
  else
    perspective (radians zoom)
                (inject_Z WINDOW_WIDTH / inject_Z WINDOW_HEIGHT)
                0.1 100.

(** [PrepareSceneView()]; [time] is the [double] that [glfwGetTime]
    returns, stored in the [float] [currentFrame]; the delta time is a
    difference of [float]s.  The camera pointer is used without a null
    test. *)
Definition PrepareSceneView `{CameraLib} `{Defines} (time : Q) (pressed : Key -> bool)
    (v : ViewManager) : option ViewManager :=
  let currentFrame := float32 time in
  let v := set_time v (float32 (currentFrame - gLastFrame v)) currentFrame in
  let v := ProcessKeyboardEvents pressed v in
  match g_pCamera v with
  | None => None
  | Some c =>
      let view := GetViewMatrix c in
      let projection := projection_matrix (bOrthographicProjection v) (Zoom c) in
      match m_pShaderManager v with
      | Some s =>
          let s := setMat4Value g_ViewName view s in
          let s := setMat4Value g_ProjectionName projection s in
          let s := setVec3Value "viewPosition" (Position c) s in
          Some (set_shader v (Some s))
      | None => Some v
      end
  end.

End View.

(** ** DbHelper *)

Module Db.

Inductive exec_rc :=
| SQLITE_OK
| SQLITE_ERROR (err : option string).

(** The SQLite engine, as far as DbHelper calls it.  A value of [sqlite3]
    is an open connection together with the database behind it; a call
    that can change the database returns the connection after it. *)
Class Sqlite := {
  sqlite3 : Type;
  sqlite3_stmt : Type;
  (* the connection, or the message of the failed open *)
  sqlite3_open : string -> sqlite3 + string;
  sqlite3_exec : string -> sqlite3 -> exec_rc * sqlite3;
  (* [None] when the result is not SQLITE_OK *)
  sqlite3_prepare_v2 : sqlite3 -> string -> option sqlite3_stmt;
  sqlite3_bind_text : sqlite3_stmt -> Z -> string -> sqlite3_stmt;
  sqlite3_bind_double : sqlite3_stmt -> Z -> Q -> sqlite3_stmt;
  (* whether the result is SQLITE_DONE, and the database after the step *)
  sqlite3_step : sqlite3_stmt -> sqlite3 -> bool * sqlite3;
  sqlite3_errmsg : sqlite3 -> string
}.

Inductive db_message :=
| error_opening_db (errmsg : string)
| sql_error (err : option string)
| prepare_failed (method errmsg : string)
| step_failed (method errmsg : string).

(** The helper object, with what it wrote to [std::cerr] so far. *)
Record DbHelper `{Sqlite} := {
  db_ : option sqlite3;
  cerr : list db_message
}.

Definition report `{Sqlite} (m : db_message) (h : DbHelper) : DbHelper :=
  {| db_ := db_ h; cerr := cerr h ++ [m] |}.

Definition set_db `{Sqlite} (d : option sqlite3) (h : DbHelper) : DbHelper :=
  {| db_ := d; cerr := cerr h |}.

Definition isOpen `{Sqlite} (h : DbHelper) : bool :=
  match db_ h with Some _ => true | None => false end.

(** [exec(sql)], called with an open connection [db]. *)
Definition exec `{Sqlite} (sql : string) (db : sqlite3) (h : DbHelper) : bool * DbHelper :=
  let '(rc, db) := sqlite3_exec sql db in
  let h := set_db (Some db) h in
  match rc with
  | SQLITE_OK => (true, h)
  | SQLITE_ERROR err => (false, report (sql_error err) h)
  end.

Definition ddl : list string :=
  [ "CREATE TABLE IF NOT EXISTS profiles (" +:+
      "name TEXT PRIMARY KEY," +:+
      "camera_pos_x REAL, camera_pos_y REAL, camera_pos_z REAL," +:+
      "fov REAL, projection TEXT" +:+
    ");";
    "CREATE TABLE IF NOT EXISTS telemetry (" +:+
      "ts DATETIME DEFAULT CURRENT_TIMESTAMP," +:+
      "fps REAL, frame_ms REAL" +:+
    ");";
    "CREATE TABLE IF NOT EXISTS errors (" +:+
      "ts DATETIME DEFAULT CURRENT_TIMESTAMP," +:+
      "source TEXT, message TEXT" +:+
    ");" ].

(** The [for] loop of [ensureSchema]: it stops at the first failure. *)
Fixpoint ensureSchema_loop `{Sqlite} (stmts : list string) (h : DbHelper) : bool * DbHelper :=
  match stmts with
  | [] => (true, h)
  | stmt :: rest =>
      match db_ h with
      | None => (false, h)
      | Some db =>
          let '(ok, h) := exec stmt db h in
          if ok then ensureSchema_loop rest h else (false, h)
      end
  end.

Definition ensureSchema `{Sqlite} (h : DbHelper) : bool * DbHelper :=
  match db_ h with
  | None => (false, h)
  | Some _ => ensureSchema_loop ddl h
  end.

(** The constructor [DbHelper(dbPath)]. *)
Definition open `{Sqlite} (dbPath : string) : DbHelper :=
  match sqlite3_open dbPath with
  | inr errmsg => {| db_ := None; cerr := [error_opening_db errmsg] |}
  | inl db => (ensureSchema {| db_ := Some db; cerr := [] |}).2
  end.

(** The tail the three writers share: step the bound statement, report a
    failure, finalize. *)
Definition step_and_finalize `{Sqlite} (method : string) (stmt : sqlite3_stmt)
    (db : sqlite3) (h : DbHelper) : bool * DbHelper :=
  let '(ok, db) := sqlite3_step stmt db in
  let h := set_db (Some db) h in
  let h := if ok then h else report (step_failed method (sqlite3_errmsg db)) h in
  (ok, h).

Definition saveCameraProfile `{Sqlite} (name : string) (x y z fov : Q) (projection : string)
    (h : DbHelper) : bool * DbHelper :=
  match db_ h with
  | None => (false, h)
  | Some db =>
      let sql :=
        "INSERT INTO profiles(name, camera_pos_x, camera_pos_y, camera_pos_z, fov, projection) " +:+
        "VALUES(?, ?, ?, ?, ?, ?) " +:+
        "ON CONFLICT(name) DO UPDATE SET " +:+
        " camera_pos_x=excluded.camera_pos_x," +:+
        " camera_pos_y=excluded.camera_pos_y," +:+
        " camera_pos_z=excluded.camera_pos_z," +:+
        " fov=excluded.fov," +:+
        " projection=excluded.projection;" in
      match sqlite3_prepare_v2 db sql with
      | None =>
          (false, report (prepare_failed "saveCameraProfile" (sqlite3_errmsg db)) h)
      | Some stmt =>
          let stmt := sqlite3_bind_text stmt 1 name in
          let stmt := sqlite3_bind_double stmt 2 x in
          let stmt := sqlite3_bind_double stmt 3 y in
          let stmt := sqlite3_bind_double stmt 4 z in
          let stmt := sqlite3_bind_double stmt 5 fov in
          let stmt := sqlite3_bind_text stmt 6 projection in
          step_and_finalize "saveCameraProfile" stmt db h
      end
  end.

Definition logTelemetry `{Sqlite} (fps frameMs : Q) (h : DbHelper) : bool * DbHelper :=
  match db_ h with
  | None => (false, h)
  | Some db =>
      let sql := "INSERT INTO telemetry(fps, frame_ms) VALUES(?, ?);" in
      match sqlite3_prepare_v2 db sql with
      | None => (false, report (prepare_failed "logTelemetry" (sqlite3_errmsg db)) h)
      | Some stmt =>
          let stmt := sqlite3_bind_double stmt 1 fps in
          let stmt := sqlite3_bind_double stmt 2 frameMs in
          step_and_finalize "logTelemetry" stmt db h
      end
  end.

Definition logError `{Sqlite} (source message : string) (h : DbHelper) : bool * DbHelper :=
  match db_ h with
  | None => (false, h)
  | Some db =>
      let sql := "INSERT INTO errors(source, message) VALUES(?, ?);" in
      match sqlite3_prepare_v2 db sql with
      | None => (false, report (prepare_failed "logError" (sqlite3_errmsg db)) h)
      | Some stmt =>
          let stmt := sqlite3_bind_text stmt 1 source in
          let stmt := sqlite3_bind_text stmt 2 message in
          step_and_finalize "logError" stmt db h
      end
  end.

End Db.

(** ** Notions the properties are stated with *)

(** The transform contract of the specification:
    [compose(scale, rotXDeg, rotYDeg, rotZDeg, translation)], "computed as
    T · Rz · Ry · Rx · S (translation outermost, then Z-rotation, then
    Y-rotation, then X-rotation, then scale)". *)
Definition compose (scaleV : vec3) (rotXDeg rotYDeg rotZDeg : Q) (translationV : vec3) : mat4 :=
  let T := translate translationV in
  let Rz := rotate (radians rotZDeg) (Vec3 0 0 1) in
  let Ry := rotate (radians rotYDeg) (Vec3 0 1 0) in
  let Rx := rotate (radians rotXDeg) (Vec3 1 0 0) in
  let S := scale scaleV in
  (T × Rz × Ry × Rx × S)%mat.

(** The texture object a successful [loadTextureFromFile] leaves behind:
    uploaded in the selected format, mipmapped, repeat wrap, trilinear
    minification and linear magnification. *)
Definition loaded_texture (fmt : GLenum) (img : Image) : TexObject :=
  {| tex_image := Some {| internalformat := fmt; tex_width := width img;
                          tex_height := height img; format := fmt |};
     tex_params := [(GL_TEXTURE_WRAP_S, GL_REPEAT); (GL_TEXTURE_WRAP_T, GL_REPEAT);
                    (GL_TEXTURE_MIN_FILTER, GL_LINEAR_MIPMAP_LINEAR);
                    (GL_TEXTURE_MAG_FILTER, GL_LINEAR)];
     tex_mipmaps := true |}.

(** The world a successful [loadTextureFromFile] leaves behind: one more
    texture, under the name [glGenTextures] handed out, nothing bound. *)
Definition loaded_world (w : World) (flipVertically : bool) (fmt : GLenum) (img : Image)
  : World :=
  {| gl_textures := <[fresh_name w := loaded_texture fmt img]> (gl_textures w);
     gl_bound := 0%N;
     gl_deleted := gl_deleted w;
     stbi_flip := flipVertically;
     files := files w;
     console := console w |}.

(** The registry owns what it stores: every non-zero handle in the map is
    the name of a live texture. *)
Definition registry_ok (sm : SceneManager) (w : World) : Prop :=
  ∀ t h, m_textureMap sm !! t = Some h → h ≠ 0%N → live w h.

(** The invariant of the registry: every stored handle is the non-zero
    name of a live texture, and no two tags share a handle. *)
Definition registry_inv (sm : SceneManager) (w : World) : Prop :=
  (∀ t h, m_textureMap sm !! t = Some h → h ≠ 0%N ∧ live w h)
  ∧ (∀ t1 t2 h, m_textureMap sm !! t1 = Some h → m_textureMap sm !! t2 = Some h → t1 = t2).

(** The states the texture operations can produce, from a scene manager
    that was just constructed (nothing registered) in any world. *)
Inductive reachable : SceneManager → World → Prop :=
| reach_new (sm : SceneManager) (w : World) :
    m_textureMap sm = ∅ → reachable sm w
| reach_CreateGLTexture (sm : SceneManager) (w : World) (t filePath : string) (flip : bool) :
    reachable sm w →
    reachable (CreateGLTexture sm t filePath flip w).1.2
              (CreateGLTexture sm t filePath flip w).2
| reach_LoadTexture (sm : SceneManager) (w : World) (filepath : string) :
    reachable sm w → reachable sm (LoadTexture filepath w).2
| reach_DestroyGLTextures (sm : SceneManager) (w : World) :
    reachable sm w →
    reachable (DestroyGLTextures sm w).1 (DestroyGLTextures sm w).2
| reach_uniforms (sm : SceneManager) (w : World) (s : option ShaderManager) :
    reachable sm w → reachable (with_shader sm s) w.

(** The pixel format a texture was uploaded with, if the name is in use
    and has an image. *)
Definition uploaded_format (w : World) (id : GLuint) : option GLenum :=
  match gl_textures w !! id with
  | Some t => format <$> tex_image t
  | None => None
  end.

(** A rational that is a [float]: the conversion leaves it as it is. *)
Definition is_float (q : Q) : Prop := float32 q == q.

(** A magnitude of at most half of [FLT_MAX]: such a value, and the
    difference of two [float]s of that kind, converts to a finite
    [float], so that [Ieee.round] is the conversion the program makes. *)
Definition in_float_range (q : Q) : Prop := Qabs q <= FLT_MAX / 2.



(** The delta time of a frame that [PrepareSceneView] enters at the clock
    value [time]. *)
Definition delta_time (time : Q) (v : View.ViewManager) : Q :=
  float32 (float32 time - View.gLastFrame v).

(** The window aspect ratio [PrepareSceneView] computes in both branches. *)
Definition aspect `{View.Defines} : Q :=
  inject_Z View.WINDOW_WIDTH / inject_Z View.WINDOW_HEIGHT.

(** The camera after the six movement keys of [ProcessKeyboardEvents]. *)
Definition camera_after_keys `{CameraLib} (pressed : View.Key -> bool) (deltaTime : Q)
    (c : Camera) : Camera :=
  let c := View.on_key pressed View.GLFW_KEY_W FORWARD deltaTime c in
  let c := View.on_key pressed View.GLFW_KEY_S BACKWARD deltaTime c in
  let c := View.on_key pressed View.GLFW_KEY_A LEFT deltaTime c in
  let c := View.on_key pressed View.GLFW_KEY_D RIGHT deltaTime c in
  let c := View.on_key pressed View.GLFW_KEY_Q UP deltaTime c in
  View.on_key pressed View.GLFW_KEY_E DOWN deltaTime c.

(** The projection mode after the keys P and O of [ProcessKeyboardEvents]:
    O is tested last. *)
Definition mode_after_keys (pressed : View.Key -> bool) (orthographic : bool) : bool :=
  if pressed View.GLFW_KEY_O then true
  else if pressed View.GLFW_KEY_P then false
  else orthographic.

(** The three writes of one frame. *)
Definition frame_writes `{View.Defines} (c : Camera) (orthographic : bool)
  : list (string * uniform_value) :=
  [(View.g_ViewName, UMat4 (GetViewMatrix c));
   (View.g_ProjectionName, UMat4 (View.projection_matrix orthographic (Zoom c)));
   ("viewPosition", UVec3 (Position c))].


(** The material of the specification's end-to-end scenario. *)
Definition glass : OBJECT_MATERIAL :=
  {| diffuseColor := Vec3 0.1 0.1 0.1;
     specularColor := Vec3 0.6 0.6 0.6;
     shininess := 32;
     tag := "glass" |}.

(** A table that registers the specification's "glass" material. *)
Definition glass_table (s : ShaderManager) : SceneManager :=
  {| m_pShaderManager := Some s;
     m_objectMaterials := [glass];
     m_textureMap := ∅;
     m_textureIDs := [] |}.

(** ** Sample states *)

(** A camera library with the usual constants of camera.h; the two vector
    functions are those of a camera that looks down the negative z axis. *)
Definition sample_camera_lib : CameraLib :=
  {| MouseSensitivity := 0.1;
     PitchLimit := 89;
     front_of := fun _ _ => Vec3 0 0 (-1);
     right_of := fun _ _ => Vec3 1 0 0 |}.

(** The window of [ViewConfig]'s defaults and the uniform names. *)
Definition sample_defines : View.Defines :=
  {| View.WINDOW_WIDTH := 1000;
     View.WINDOW_HEIGHT := 800;
     View.g_ViewName := "view";
     View.g_ProjectionName := "projection" |}.

(** The camera the [ViewManager] constructor sets up from the defaults of
    [ViewConfig]. *)
Definition sample_camera : Camera :=
  {| Position := Vec3 0 5 12;
     Front := Vec3 0 (-0.5) (-2);
     Up := Vec3 0 1 0;
     Zoom := 80;
     MovementSpeed := 20;
     Yaw := -90;
     Pitch := 0 |}.

(** The view manager at session start. *)
Definition sample_view : View.ViewManager :=
  {| View.m_pShaderManager := Some [];
     View.g_pCamera := Some sample_camera;
     View.gLastX := 500;
     View.gLastY := 400;
     View.gFirstMouse := true;
     View.gDeltaTime := 0;
     View.gLastFrame := 0;
     View.bOrthographicProjection := false;
     View.windowShouldClose := false |}.

(** No key held. *)
Definition no_key (k : View.Key) : bool := false.

(** Only the key O held. *)
Definition key_O (k : View.Key) : bool :=
  match k with View.GLFW_KEY_O => true | _ => false end.

(** A scene manager with nothing registered. *)
Definition empty_scene : SceneManager :=
  {| m_pShaderManager := Some [];
     m_objectMaterials := [];
     m_textureMap := ∅;
     m_textureIDs := [] |}.

(** A world without textures, with three image files: RGB, RGBA and
    two-channel (grey with alpha). *)
Definition sample_world : World :=
  {| gl_textures := ∅;
     gl_bound := 0%N;
     gl_deleted := [];
     stbi_flip := false;
     files := <["wood.jpeg" := {| width := 4; height := 4; channels := 3 |}]>
              (<["leaf.png" := {| width := 2; height := 2; channels := 4 |}]>
              (<["grey_alpha.png" := {| width := 2; height := 2; channels := 2 |}]> ∅));
     console := [] |}.

(** A machine on which the database file cannot be opened. *)
Definition sqlite_unavailable : Db.Sqlite :=
  {| Db.sqlite3 := unit;
     Db.sqlite3_stmt := unit;
     Db.sqlite3_open := fun _ => inr "unable to open database file";
     Db.sqlite3_exec := fun _ db => (Db.SQLITE_OK, db);
     Db.sqlite3_prepare_v2 := fun _ _ => Some tt;
     Db.sqlite3_bind_text := fun stmt _ _ => stmt;
     Db.sqlite3_bind_double := fun stmt _ _ => stmt;
     Db.sqlite3_step := fun _ db => (true, db);
     Db.sqlite3_errmsg := fun _ => "" |}.

(** ** More of the program: texture slots and samplers *)

(** The [while] loop of [FindTextureSlot], entered at [index] with the
    slots from [index] on still to be looked at; -1 when no slot carries
    the tag.  [m_loadedTextures] is the length of [m_textureIDs]. *)
Fixpoint FindTextureSlot_loop (slots : list TEXTURE_INFO) (t : string) (index : Z) : Z :=
  match slots with
  | [] => (-1)%Z
  | e :: rest =>
      if String.eqb (tex_tag e) t then index
      else FindTextureSlot_loop rest t (index + 1)%Z
  end.

Definition FindTextureSlot (sm : SceneManager) (t : string) : Z :=
  FindTextureSlot_loop (m_textureIDs sm) t 0%Z.

Definition SetShaderTexture (sm : SceneManager) (textureTag : string) : SceneManager :=
  match m_pShaderManager sm with
  | Some s =>
      let s := setIntValue g_UseTextureName (int_of_bool true) s in
      let textureID := FindTextureSlot sm textureTag in
      let s := setSampler2DValue g_TextureValueName textureID s in
      with_shader sm (Some s)
  | None => sm
  end.

Definition SetTextureUVScale (sm : SceneManager) (u v : Q) : SceneManager :=
  match m_pShaderManager sm with
  | Some s => with_shader sm (Some (setVec2Value "UVscale" (Vec2 u v) s))
  | None => sm
  end.

(** The texture units: the active one and the GL_TEXTURE_2D binding of
    each.  [gl_bound] of the world is the binding of the active unit. *)
Record TextureUnits := {
  active_unit : Z;
  unit_binding : gmap Z N
}.

(** [glActiveTexture(GL_TEXTURE0 + i)]. *)
Definition glActiveTexture (i : Z) (u : TextureUnits) : TextureUnits :=
  {| active_unit := i; unit_binding := unit_binding u |}.

(** [glBindTexture(GL_TEXTURE_2D, id)], with the texture units in view. *)
Definition glBindTexture_unit (id : GLuint) (wu : World * TextureUnits)
  : World * TextureUnits :=
  (glBindTexture id wu.1,
   {| active_unit := active_unit wu.2;
      unit_binding := <[active_unit wu.2 := id]> (unit_binding wu.2) |}).

(** The functions of the array of slots that [Legacy] does not have. *)
Module Slots.

(** The [for] loop of [BindGLTextures], entered at index [i]. *)
Fixpoint BindGLTextures_loop (slots : list TEXTURE_INFO) (i : Z)
    (wu : World * TextureUnits) : World * TextureUnits :=
  match slots with
  | [] => wu
  | e :: rest =>
      let wu := (wu.1, glActiveTexture i wu.2) in
      let wu := glBindTexture_unit (ID e) wu in
      BindGLTextures_loop rest (i + 1)%Z wu
  end.

Definition BindGLTextures (sm : SceneManager) (wu : World * TextureUnits)
  : World * TextureUnits :=
  BindGLTextures_loop (m_textureIDs sm) 0%Z wu.

(** The body of the loop of the earlier [DestroyGLTextures], as far as
    the world goes: a slot with a non-zero ID has its texture deleted. *)
Definition delete_slot (w : World) (e : TEXTURE_INFO) : World :=
  if negb (N.eqb (ID e) 0%N) then glDeleteTextures (ID e) w else w.

(** The earlier [DestroyGLTextures()]: every slot is zeroed and its tag
    cleared, and [m_loadedTextures] is set to 0, which leaves no slot. *)
Definition DestroyGLTextures (sm : SceneManager) (w : World) : SceneManager * World :=
  (with_textureIDs sm [], foldl delete_slot w (m_textureIDs sm)).

End Slots.

(** ** More of the program: scene setup and rendering *)

(** A call [m_pShaderManager->f(..)] that the source makes without a null
    test. *)
Definition via_shader (f : ShaderManager → ShaderManager) (sm : SceneManager)
  : option SceneManager :=
  s ← m_pShaderManager sm; Some (with_shader sm (Some (f s))).

Definition DefineObjectMaterials (sm : SceneManager) : option SceneManager :=
  sm ← via_shader (setVec3Value "material.diffuseColor" (Vec3 1 1 1)) sm;
  sm ← via_shader (setVec3Value "material.specularColor" (Vec3 0.6 0.6 0.6)) sm;
  via_shader (setFloatValue "material.shininess" 32) sm.

(** The name ["pointLights[" + std::to_string(i) + "].bActive"]. *)
Definition pointLight_bActive (i : Z) : string :=
  "pointLights[" +:+ pretty i +:+ "].bActive".

Definition SetupSceneLights (sm : SceneManager) : option SceneManager :=
  sm ← via_shader (setBoolValue "bUseLighting" true) sm;
  sm ← via_shader (setBoolValue "directionalLight.bActive" true) sm;
  sm ← via_shader (setVec3Value "directionalLight.direction" (Vec3 (-0.3) (-1) (-0.3))) sm;
  sm ← via_shader (setVec3Value "directionalLight.ambient" (vec3_splat 0.3)) sm;
  sm ← via_shader (setVec3Value "directionalLight.diffuse" (vec3_splat 0.6)) sm;
  sm ← via_shader (setVec3Value "directionalLight.specular" (vec3_splat 1)) sm;
  sm ← via_shader (setBoolValue "pointLights[0].bActive" true) sm;
  sm ← via_shader (setVec3Value "pointLights[0].position" (Vec3 1 3 2)) sm;
  sm ← via_shader (setVec3Value "pointLights[0].ambient" (Vec3 0.2 0.1 0.1)) sm;
  sm ← via_shader (setVec3Value "pointLights[0].diffuse" (Vec3 0.9 0.3 0.3)) sm;
  sm ← via_shader (setVec3Value "pointLights[0].specular" (Vec3 0.9 0.3 0.3)) sm;
  sm ← foldl (fun acc i => sm ← acc; via_shader (setBoolValue (pointLight_bActive i) false) sm)
             (Some sm) (seqZ 1 4);
  via_shader (setBoolValue "spotLight.bActive" false) sm.

Inductive Mesh :=
| BoxMesh | SphereMesh | PlaneMesh | CylinderMesh | ConeMesh | TorusMesh
| TaperedCylinderMesh.

(** The scene manager with the members that [LoadSceneTextures] fills and
    the meshes that [m_basicMeshes] was asked to load. *)
Record Scene := {
  manager : SceneManager;
  m_textureWood : GLuint;
  m_textureMouseBody : GLuint;
  m_textureMouseButtons : GLuint;
  m_basicMeshes : list Mesh
}.

Definition with_manager (sc : Scene) (sm : SceneManager) : Scene :=
  {| manager := sm;
     m_textureWood := m_textureWood sc;
     m_textureMouseBody := m_textureMouseBody sc;
     m_textureMouseButtons := m_textureMouseButtons sc;
     m_basicMeshes := m_basicMeshes sc |}.

Definition LoadSceneTextures (sc : Scene) (w : World) : Scene * World :=
  let '(wood, w) := LoadTexture "textures/wood_seamless.jpeg" w in
  let '(body, w) := LoadTexture "textures/grey_mouse_body.jpeg" w in
  let '(buttons, w) := LoadTexture "textures/dark_mouse_buttons.jpeg" w in
  ({| manager := manager sc;
      m_textureWood := wood;
      m_textureMouseBody := body;
      m_textureMouseButtons := buttons;
      m_basicMeshes := m_basicMeshes sc |}, w).

Definition PrepareScene (sc : Scene) (w : World) : option (Scene * World) :=
  let '(sc, w) := LoadSceneTextures sc w in
  sm ← DefineObjectMaterials (manager sc);
  sm ← SetupSceneLights sm;
  Some ({| manager := sm;
           m_textureWood := m_textureWood sc;
           m_textureMouseBody := m_textureMouseBody sc;
           m_textureMouseButtons := m_textureMouseButtons sc;
           m_basicMeshes := m_basicMeshes sc ++ [BoxMesh; SphereMesh; PlaneMesh;
                                                 CylinderMesh; ConeMesh; TorusMesh] |}, w).

(** One draw call of [m_basicMeshes], with what it finds at that moment:
    the uniform sink and the GL_TEXTURE_2D binding. *)
Record Draw := {
  drawn : Mesh;
  draw_sink : option ShaderManager;
  draw_texture : GLuint
}.

(** The state [RenderScene] runs in. *)
Record Rendering := {
  r_manager : SceneManager;
  r_world : World;
  r_draws : list Draw
}.

Definition transform (scaleXYZ : vec3) (rx ry rz : Q) (positionXYZ : vec3) (r : Rendering)
  : Rendering :=
  {| r_manager := SetTransformations (r_manager r) scaleXYZ rx ry rz positionXYZ;
     r_world := r_world r; r_draws := r_draws r |}.

Definition use_texture (b : bool) (r : Rendering) : option Rendering :=
  sm ← via_shader (setBoolValue "bUseTexture" b) (r_manager r);
  Some {| r_manager := sm; r_world := r_world r; r_draws := r_draws r |}.

Definition bind_texture (id : GLuint) (r : Rendering) : Rendering :=
  {| r_manager := r_manager r; r_world := glBindTexture id (r_world r);
     r_draws := r_draws r |}.

Definition shader_color (red green blue alpha : Q) (r : Rendering) : Rendering :=
  {| r_manager := SetShaderColor (r_manager r) red green blue alpha;
     r_world := r_world r; r_draws := r_draws r |}.

Definition draw (m : Mesh) (r : Rendering) : Rendering :=
  {| r_manager := r_manager r; r_world := r_world r;
     r_draws := r_draws r ++ [{| drawn := m;
                                 draw_sink := m_pShaderManager (r_manager r);
                                 draw_texture := gl_bound (r_world r) |}] |}.

(** A [for (int i = 0; i < n; i++)] loop whose body does not fail. *)
Definition for_each (n : nat) (body : Z → Rendering → Rendering) (r : Rendering) : Rendering :=
  foldl (fun r i => body i r) r (seqZ 0 (Z.of_nat n)).

(** [RenderScene()]: the scene manager and the world after the frame, and
    the draw calls of the frame in order. *)
Definition RenderScene (sc : Scene) (w : World) : option Rendering :=
  let r := {| r_manager := manager sc; r_world := w; r_draws := [] |} in
  (* desk plane *)
  let r := transform (Vec3 20 1 10) 0 0 0 (vec3_splat 0) r in
  r ← use_texture true r;
  let r := bind_texture (m_textureWood sc) r in
  let r := draw PlaneMesh r in
  (* mouse body *)
  let r := transform (Vec3 0.9 0.5 1.3) 0 0 (-15) (Vec3 (-2) 0.5 0) r in
  r ← use_texture true r;
  let r := bind_texture (m_textureMouseBody sc) r in
  let r := draw SphereMesh r in
  (* mouse buttons *)
  r ← use_texture true r;
  let r := bind_texture (m_textureMouseButtons sc) r in
  let r := for_each 2 (fun i r =>
             let r := transform (Vec3 0.2 0.05 0.2) 90 0 0
                                (Vec3 (-2 + 0.1 * inject_Z i) 0.65 0.2) r in
             draw TaperedCylinderMesh r) r in
  (* keyboard *)
  let r := transform (Vec3 3 0.3 1.5) 0 0 0 (Vec3 1 0.15 0) r in
  r ← use_texture false r;
  let r := shader_color 0.9 0.9 0.9 1 r in
  let r := draw BoxMesh r in
  (* wrist rest *)
  r ← use_texture false r;
  let r := shader_color 1 1 1 1 r in
  let r := for_each 3 (fun i r =>
             let r := transform (vec3_splat 0.6) 0 0 0
                                (Vec3 (-0.5 + inject_Z i * 0.6) 0.35 (-0.6)) r in
             draw SphereMesh r) r in
  (* glasses *)
  r ← use_texture false r;
  let r := shader_color 0.1 0.1 0.1 1 r in
  let r := for_each 2 (fun i r =>
             let r := transform (vec3_splat 0.3) 90 0 0
                                (Vec3 (-0.5 + inject_Z i * 0.8) 0.5 1) r in
             draw TorusMesh r) r in
  (* bridge of the glasses *)
  let r := transform (Vec3 0.8 0.05 0.05) 0 0 0 (Vec3 (-0.1) 0.5 1) r in
  let r := draw BoxMesh r in
  Some r.

(** The current value of a uniform at a draw call. *)
Definition current (d : Draw) (name : string) : option uniform_value :=
  match draw_sink d with
  | Some s => uniforms s !! name
  | None => None
  end.

(** What a draw call takes from the state around it: its mesh, the
    current "model" and "bUseTexture", the bound texture and, unless
    "bUseTexture" is the boolean true, the current "objectColor". *)
Definition seen (d : Draw)
  : Mesh * option uniform_value * option uniform_value * GLuint * option uniform_value :=
  (drawn d, current d "model", current d "bUseTexture", draw_texture d,
   match current d "bUseTexture" with
   | Some (UBool true) => None
   | _ => current d "objectColor"
   end).

(** A draw call whose sink has the writes [s] in front of its own. *)
Definition after_sink (s : ShaderManager) (d : Draw) : Draw :=
  {| drawn := drawn d;
     draw_sink := (fun l => s ++ l) <$> draw_sink d;
     draw_texture := draw_texture d |}.

(** A draw call that finds "model" and "bUseTexture" written, and
    "objectColor" too unless "bUseTexture" is the boolean true. *)
Definition self_contained (d : Draw) : Prop :=
  is_Some (current d "model")
  ∧ is_Some (current d "bUseTexture")
  ∧ (current d "bUseTexture" = Some (UBool true) ∨ is_Some (current d "objectColor")).

(** The frame as it is rendered on an empty sink: its draw calls and its
    writes. *)
Definition empty_frame (sc : Scene) : option Rendering :=
  RenderScene (with_manager sc (with_shader empty_scene (Some []))) sample_world.

Definition frame_draws (sc : Scene) : list Draw :=
  match empty_frame sc with
  | Some r => r_draws r
  | None => []
  end.

Definition frame_log (sc : Scene) : ShaderManager :=
  match empty_frame sc with
  | Some r => default [] (m_pShaderManager (r_manager r))
  | None => []
  end.

(** ** More of the program: closing the database *)

(** [DbHelper::close()]: the connection, if there is one, is handed to
    [sqlite3_close] and the handle becomes null. *)
Definition DbHelper_close `{Db.Sqlite} (h : Db.DbHelper) : Db.DbHelper :=
  match Db.db_ h with
  | Some _ => Db.set_db None h
  | None => h
  end.

(** What a writer of [DbHelper] may do to an open helper: it stays open;
    a true result comes with nothing reported, a false result with exactly
    one report, which names the method and is either a failed prepare, the
    helper then being otherwise unchanged, or a failed step. *)
Definition writer_outcome `{Db.Sqlite} (method : string) (h : Db.DbHelper)
    (r : bool * Db.DbHelper) : Prop :=
  is_Some (Db.db_ r.2)
  ∧ (r.1 = true → Db.cerr r.2 = Db.cerr h)
  ∧ (r.1 = false →
       ∃ errmsg,
         (Db.cerr r.2 = Db.cerr h ++ [Db.prepare_failed method errmsg]
          ∧ Db.db_ r.2 = Db.db_ h)
         ∨ Db.cerr r.2 = Db.cerr h ++ [Db.step_failed method errmsg]).

(** ** More sample states *)

(** A scene whose manager was just constructed. *)
Definition sample_scene : Scene :=
  {| manager := empty_scene;
     m_textureWood := 0%N;
     m_textureMouseBody := 0%N;
     m_textureMouseButtons := 0%N;
     m_basicMeshes := [] |}.


(** The view manager of the sample, without a camera. *)
Definition sample_view_no_camera : View.ViewManager := View.set_camera sample_view None.

(** Escape and P held. *)
Definition key_Escape_P (k : View.Key) : bool :=
  match k with View.GLFW_KEY_ESCAPE | View.GLFW_KEY_P => true | _ => false end.

(** An engine on which the database opens and statements can be prepared,
    but no step completes. *)
Definition sqlite_step_fails : Db.Sqlite :=
  {| Db.sqlite3 := unit;
     Db.sqlite3_stmt := unit;
     Db.sqlite3_open := fun _ => inl tt;
     Db.sqlite3_exec := fun _ db => (Db.SQLITE_OK, db);
     Db.sqlite3_prepare_v2 := fun _ _ => Some tt;
     Db.sqlite3_bind_text := fun stmt _ _ => stmt;
     Db.sqlite3_bind_double := fun stmt _ _ => stmt;
     Db.sqlite3_step := fun _ db => (false, db);
     Db.sqlite3_errmsg := fun _ => "database is locked" |}.

(* ===================================================================== *)
(** * Part II: properties *)
(* ===================================================================== *)

(** ** The uniform sink *)

Lemma uniforms_snoc (s : ShaderManager) (name : string) (v : uniform_value) :
  uniforms (s ++ [(name, v)]) = <[name := v]> (uniforms s).
Proof. unfold uniforms. by rewrite foldl_snoc. Qed.

Lemma uniforms_last (s : ShaderManager) (name : string) (v : uniform_value) :
  uniforms (s ++ [(name, v)]) !! name = Some v.
Proof. rewrite uniforms_snoc. apply lookup_insert_eq. Qed.

Lemma uniforms_other (s : ShaderManager) (name other : string) (v : uniform_value) :
  name ≠ other → uniforms (s ++ [(name, v)]) !! other = uniforms s !! other.
Proof. intros Hne. rewrite uniforms_snoc. by apply lookup_insert_ne. Qed.

Lemma with_shader_shader (sm : SceneManager) (s : option ShaderManager) :
  m_pShaderManager (with_shader sm s) = s.
Proof. reflexivity. Qed.

Lemma with_shader_twice (sm : SceneManager) (s s' : option ShaderManager) :
  with_shader (with_shader sm s) s' = with_shader sm s'.
Proof. reflexivity. Qed.

(** ** Transform composition *)

Section Transformations.

Variable sm : SceneManager.
Variables (scaleXYZ positionXYZ : vec3).
Variables (XrotationDegrees YrotationDegrees ZrotationDegrees : Q).

(** Without a shader manager the call changes nothing. *)
Lemma SetTransformations_null :
  SetTransformations (with_shader sm None) scaleXYZ
    XrotationDegrees YrotationDegrees ZrotationDegrees positionXYZ
  = with_shader sm None.
Proof. reflexivity. Qed.

(** C1.  For every scale vector, every three rotation angles in degrees
    and every translation vector, [SetTransformations] appends exactly one
    write to the uniform sink: the slot "model" receives the matrix
    T · Rz · Ry · Rx · S of the specification's [compose], translation
    outermost and scale innermost; after the call that matrix is the
    current value of "model".  Nothing else of the scene manager changes. *)
Theorem SetTransformations_composes_T_Rz_Ry_Rx_S (s : ShaderManager) :
  let model :=
    compose scaleXYZ XrotationDegrees YrotationDegrees ZrotationDegrees positionXYZ in
  let sm' :=
    SetTransformations (with_shader sm (Some s)) scaleXYZ
      XrotationDegrees YrotationDegrees ZrotationDegrees positionXYZ in
  sm' = with_shader sm (Some (s ++ [("model", UMat4 model)]))
  ∧ model = (translate positionXYZ
             × rotate (radians ZrotationDegrees) (Vec3 0 0 1)
             × rotate (radians YrotationDegrees) (Vec3 0 1 0)
             × rotate (radians XrotationDegrees) (Vec3 1 0 0)
             × scale scaleXYZ)%mat
  ∧ uniforms (s ++ [("model", UMat4 model)]) !! "model" = Some (UMat4 model).
Proof.
  cbv zeta. split; [reflexivity | split; [reflexivity |]].
  apply uniforms_last.
Qed.

End Transformations.

(** The order of the five factors is observable: exchanging translation
    and scale gives another matrix expression. *)
Lemma compose_order_matters :
  compose (Vec3 2 2 2) 0 0 0 (Vec3 1 0 0)
  ≠ (scale (Vec3 2 2 2) × rotate (radians 0) (Vec3 1 0 0)
     × rotate (radians 0) (Vec3 0 1 0) × rotate (radians 0) (Vec3 0 0 1)
     × translate (Vec3 1 0 0))%mat.
Proof. discriminate. Qed.

(** ** Solid colour *)

Section ShaderColor.

Variable sm : SceneManager.
Variables (redColorValue greenColorValue blueColorValue alphaValue : Q).

Lemma SetShaderColor_null :
  SetShaderColor (with_shader sm None)
    redColorValue greenColorValue blueColorValue alphaValue
  = with_shader sm None.
Proof. reflexivity. Qed.

(** C9.  With a shader manager present, [SetShaderColor] appends two
    writes to the sink, in this order: "bUseTexture" := 0 (false), then
    "objectColor" := the colour.  Whatever the sink held before (in
    particular a "bUseTexture" left at 1 by a textured object), after the
    call the current value of "bUseTexture" is 0 and that of "objectColor"
    is the colour passed. *)
Theorem SetShaderColor_disables_texture_first (s : ShaderManager) :
  let color := Vec4 redColorValue greenColorValue blueColorValue alphaValue in
  let s' := s ++ [("bUseTexture", UInt 0); ("objectColor", UVec4 color)] in
  SetShaderColor (with_shader sm (Some s))
    redColorValue greenColorValue blueColorValue alphaValue
  = with_shader sm (Some s')
  ∧ s' !! length s = Some ("bUseTexture", UInt 0)
  ∧ s' !! S (length s) = Some ("objectColor", UVec4 color)
  ∧ uniforms s' !! "bUseTexture" = Some (UInt 0)
  ∧ uniforms s' !! "objectColor" = Some (UVec4 color).
Proof.
  cbv zeta. repeat split.
  - unfold SetShaderColor, setVec4Value, setIntValue. cbn.
    by rewrite <- app_assoc.
  - by rewrite lookup_app_r, Nat.sub_diag.
  - rewrite lookup_app_r by lia. by replace (S (length s) - length s)%nat with 1%nat by lia.
  - change (s ++ [("bUseTexture", UInt 0); ("objectColor", UVec4 _)])
      with (s ++ [("bUseTexture", UInt 0)] ++ [("objectColor", UVec4
              (Vec4 redColorValue greenColorValue blueColorValue alphaValue))]).
    rewrite app_assoc, uniforms_other by discriminate. apply uniforms_last.
  - change (s ++ [("bUseTexture", UInt 0); ("objectColor", UVec4 _)])
      with (s ++ [("bUseTexture", UInt 0)] ++ [("objectColor", UVec4
              (Vec4 redColorValue greenColorValue blueColorValue alphaValue))]).
    rewrite app_assoc. apply uniforms_last.
Qed.

End ShaderColor.

(** ** Materials *)

Section Materials.

Variable sm : SceneManager.

(** The loop reports a hit exactly when some entry carries the tag. *)
Lemma FindMaterial_loop_found (ms : list OBJECT_MATERIAL) (t : string) (g : OBJECT_MATERIAL) :
  (FindMaterial_loop ms t g).1 = true ↔ ∃ m, m ∈ ms ∧ tag m = t.
Proof.
  induction ms as [|m ms IH]; cbn.
  - split; [discriminate | intros (m & Hm & _); inversion Hm].
  - destruct (String.eqb_spec (tag m) t) as [Heq | Hne]; cbn.
    + split; [intros _ | done]. exists m. split; [left | done].
    + rewrite IH. split.
      * intros (m' & Hm' & Ht). exists m'. split; [by right | done].
      * intros (m' & Hm' & Ht). apply elem_of_cons in Hm' as [-> | Hm']; [done |].
        by exists m'.
Qed.

(** On a miss the loop leaves the out-parameter as it was. *)
Lemma FindMaterial_loop_miss (ms : list OBJECT_MATERIAL) (t : string) (g : OBJECT_MATERIAL) :
  (∀ m, m ∈ ms → tag m ≠ t) → FindMaterial_loop ms t g = (false, g).
Proof.
  induction ms as [|m ms IH]; intros Hall; cbn; [done |].
  destruct (String.eqb_spec (tag m) t) as [Heq | Hne].
  - exfalso. apply (Hall m); [left | done].
  - apply IH. intros m' Hm'. apply Hall. by right.
Qed.

(** An empty table is the only case in which [FindMaterial] answers false. *)
Lemma FindMaterial_false_iff_empty (t : string) (g : OBJECT_MATERIAL) :
  (FindMaterial sm t g).1 = false ↔ m_objectMaterials sm = [].
Proof.
  unfold FindMaterial. destruct (m_objectMaterials sm) as [|m ms]; cbn; [done |].
  destruct (String.eqb (tag m) t); [done |].
  by destruct (FindMaterial_loop ms t g).
Qed.

(** A tag that no entry of a non-empty table carries: [FindMaterial] still
    answers true and hands back the out-parameter untouched. *)
Lemma FindMaterial_absent_tag (t : string) (g : OBJECT_MATERIAL) :
  m_objectMaterials sm ≠ [] →
  (∀ m, m ∈ m_objectMaterials sm → tag m ≠ t) →
  FindMaterial sm t g = (true, g).
Proof.
  intros Hne Hall. unfold FindMaterial.
  destruct (m_objectMaterials sm) as [|m ms] eqn:Hms; [done |].
  cbn [length Nat.eqb]. by rewrite (FindMaterial_loop_miss _ _ _ Hall).
Qed.

(** ... and [SetShaderMaterial] pushes the three fields of its
    uninitialised local to the sink. *)
Lemma SetShaderMaterial_absent_tag (t : string) (g : OBJECT_MATERIAL) (s : ShaderManager) :
  m_pShaderManager sm = Some s →
  m_objectMaterials sm ≠ [] →
  (∀ m, m ∈ m_objectMaterials sm → tag m ≠ t) →
  SetShaderMaterial sm t g
  = Some (with_shader sm (Some (s ++ [("material.diffuseColor", UVec3 (diffuseColor g));
                                      ("material.specularColor", UVec3 (specularColor g));
                                      ("material.shininess", UFloat (shininess g))]))).
Proof.
  intros Hs Hne Hall. unfold SetShaderMaterial.
  rewrite (FindMaterial_absent_tag _ _ Hne Hall), Hs.
  destruct (m_objectMaterials sm); [done |]. cbn.
  unfold setFloatValue, setVec3Value. by rewrite <- !app_assoc.
Qed.

End Materials.

(** The registered half of the scenario holds: looking up "glass" answers
    true with the registered values, and [SetShaderMaterial] pushes exactly
    those three values. *)
Lemma FindMaterial_glass (g : OBJECT_MATERIAL) (s : ShaderManager) :
  FindMaterial (glass_table s) "glass" g
  = (true, {| diffuseColor := Vec3 0.1 0.1 0.1; specularColor := Vec3 0.6 0.6 0.6;
              shininess := 32; tag := tag g |})
  ∧ SetShaderMaterial (glass_table s) "glass" g
    = Some (with_shader (glass_table s)
              (Some (s ++ [("material.diffuseColor", UVec3 (Vec3 0.1 0.1 0.1));
                           ("material.specularColor", UVec3 (Vec3 0.6 0.6 0.6));
                           ("material.shininess", UFloat 32)]))).
Proof.
  split; [reflexivity |].
  unfold SetShaderMaterial. cbn. unfold setFloatValue, setVec3Value.
  by rewrite <- !app_assoc.
Qed.

(** C2.  The code at the failing input: with "glass" registered, looking
    up the unregistered tag "unknown" makes [FindMaterial] answer true (not
    false) and leave the out-parameter as the caller passed it, and
    [SetShaderMaterial "unknown"] appends three writes to the sink, namely
    the fields of its uninitialised local [g]. *)
Theorem FindMaterial_unknown_tag_answers_true (g : OBJECT_MATERIAL) (s : ShaderManager) :
  FindMaterial (glass_table s) "unknown" g = (true, g)
  ∧ SetShaderMaterial (glass_table s) "unknown" g
    = Some (with_shader (glass_table s)
              (Some (s ++ [("material.diffuseColor", UVec3 (diffuseColor g));
                           ("material.specularColor", UVec3 (specularColor g));
                           ("material.shininess", UFloat (shininess g))]))).
Proof.
  split; [reflexivity |].
  unfold SetShaderMaterial. cbn. unfold setFloatValue, setVec3Value.
  by rewrite <- !app_assoc.
Qed.

(** ** OpenGL texture names *)

Lemma fresh_name_nonzero (w : World) : fresh_name w ≠ 0%N.
Proof.
  unfold fresh_name. intros Heq.
  pose proof (is_fresh ({[0%N]} ∪ dom (gl_textures w))) as Hfresh.
  rewrite Heq in Hfresh. set_solver.
Qed.

Lemma fresh_name_unused (w : World) : ¬ live w (fresh_name w).
Proof.
  unfold live, fresh_name. intros Hin.
  pose proof (is_fresh ({[0%N]} ∪ dom (gl_textures w))) as Hfresh.
  set_solver.
Qed.

Lemma glDeleteTextures_not_live (id : GLuint) (w : World) :
  ¬ live (glDeleteTextures id w) id.
Proof. unfold live. cbn. rewrite dom_delete_L, elem_of_difference, elem_of_singleton. tauto. Qed.

Lemma glDeleteTextures_live_other (id h : GLuint) (w : World) :
  h ≠ id → live (glDeleteTextures id w) h ↔ live w h.
Proof.
  intros Hne. unfold live. cbn.
  rewrite dom_delete_L, elem_of_difference, elem_of_singleton. tauto.
Qed.

(** An operation on the bound texture, when the binding is the name [id]
    and the texture under it is [x]. *)
Lemma on_bound_insert (f : TexObject → TexObject) (id : GLuint) (x : TexObject)
    (m : gmap GLuint TexObject) (d : list GLuint) (fl : bool)
    (fs : gmap string Image) (c : list message) :
  on_bound f {| gl_textures := <[id := x]> m; gl_bound := id; gl_deleted := d;
                stbi_flip := fl; files := fs; console := c |}
  = {| gl_textures := <[id := f x]> m; gl_bound := id; gl_deleted := d;
       stbi_flip := fl; files := fs; console := c |}.
Proof.
  unfold on_bound, with_gl.
  cbn [gl_textures gl_bound gl_deleted stbi_flip files console].
  by rewrite alter_insert_eq.
Qed.

Lemma glBindTexture_literal (id b : GLuint) (m : gmap GLuint TexObject)
    (d : list GLuint) (fl : bool) (fs : gmap string Image) (c : list message) :
  glBindTexture id {| gl_textures := m; gl_bound := b; gl_deleted := d;
                      stbi_flip := fl; files := fs; console := c |}
  = {| gl_textures := m; gl_bound := id; gl_deleted := d;
       stbi_flip := fl; files := fs; console := c |}.
Proof. reflexivity. Qed.

(** ** Loading a texture from a file *)

Section Loading.

Variables (filePath : string) (flipVertically : bool) (w : World) (img : Image).
Hypothesis decoded : files w !! filePath = Some img.

Lemma loadTextureFromFile_supported (outTex : GLuint) (fmt : GLenum) :
  format_of_channels (channels img) = Some fmt →
  loadTextureFromFile filePath outTex flipVertically w
  = (true, fresh_name w, loaded_world w flipVertically fmt img).
Proof.
  intros Hfmt.
  unfold loadTextureFromFile, stbi_load, stbi_set_flip_vertically_on_load.
  cbn [files]. rewrite decoded, Hfmt.
  unfold glGenTextures, loaded_world, fresh_name. cbn [gl_textures].
  fold (fresh_name w). generalize (fresh_name w). intros id.
  unfold with_gl at 1. cbn [gl_textures gl_bound gl_deleted stbi_flip files console].
  rewrite glBindTexture_literal.
  unfold glTexParameteri, glGenerateMipmap, glTexImage2D.
  rewrite !on_bound_insert, glBindTexture_literal.
  reflexivity.
Qed.

(** An unsupported channel count: the load fails, the reference parameter
    keeps its value and no texture name is generated. *)
Lemma loadTextureFromFile_unsupported (outTex : GLuint) :
  format_of_channels (channels img) = None →
  ∃ w', loadTextureFromFile filePath outTex flipVertically w = (false, outTex, w')
        ∧ gl_textures w' = gl_textures w
        ∧ gl_bound w' = gl_bound w.
Proof.
  intros Hfmt.
  unfold loadTextureFromFile, stbi_load, stbi_set_flip_vertically_on_load.
  cbn [files]. rewrite decoded, Hfmt. eexists. split; [reflexivity |].
  split; reflexivity.
Qed.

End Loading.

Lemma format_of_channels_spec (c : Z) :
  format_of_channels c =
    if decide (c = 1%Z) then Some GL_RED
    else if decide (c = 3%Z) then Some GL_RGB
    else if decide (c = 4%Z) then Some GL_RGBA
    else None.
Proof.
  unfold format_of_channels.
  repeat (case_decide; [subst; reflexivity |]).
  by rewrite !(proj2 (Z.eqb_neq _ _)).
Qed.

(** ** The texture registry: loading under a tag *)

Lemma release_previous_files (sm : SceneManager) (t : string) (w : World) :
  files (release_previous sm t w) = files w.
Proof.
  unfold release_previous. destruct (m_textureMap sm !! t) as [old|]; [|done].
  by destruct (negb (old =? 0)%N).
Qed.

Lemma release_previous_absent (sm : SceneManager) (t : string) (w : World) :
  m_textureMap sm !! t = None → release_previous sm t w = w.
Proof. intros Hnone. unfold release_previous. by rewrite Hnone. Qed.

Lemma release_previous_stored (sm : SceneManager) (t : string) (old : GLuint) (w : World) :
  m_textureMap sm !! t = Some old → old ≠ 0%N →
  release_previous sm t w = glDeleteTextures old w.
Proof.
  intros Hold Hnz. unfold release_previous. rewrite Hold.
  by rewrite (proj2 (N.eqb_neq old 0) Hnz).
Qed.

(** Releasing the previous texture of a tag removes nothing else. *)
Lemma release_previous_live_other (sm : SceneManager) (t : string) (h : GLuint) (w : World) :
  live w h → m_textureMap sm !! t ≠ Some h → live (release_previous sm t w) h.
Proof.
  intros Hlive Hne. unfold release_previous.
  destruct (m_textureMap sm !! t) as [old|] eqn:Hold; [|done].
  destruct (negb (old =? 0)%N); [|done].
  apply glDeleteTextures_live_other; [congruence | done].
Qed.

(** The handle installed under the tag is live afterwards, provided the
    registry owned its handles before. *)
Lemma CreateGLTexture_installs_live (sm : SceneManager) (w : World) (t : string)
    (flipVertically : bool) (img : Image) (fmt : GLenum) :
  registry_ok sm w →
  live (release_previous sm t (loaded_world w flipVertically fmt img)) (fresh_name w).
Proof.
  intros Hown. apply release_previous_live_other.
  - unfold live, loaded_world. cbn [gl_textures]. rewrite dom_insert_L.
    apply elem_of_union_l, elem_of_singleton. reflexivity.
  - intros Hold. apply (fresh_name_unused w).
    apply (Hown t _ Hold), fresh_name_nonzero.
Qed.

Section CreateTexture.

Variables (sm : SceneManager) (w : World).
Variables (t filePath : string) (flipVertically : bool) (img : Image) (fmt : GLenum).
Hypothesis decoded : files w !! filePath = Some img.
Hypothesis supported : format_of_channels (channels img) = Some fmt.

Lemma CreateGLTexture_success :
  CreateGLTexture sm t filePath flipVertically w
  = (true,
     with_textureMap sm (<[t := fresh_name w]> (m_textureMap sm)),
     release_previous sm t (loaded_world w flipVertically fmt img)).
Proof.
  unfold CreateGLTexture.
  by rewrite (loadTextureFromFile_supported _ _ _ _ decoded _ _ supported).
Qed.

End CreateTexture.

Section Reload.

Variables (sm : SceneManager) (w : World) (t : string).
Variables (file1 file2 : string) (flip1 flip2 : bool).
Variables (img1 img2 : Image) (fmt1 fmt2 : GLenum).
Hypothesis owned : registry_ok sm w.
Hypothesis decoded1 : files w !! file1 = Some img1.
Hypothesis decoded2 : files w !! file2 = Some img2.
Hypothesis supported1 : format_of_channels (channels img1) = Some fmt1.
Hypothesis supported2 : format_of_channels (channels img2) = Some fmt2.

(** The map-based [CreateGLTexture(tag, filePath, flipVertically)]: two
    loads under one tag, from two files that decode with a
    supported channel count, in a registry that owns its handles (as it
    does in every state the texture operations can reach).  Both
    calls succeed.  After the first the tag maps to a live handle
    [first].  The second call generates [second], different from [first];
    it deletes [first] in the world [loaded] that the file loader returned
    and only then stores [second] in the map, so that in the world [w2] in
    which the new mapping is installed [first] is already gone.  In the
    end the tag maps to [second] and to nothing else, [second] is live,
    [first] is not, and OpenGL holds as many textures as after the first
    load: the live names are those of before with [second] in place of
    [first]. *)
Lemma CreateGLTexture_same_tag_twice_no_leak :
  ∃ (first second : GLuint) (sm1 sm2 : SceneManager) (w1 loaded w2 : World),
    CreateGLTexture sm t file1 flip1 w = (true, sm1, w1)
    ∧ m_textureMap sm1 !! t = Some first ∧ live w1 first
    ∧ loadTextureFromFile file2 0%N flip2 w1 = (true, second, loaded)
    ∧ CreateGLTexture sm1 t file2 flip2 w1 = (true, sm2, w2)
    ∧ w2 = glDeleteTextures first loaded
    ∧ m_textureMap sm2 = <[t := second]> (m_textureMap sm1)
    ∧ first ≠ second
    ∧ (∀ h, m_textureMap sm2 !! t = Some h ↔ h = second)
    ∧ live w2 second ∧ ¬ live w2 first
    ∧ dom (gl_textures w2) = {[second]} ∪ (dom (gl_textures w1) ∖ {[first]})
    ∧ size (gl_textures w2) = size (gl_textures w1)
    ∧ gl_deleted w2 = gl_deleted w1 ++ [first].
Proof.
  set (first := fresh_name w).
  set (w1 := release_previous sm t (loaded_world w flip1 fmt1 img1)).
  set (sm1 := with_textureMap sm (<[t := first]> (m_textureMap sm))).
  set (second := fresh_name w1).
  set (loaded := loaded_world w1 flip2 fmt2 img2).
  assert (Hfiles : files w1 !! file2 = Some img2).
  { unfold w1. by rewrite release_previous_files. }
  assert (Hfirst : m_textureMap sm1 !! t = Some first) by apply lookup_insert_eq.
  assert (Hnz : first ≠ 0%N) by apply fresh_name_nonzero.
  assert (Hlive1 : live w1 first).
  { by apply CreateGLTexture_installs_live. }
  assert (Hne : first ≠ second).
  { intros Heq. apply (fresh_name_unused w1). fold second. by rewrite <- Heq. }
  assert (Hnone : gl_textures w1 !! second = None).
  { apply not_elem_of_dom, fresh_name_unused. }
  exists first, second, sm1, (with_textureMap sm1 (<[t := second]> (m_textureMap sm1))),
    w1, loaded, (glDeleteTextures first loaded).
  split; [by apply CreateGLTexture_success |].
  split; [done |]. split; [done |].
  split; [by apply loadTextureFromFile_supported |].
  split.
  { rewrite (CreateGLTexture_success sm1 w1 t file2 flip2 img2 fmt2 Hfiles supported2).
    by rewrite (release_previous_stored sm1 t first _ Hfirst Hnz). }
  split; [done |]. split; [done |]. split; [done |].
  split.
  { intros h. cbn. rewrite lookup_insert_eq. split; congruence. }
  split.
  { apply glDeleteTextures_live_other; [done |].
    unfold live, loaded, loaded_world. cbn. rewrite dom_insert_L. set_solver. }
  split; [apply glDeleteTextures_not_live |].
  split.
  { cbn. rewrite dom_delete_L, dom_insert_L. fold second.
    apply set_eq. intros x.
    rewrite elem_of_difference, !elem_of_union, elem_of_difference, !elem_of_singleton.
    split; [tauto |]. intros [-> | [Hx Hxf]]; split; auto. }
  split; [| done].
  cbn. fold second.
  rewrite delete_insert_ne by done.
  rewrite map_size_insert_None by (rewrite lookup_delete_ne; done).
  rewrite map_size_delete_Some by (by apply elem_of_dom).
  assert (size (gl_textures w1) ≠ 0%nat); [| lia].
  intros Hzero. apply map_size_empty_inv in Hzero.
  unfold live in Hlive1. rewrite Hzero, dom_empty_L in Hlive1. set_solver.
Qed.

End Reload.

(** ** The texture registry: teardown *)

Lemma delete_entry_textures_subseteq (w : World) (kv : string * GLuint) :
  dom (gl_textures (delete_entry w kv)) ⊆ dom (gl_textures w).
Proof.
  unfold delete_entry. destruct (negb (kv.2 =? 0)%N); [| done].
  cbn. rewrite dom_delete_L. apply subseteq_difference_l. reflexivity.
Qed.

Lemma destroy_loop_subseteq (l : list (string * GLuint)) (w : World) :
  dom (gl_textures (foldl delete_entry w l)) ⊆ dom (gl_textures w).
Proof.
  revert w. induction l as [|kv l IH]; intros w; cbn; [done |].
  etrans; [apply IH | apply delete_entry_textures_subseteq].
Qed.

(** Every non-zero handle of the visited entries ends up not live. *)
Lemma destroy_loop_not_live (l : list (string * GLuint)) (w : World) (t : string) (h : GLuint) :
  (t, h) ∈ l → h ≠ 0%N → ¬ live (foldl delete_entry w l) h.
Proof.
  revert w. induction l as [|kv l IH]; intros w Hin Hnz; [inversion Hin |].
  apply elem_of_cons in Hin as [<- | Hin]; [| by apply IH].
  cbn. unfold live. intros Hlive.
  apply destroy_loop_subseteq in Hlive. revert Hlive.
  unfold delete_entry. cbn. rewrite (proj2 (N.eqb_neq h 0) Hnz). cbn.
  apply glDeleteTextures_not_live.
Qed.

(** The deletions the loop issues: the non-zero handles, in visiting order. *)
Lemma destroy_loop_deleted (l : list (string * GLuint)) (w : World) :
  gl_deleted (foldl delete_entry w l)
  = gl_deleted w ++ filter (λ h, h ≠ 0%N) l.*2.
Proof.
  revert w. induction l as [|[t h] l IH]; intros w.
  - cbn. by rewrite app_nil_r.
  - cbn [foldl]. rewrite IH, fmap_cons. unfold delete_entry. cbn [snd].
    destruct (N.eqb_spec h 0) as [-> | Hnz]; cbn [negb].
    + by rewrite filter_cons_False by (intros Hne; by apply Hne).
    + rewrite filter_cons_True by done. cbn [glDeleteTextures with_gl gl_deleted].
      by rewrite <- app_assoc.
Qed.

(** With nothing registered the teardown is the identity. *)
Lemma DestroyGLTextures_empty_registry (sm : SceneManager) (w : World) :
  m_textureMap sm = ∅ → DestroyGLTextures sm w = (sm, w).
Proof.
  intros Hempty. unfold DestroyGLTextures. rewrite Hempty, map_to_list_empty.
  cbn [foldl]. f_equal. destruct sm as [s ms tm ids]. cbn in Hempty. by subst.
Qed.

Section Teardown.

Variables (sm : SceneManager) (w : World).

(** C10.  [DestroyGLTextures] is idempotent.  After one call the
    tag-to-handle map is empty, every non-zero handle that was stored has
    been passed to [glDeleteTextures] and is no longer live, and the
    deletions issued are exactly the stored non-zero handles.  A second
    call returns the very same scene manager and world: it issues no
    deletion and the registry stays empty. *)
Theorem DestroyGLTextures_idempotent :
  let once := DestroyGLTextures sm w in
  let twice := DestroyGLTextures once.1 once.2 in
  m_textureMap once.1 = ∅
  ∧ (∀ t h, m_textureMap sm !! t = Some h → h ≠ 0%N →
            ¬ live once.2 h ∧ h ∈ gl_deleted once.2)
  ∧ gl_deleted once.2
    = gl_deleted w ++ filter (λ h, h ≠ 0%N) (map_to_list (m_textureMap sm)).*2
  ∧ twice = once
  ∧ gl_deleted twice.2 = gl_deleted once.2
  ∧ m_textureMap twice.1 = ∅.
Proof.
  cbv zeta.
  assert (Htwice : DestroyGLTextures (DestroyGLTextures sm w).1 (DestroyGLTextures sm w).2
                   = DestroyGLTextures sm w).
  { by rewrite DestroyGLTextures_empty_registry. }
  split; [done |]. split.
  { intros t h Hstored Hnz. apply elem_of_map_to_list in Hstored. split.
    - by apply (destroy_loop_not_live _ _ t).
    - cbn. rewrite destroy_loop_deleted. apply elem_of_app. right.
      apply list_elem_of_filter. split; [done |].
      apply list_elem_of_fmap. by exists (t, h). }
  split; [apply destroy_loop_deleted |].
  split; [done |]. by rewrite Htwice.
Qed.

End Teardown.

(** ** Channel counts and pixel formats *)

(** The three supported channel counts and their formats. *)
Lemma format_of_channels_supported :
  format_of_channels 1 = Some GL_RED
  ∧ format_of_channels 3 = Some GL_RGB
  ∧ format_of_channels 4 = Some GL_RGBA.
Proof. by repeat split. Qed.

Lemma format_of_channels_unsupported (c : Z) :
  format_of_channels c = None ↔ c ≠ 1%Z ∧ c ≠ 3%Z ∧ c ≠ 4%Z.
Proof.
  rewrite format_of_channels_spec.
  repeat case_decide; split; try done; intros (? & ? & ?); done.
Qed.

Section LoadTextureFormats.

Variables (filepath : string) (w : World) (img : Image).
Hypothesis decoded : files w !! filepath = Some img.

(** What [LoadTexture] does with a file that decodes. *)
Lemma LoadTexture_decoded :
  let fmt := if (channels img =? 3)%Z then GL_RGB else GL_RGBA in
  LoadTexture filepath w
  = (fresh_name w,
     {| gl_textures :=
          <[fresh_name w :=
              {| tex_image := Some {| internalformat := fmt; tex_width := width img;
                                      tex_height := height img; format := fmt |};
                 tex_params := [(GL_TEXTURE_WRAP_S, GL_REPEAT); (GL_TEXTURE_WRAP_T, GL_REPEAT);
                                (GL_TEXTURE_MIN_FILTER, GL_LINEAR);
                                (GL_TEXTURE_MAG_FILTER, GL_LINEAR)];
                 tex_mipmaps := true |}]> (gl_textures w);
        gl_bound := fresh_name w;
        gl_deleted := gl_deleted w;
        stbi_flip := stbi_flip w;
        files := files w;
        console := console w |}).
Proof.
  unfold LoadTexture, glGenTextures. cbv beta iota zeta.
  generalize (fresh_name w). intros id.
  unfold with_gl. rewrite glBindTexture_literal.
  unfold glTexParameteri. rewrite !on_bound_insert.
  unfold stbi_load. cbn [files]. rewrite decoded.
  unfold glTexImage2D, glGenerateMipmap. rewrite !on_bound_insert.
  reflexivity.
Qed.

(** C4.  The code at the failing input: a file whose decoded channel
    count is none of 1, 3, 4 (2, for example).  [loadTextureFromFile]
    reports failure and creates no texture, but [LoadTexture] on the same
    file returns a non-zero handle of a live texture that it uploaded as
    GL_RGBA: the format is coerced and no failure is reported. *)
Theorem LoadTexture_unsupported_channels_uploaded_as_RGBA (flipVertically : bool) :
  channels img ≠ 1%Z → channels img ≠ 3%Z → channels img ≠ 4%Z →
  (∃ w0, loadTextureFromFile filepath 0%N flipVertically w = (false, 0%N, w0)
         ∧ gl_textures w0 = gl_textures w)
  ∧ (∃ id w', LoadTexture filepath w = (id, w')
              ∧ id ≠ 0%N ∧ live w' id ∧ uploaded_format w' id = Some GL_RGBA).
Proof.
  intros H1 H3 H4. split.
  - destruct (loadTextureFromFile_unsupported filepath flipVertically w img decoded 0%N)
      as (w0 & Hload & Htex & _).
    { by apply format_of_channels_unsupported. }
    by exists w0.
  - eexists _, _. split; [apply LoadTexture_decoded |].
    split; [apply fresh_name_nonzero |]. split.
    + unfold live. cbn [gl_textures]. rewrite dom_insert_L.
      apply elem_of_union_l, elem_of_singleton. reflexivity.
    + unfold uploaded_format. cbn [gl_textures]. rewrite lookup_insert_eq.
      cbn [tex_image fmap option_fmap option_map format].
      by rewrite (proj2 (Z.eqb_neq _ _) H3).
Qed.

End LoadTextureFormats.

(** ** The registry invariant *)

Lemma registry_inv_ok (sm : SceneManager) (w : World) :
  registry_inv sm w → registry_ok sm w.
Proof. intros [Hlive _] t h Hstored _. by apply (Hlive t). Qed.

Lemma registry_inv_empty (sm : SceneManager) (w : World) :
  m_textureMap sm = ∅ → registry_inv sm w.
Proof.
  intros Hempty. split.
  - intros t h Hstored. by rewrite Hempty, lookup_empty in Hstored.
  - intros t1 t2 h Hstored. by rewrite Hempty, lookup_empty in Hstored.
Qed.

(** The invariant only looks at the map and at the names in use. *)
Lemma registry_inv_same_textures (sm : SceneManager) (w w' : World) :
  dom (gl_textures w) ⊆ dom (gl_textures w') → registry_inv sm w → registry_inv sm w'.
Proof.
  intros Hsub [Hlive Hinj]. split; [| done].
  intros t h Hstored. destruct (Hlive t h Hstored) as [Hnz Hl].
  split; [done |]. by apply Hsub.
Qed.

(** A load that fails leaves the textures as they were. *)
Lemma loadTextureFromFile_failure (filePath : string) (outTex : GLuint) (flip : bool)
    (w : World) (tex : GLuint) (w' : World) :
  loadTextureFromFile filePath outTex flip w = (false, tex, w') →
  tex = outTex ∧ gl_textures w' = gl_textures w.
Proof.
  unfold loadTextureFromFile, stbi_load, stbi_set_flip_vertically_on_load. cbn [files].
  destruct (files w !! filePath) as [img|]; [| by intros [= <- <-]].
  destruct (format_of_channels (channels img)); [| by intros [= <- <-]].
  unfold glGenTextures. cbv beta iota zeta. discriminate.
Qed.

Section Preservation.

Variables (sm : SceneManager) (w : World).
Hypothesis inv : registry_inv sm w.

(** [CreateGLTexture] keeps the invariant, whether it succeeds or not. *)
Lemma CreateGLTexture_preserves_inv (t filePath : string) (flip : bool) :
  registry_inv (CreateGLTexture sm t filePath flip w).1.2
               (CreateGLTexture sm t filePath flip w).2.
Proof.
  destruct inv as [Hlive Hinj].
  destruct (files w !! filePath) as [img|] eqn:Hdec;
    [destruct (format_of_channels (channels img)) as [fmt|] eqn:Hfmt |].
  - rewrite (CreateGLTexture_success sm w t filePath flip img fmt Hdec Hfmt).
    unfold registry_inv. cbn [fst snd with_textureMap m_textureMap]. split.
    + intros t' h Hstored. destruct (decide (t' = t)) as [-> | Hne].
      * rewrite lookup_insert_eq in Hstored. injection Hstored as <-.
        split; [apply fresh_name_nonzero |].
        by apply CreateGLTexture_installs_live, registry_inv_ok.
      * rewrite lookup_insert_ne in Hstored by done.
        destruct (Hlive t' h Hstored) as [Hnz Hl]. split; [done |].
        apply release_previous_live_other.
        -- unfold live, loaded_world. cbn [gl_textures]. rewrite dom_insert_L.
           by apply elem_of_union_r.
        -- intros Hold. apply Hne. by apply (Hinj t' t h).
    + intros t1 t2 h H1 H2.
      destruct (decide (t1 = t)) as [-> | Hne1], (decide (t2 = t)) as [-> | Hne2];
        [done | | |].
      * rewrite lookup_insert_eq in H1. injection H1 as <-.
        rewrite lookup_insert_ne in H2 by done.
        destruct (fresh_name_unused w). by apply (Hlive t2).
      * rewrite lookup_insert_eq in H2. injection H2 as <-.
        rewrite lookup_insert_ne in H1 by done.
        destruct (fresh_name_unused w). by apply (Hlive t1).
      * rewrite lookup_insert_ne in H1, H2 by done. by apply (Hinj t1 t2 h).
  - destruct (loadTextureFromFile_unsupported filePath flip w img Hdec 0%N Hfmt)
      as (w' & Hload & Htex & _).
    unfold CreateGLTexture. rewrite Hload. cbn [negb fst snd].
    apply (registry_inv_same_textures sm w); [| done].
    cbn [print gl_textures]. by rewrite Htex.
  - unfold CreateGLTexture, loadTextureFromFile, stbi_load, stbi_set_flip_vertically_on_load.
    cbn [files]. rewrite Hdec. cbn [negb fst snd].
    by apply (registry_inv_same_textures sm w).
Qed.

(** [LoadTexture] only adds a texture. *)
Lemma LoadTexture_preserves_inv (filepath : string) :
  registry_inv sm (LoadTexture filepath w).2.
Proof.
  apply (registry_inv_same_textures sm w); [| done].
  destruct (files w !! filepath) as [img|] eqn:Hdec.
  - rewrite (LoadTexture_decoded filepath w img Hdec). cbn [snd gl_textures].
    rewrite dom_insert_L. apply union_subseteq_r.
  - unfold LoadTexture, glGenTextures. cbv beta iota zeta.
    unfold with_gl. rewrite glBindTexture_literal.
    unfold glTexParameteri. rewrite !on_bound_insert.
    unfold stbi_load. cbn [files]. rewrite Hdec. cbn [snd print gl_textures].
    rewrite dom_insert_L. apply union_subseteq_r.
Qed.

(** After the teardown the invariant holds again, trivially. *)
Lemma DestroyGLTextures_establishes_inv :
  registry_inv (DestroyGLTextures sm w).1 (DestroyGLTextures sm w).2.
Proof. by apply registry_inv_empty. Qed.

End Preservation.

(** The invariant holds in every reachable state; in particular the
    registry owns its handles there. *)
Lemma reachable_registry_inv (sm : SceneManager) (w : World) :
  reachable sm w → registry_inv sm w.
Proof.
  induction 1 as [sm w Hnew | sm w t filePath flip _ IH | sm w filepath _ IH
                 | sm w _ IH | sm w s _ IH].
  - by apply registry_inv_empty.
  - by apply CreateGLTexture_preserves_inv.
  - by apply LoadTexture_preserves_inv.
  - by apply DestroyGLTextures_establishes_inv.
  - exact IH.
Qed.

Lemma reachable_registry_ok (sm : SceneManager) (w : World) :
  reachable sm w → registry_ok sm w.
Proof. intros Hreach. by apply registry_inv_ok, reachable_registry_inv. Qed.

(** ** The earlier array of slots *)

(** What the loops of [FindTextureSlot] and of the earlier [FindTextureID]
    find: nothing, or the first slot that carries the tag. *)
Lemma FindTextureSlot_loop_spec (slots : list TEXTURE_INFO) (t : string) (i : Z) :
  (0 ≤ i)%Z →
  ((∀ e, e ∈ slots → tex_tag e ≠ t)
   ∧ FindTextureSlot_loop slots t i = (-1)%Z
   ∧ Legacy.FindTextureID_loop slots t = (-1)%Z)
  ∨ (∃ (n : nat) (e : TEXTURE_INFO),
       slots !! n = Some e ∧ tex_tag e = t
       ∧ (∀ (j : nat) e', (j < n)%nat → slots !! j = Some e' → tex_tag e' ≠ t)
       ∧ FindTextureSlot_loop slots t i = (i + Z.of_nat n)%Z
       ∧ Legacy.FindTextureID_loop slots t = int_of_GLuint (ID e)).
Proof.
  revert i. induction slots as [|e slots IH]; intros i Hi.
  - left. split; [| done]. intros e He. inversion He.
  - cbn [FindTextureSlot_loop Legacy.FindTextureID_loop].
    destruct (String.eqb_spec (tex_tag e) t) as [Heq | Hne].
    + right. exists 0%nat, e. split; [done |]. split; [done |].
      split; [intros j e' Hj; lia |]. split; [lia | done].
    + destruct (IH (i + 1)%Z ltac:(lia)) as [(Hnone & Hslot & Hid) | (n & e' & Hn & Htag & Hfirst & Hslot & Hid)].
      * left. split; [| done]. intros e' He'.
        apply elem_of_cons in He' as [-> | He']; [done | by apply Hnone].
      * right. exists (S n), e'. split; [done |]. split; [done |].
        split; [| split; [lia | done]].
        intros [|j] e'' Hj Hlook; [by injection Hlook as <- |].
        apply (Hfirst j); [lia | done].
Qed.

(** What the two loops find in a list of slots with one more at the end. *)
Lemma slot_loops_snoc (slots : list TEXTURE_INFO) (e : TEXTURE_INFO) (t : string) (i : Z) :
  (0 ≤ i)%Z →
  (FindTextureSlot_loop slots t i = (-1)%Z →
     FindTextureSlot_loop (slots ++ [e]) t i
     = (if String.eqb (tex_tag e) t then (i + Z.of_nat (length slots))%Z else (-1)%Z)
     ∧ Legacy.FindTextureID_loop (slots ++ [e]) t
       = (if String.eqb (tex_tag e) t then int_of_GLuint (ID e) else (-1)%Z))
  ∧ (FindTextureSlot_loop slots t i ≠ (-1)%Z →
       FindTextureSlot_loop (slots ++ [e]) t i = FindTextureSlot_loop slots t i
       ∧ Legacy.FindTextureID_loop (slots ++ [e]) t = Legacy.FindTextureID_loop slots t).
Proof.
  revert i. induction slots as [|e0 slots IH]; intros i Hi.
  - cbn [app FindTextureSlot_loop Legacy.FindTextureID_loop length].
    split; [intros _ | done]. destruct (String.eqb (tex_tag e) t); split; (lia || done).
  - cbn [app FindTextureSlot_loop Legacy.FindTextureID_loop length].
    destruct (String.eqb_spec (tex_tag e0) t) as [Heq | Hne].
    + split; [lia | done].
    + destruct (IH (i + 1)%Z ltac:(lia)) as [Hmiss Hhit].
      split; [| done]. intros Hnone. destruct (Hmiss Hnone) as [Hslot Hid].
      rewrite Hslot, Hid. destruct (String.eqb (tex_tag e) t); split; (lia || done).
Qed.

(** The earlier [CreateGLTexture] on a file it can upload, with a slot
    left. *)
Lemma Legacy_CreateGLTexture_uploaded (sm : SceneManager) (w : World)
    (filename t : string) (img : Image) :
  files w !! filename = Some img →
  (channels img = 3 ∨ channels img = 4)%Z →
  (length (m_textureIDs sm) < MAX_TEXTURES)%nat →
  ∃ w', Legacy.CreateGLTexture sm filename t w
        = Some (true,
                with_textureIDs sm
                  (m_textureIDs sm ++ [{| ID := fresh_name w; tex_tag := t |}]),
                w')
        ∧ dom (gl_textures w') = {[fresh_name w]} ∪ dom (gl_textures w)
        ∧ gl_deleted w' = gl_deleted w
        ∧ gl_bound w' = 0%N
        ∧ files w' = files w.
Proof.
  intros Hdec Hch Hroom. unfold Legacy.CreateGLTexture, stbi_load.
  cbn [stbi_set_flip_vertically_on_load files]. rewrite Hdec.
  unfold glGenTextures, print. cbv beta iota zeta.
  cbn [gl_textures gl_bound gl_deleted stbi_flip files console].
  change (fresh_name _) with (fresh_name w).
  generalize (fresh_name w). intros id.
  unfold with_gl. cbn [gl_textures gl_bound gl_deleted stbi_flip files console].
  rewrite glBindTexture_literal.
  unfold glTexParameteri. rewrite !on_bound_insert.
  unfold glTexImage2D, glGenerateMipmap.
  destruct Hch as [-> | ->]; cbn [Z.eqb Pos.eqb];
    rewrite !on_bound_insert, glBindTexture_literal, (decide_True _ _ Hroom);
    (eexists; split; [reflexivity |]); cbn [gl_textures gl_deleted gl_bound files];
    by rewrite dom_insert_L.
Qed.

(** With every slot filled, the store of the earlier [CreateGLTexture] is
    past the end of the array. *)
Lemma Legacy_CreateGLTexture_full (sm : SceneManager) (w : World)
    (filename t : string) (img : Image) :
  files w !! filename = Some img →
  (channels img = 3 ∨ channels img = 4)%Z →
  (MAX_TEXTURES ≤ length (m_textureIDs sm))%nat →
  Legacy.CreateGLTexture sm filename t w = None.
Proof.
  intros Hdec Hch Hfull. unfold Legacy.CreateGLTexture, stbi_load.
  cbn [stbi_set_flip_vertically_on_load files]. rewrite Hdec.
  unfold glGenTextures. cbv beta iota zeta.
  destruct Hch as [-> | ->]; cbn [Z.eqb Pos.eqb]; by rewrite decide_False by lia.
Qed.

Section ReloadBothVariants.

Variables (sm : SceneManager) (w : World) (t : string).
Variables (file1 file2 : string) (img1 img2 : Image).
Hypothesis owned : registry_ok sm w.
Hypothesis decoded1 : files w !! file1 = Some img1.
Hypothesis decoded2 : files w !! file2 = Some img2.
Hypothesis channels1 : (channels img1 = 3 ∨ channels img1 = 4)%Z.
Hypothesis channels2 : (channels img2 = 3 ∨ channels img2 = 4)%Z.
Hypothesis room : (length (m_textureIDs sm) + 2 ≤ MAX_TEXTURES)%nat.

(** C3.  Two loads under one tag, from two files that decode with three or
    four channels, by each of the two versions of [CreateGLTexture].

    The map-based [CreateGLTexture(tag, filePath, flipVertically)] does
    what the claim says: both calls succeed, the second deletes the handle
    [first] of the first and then stores its own, so that in the end the
    tag maps to [second] and to nothing else, [second] is live, [first] is
    not, and OpenGL holds as many textures as after the first load.

    The array-slot [CreateGLTexture(filename, tag)] does not: with room
    for two more slots both calls succeed, the second fills one more slot
    under the same tag, nothing is deleted, both textures are live, OpenGL
    holds one texture more than after the first load, and the lookups by
    the tag find after the second load what they found after the first
    (the slot and the ID of [first], when the tag had no slot before), so
    that the second texture is not reached by its tag. *)
Theorem CreateGLTexture_same_tag_twice_map_frees_array_keeps :
  (∀ flip1 flip2 : bool,
      ∃ (first second : GLuint) (sm1 sm2 : SceneManager) (w1 w2 : World),
        CreateGLTexture sm t file1 flip1 w = (true, sm1, w1)
        ∧ CreateGLTexture sm1 t file2 flip2 w1 = (true, sm2, w2)
        ∧ m_textureMap sm1 !! t = Some first ∧ live w1 first
        ∧ first ≠ second
        ∧ (∀ h, m_textureMap sm2 !! t = Some h ↔ h = second)
        ∧ live w2 second ∧ ¬ live w2 first
        ∧ size (gl_textures w2) = size (gl_textures w1)
        ∧ gl_deleted w2 = gl_deleted w1 ++ [first])
  ∧ (∃ (first second : GLuint) (sm1 sm2 : SceneManager) (w1 w2 : World),
        Legacy.CreateGLTexture sm file1 t w = Some (true, sm1, w1)
        ∧ Legacy.CreateGLTexture sm1 file2 t w1 = Some (true, sm2, w2)
        ∧ m_textureIDs sm1 = m_textureIDs sm ++ [{| ID := first; tex_tag := t |}]
        ∧ m_textureIDs sm2
          = m_textureIDs sm ++ [{| ID := first; tex_tag := t |};
                                {| ID := second; tex_tag := t |}]
        ∧ first ≠ second
        ∧ live w1 first ∧ live w2 first ∧ live w2 second
        ∧ size (gl_textures w2) = S (size (gl_textures w1))
        ∧ gl_deleted w1 = gl_deleted w ∧ gl_deleted w2 = gl_deleted w
        ∧ FindTextureSlot sm2 t = FindTextureSlot sm1 t
        ∧ Legacy.FindTextureID sm2 t = Legacy.FindTextureID sm1 t
        ∧ (FindTextureSlot sm t = (-1)%Z →
             FindTextureSlot sm2 t = Z.of_nat (length (m_textureIDs sm))
             ∧ Legacy.FindTextureID sm2 t = int_of_GLuint first)).
Proof.
  assert (Hfmt : ∀ img, (channels img = 3 ∨ channels img = 4)%Z →
                        ∃ fmt, format_of_channels (channels img) = Some fmt).
  { intros img [-> | ->]; by eexists. }
  destruct (Hfmt img1 channels1) as [fmt1 Hfmt1].
  destruct (Hfmt img2 channels2) as [fmt2 Hfmt2].
  split.
  - intros flip1 flip2.
    destruct (CreateGLTexture_same_tag_twice_no_leak sm w t file1 file2 flip1 flip2
                img1 img2 fmt1 fmt2 owned decoded1 decoded2 Hfmt1 Hfmt2)
      as (first & second & sm1 & sm2 & w1 & loaded & w2 & Hrun1 & Hmap1 & Hlive1 & _
          & Hrun2 & _ & _ & Hne & Honly & Hlive2 & Hdead & _ & Hsize & Hdel).
    by exists first, second, sm1, sm2, w1, w2.
  - destruct (Legacy_CreateGLTexture_uploaded sm w file1 t img1 decoded1 channels1
                ltac:(lia)) as (w1 & Hrun1 & Hdom1 & Hdel1 & _ & Hfiles1).
    set (first := fresh_name w) in *.
    set (sm1 := with_textureIDs sm (m_textureIDs sm ++ [{| ID := first; tex_tag := t |}]))
      in *.
    assert (Hdecoded2 : files w1 !! file2 = Some img2) by (by rewrite Hfiles1).
    assert (Hroom2 : (length (m_textureIDs sm1) < MAX_TEXTURES)%nat).
    { unfold sm1. cbn [with_textureIDs m_textureIDs]. rewrite length_app. cbn [length]. lia. }
    destruct (Legacy_CreateGLTexture_uploaded sm1 w1 file2 t img2 Hdecoded2 channels2
                Hroom2) as (w2 & Hrun2 & Hdom2 & Hdel2 & _ & _).
    set (second := fresh_name w1) in *.
    assert (Hlive1 : live w1 first).
    { unfold live. rewrite Hdom1. apply elem_of_union_l, elem_of_singleton. reflexivity. }
    assert (Hne : first ≠ second).
    { intros Heq. apply (fresh_name_unused w1). fold second. by rewrite <- Heq. }
    assert (Hslots2 : m_textureIDs (with_textureIDs sm1
                        (m_textureIDs sm1 ++ [{| ID := second; tex_tag := t |}]))
                      = m_textureIDs sm ++ [{| ID := first; tex_tag := t |};
                                            {| ID := second; tex_tag := t |}]).
    { unfold sm1. cbn [with_textureIDs m_textureIDs]. by rewrite <- app_assoc. }
    destruct (slot_loops_snoc (m_textureIDs sm) {| ID := first; tex_tag := t |} t 0
                ltac:(lia)) as [Hmiss1 Hhit1].
    destruct (slot_loops_snoc (m_textureIDs sm1) {| ID := second; tex_tag := t |} t 0
                ltac:(lia)) as [Hmiss2 Hhit2].
    assert (Hfound1 : FindTextureSlot_loop (m_textureIDs sm1) t 0 ≠ (-1)%Z).
    { unfold sm1. cbn [with_textureIDs m_textureIDs].
      destruct (Z.eq_dec (FindTextureSlot_loop (m_textureIDs sm) t 0) (-1)%Z)
        as [Hnone | Hsome].
      - destruct (Hmiss1 Hnone) as [-> _]. cbn [tex_tag]. rewrite String.eqb_refl. lia.
      - destruct (Hhit1 Hsome) as [-> _]. done. }
    destruct (Hhit2 Hfound1) as [Hslot2 Hid2].
    eexists first, second, sm1, _, w1, w2.
    split; [exact Hrun1 |]. split; [exact Hrun2 |].
    split; [done |]. split; [exact Hslots2 |]. split; [done |]. split; [done |].
    split. { unfold live. rewrite Hdom2. by apply elem_of_union_r. }
    split. { unfold live. rewrite Hdom2. apply elem_of_union_l, elem_of_singleton.
             reflexivity. }
    split.
    { rewrite <- !size_dom, Hdom2.
      rewrite size_union by (apply disjoint_singleton_l, fresh_name_unused).
      by rewrite size_singleton. }
    split; [done |]. split; [by rewrite Hdel2 |].
    unfold FindTextureSlot, Legacy.FindTextureID.
    cbn [with_textureIDs m_textureIDs].
    split; [exact Hslot2 |]. split; [exact Hid2 |].
    intros Hnone. rewrite Hslot2, Hid2. unfold sm1. cbn [with_textureIDs m_textureIDs].
    destruct (Hmiss1 Hnone) as [-> ->]. cbn [tex_tag ID]. rewrite String.eqb_refl.
    split; [lia | done].
Qed.

End ReloadBothVariants.

(** ** Single precision *)

(** The conversion looks at the value of a rational only. *)
Lemma round_comp (prec emin : Z) (q q' : Q) :
  q == q' → Ieee.round prec emin q = Ieee.round prec emin q'.
Proof. intros Heq. unfold Ieee.round. by rewrite (Qred_complete _ _ Heq). Qed.

Lemma round_zero (prec emin : Z) (q : Q) : q == 0 → Ieee.round prec emin q = 0.
Proof. intros Heq. by rewrite (round_comp _ _ _ _ Heq). Qed.

(** Some conversions: 2^24 + 1 is halfway between two [float]s and goes to
    the even one, as does 2^24 + 3; 1.1 and 0.1 are not [float]s, nor is
    0.1 a [double]; half of the least subnormal goes to 0. *)
Lemma float32_samples :
  float32 16777217 = 16777216
  ∧ float32 16777219 = 16777220
  ∧ float32 (-16777217) = -16777216
  ∧ float32 1.1 = 9227469 # 8388608
  ∧ float32 0.1 = 13421773 # 134217728
  ∧ float64 0.1 = 3602879701896397 # 36028797018963968
  ∧ float32 510.25 == 510.25
  ∧ float32 (1 # 2 ^ 150) = 0
  ∧ float32 (3 # 2 ^ 151) = 1 # 2 ^ 149.
Proof. vm_compute. by repeat split. Qed.

(** ** Mouse tracking *)

Section MouseTracking.

Context `{CameraLib}.

Lemma constrain_pitch_in_range (p : Q) :
  - PitchLimit <= p → p <= PitchLimit → constrain_pitch p = p.
Proof.
  intros Hlo Hhi. unfold constrain_pitch.
  rewrite (proj2 (Qle_bool_iff p PitchLimit) Hhi).
  by rewrite (proj2 (Qle_bool_iff (- PitchLimit) p) Hlo).
Qed.

(** A zero offset leaves yaw and pitch where they were, as long as the
    pitch was within the limit. *)
Lemma ProcessMouseMovement_zero (dx dy : Q) (c : Camera) :
  dx == 0 → dy == 0 →
  - PitchLimit <= Pitch c → Pitch c <= PitchLimit →
  Yaw (ProcessMouseMovement dx dy c) == Yaw c
  ∧ Pitch (ProcessMouseMovement dx dy c) == Pitch c.
Proof.
  intros Hdx Hdy Hlo Hhi. unfold ProcessMouseMovement. cbn [Yaw Pitch].
  assert (Hyaw : Yaw c + dx * MouseSensitivity == Yaw c) by (rewrite Hdx; ring).
  assert (Hpitch : Pitch c + dy * MouseSensitivity == Pitch c) by (rewrite Hdy; ring).
  split; [done |].
  rewrite constrain_pitch_in_range; [done | by rewrite Hpitch | by rewrite Hpitch].
Qed.


Variables (v : View.ViewManager) (c : Camera).
Variables (x1 y1 x2 y2 : Q).
Hypothesis first_move : View.gFirstMouse v = true.
Hypothesis has_camera : View.g_pCamera v = Some c.
Hypothesis pitch_low : - PitchLimit <= Pitch c.
Hypothesis pitch_high : Pitch c <= PitchLimit.
Hypothesis range_x1 : in_float_range x1.
Hypothesis range_y1 : in_float_range y1.
Hypothesis range_x2 : in_float_range x2.
Hypothesis range_y2 : in_float_range y2.


End MouseTracking.

(** ** One frame of the view manager *)

Section Frame.

Context `{CameraLib} `{View.Defines}.

Lemma ProcessKeyboardEvents_with_camera (pressed : View.Key → bool) (v : View.ViewManager)
    (c : Camera) :
  View.g_pCamera v = Some c →
  let v' := View.ProcessKeyboardEvents pressed v in
  View.g_pCamera v' = Some (camera_after_keys pressed (View.gDeltaTime v) c)
  ∧ View.bOrthographicProjection v'
    = mode_after_keys pressed (View.bOrthographicProjection v)
  ∧ View.m_pShaderManager v' = View.m_pShaderManager v.
Proof.
  intros Hc. cbv zeta. unfold View.ProcessKeyboardEvents, mode_after_keys.
  destruct (pressed View.GLFW_KEY_ESCAPE);
    cbn [View.set_close View.g_pCamera View.gDeltaTime]; rewrite Hc;
    destruct (pressed View.GLFW_KEY_P), (pressed View.GLFW_KEY_O); by cbn.
Qed.

(** What one call of [PrepareSceneView] writes, with a camera and a shader
    manager present: the view matrix of the camera after the movement
    keys, the projection matrix of the mode after the keys P and O, and
    the camera position. *)
Lemma PrepareSceneView_writes (time : Q) (pressed : View.Key → bool)
    (v : View.ViewManager) (c : Camera) (s : ShaderManager) :
  View.g_pCamera v = Some c →
  View.m_pShaderManager v = Some s →
  ∃ v', View.PrepareSceneView time pressed v = Some v'
        ∧ View.g_pCamera v'
          = Some (camera_after_keys pressed (delta_time time v) c)
        ∧ View.bOrthographicProjection v'
          = mode_after_keys pressed (View.bOrthographicProjection v)
        ∧ View.m_pShaderManager v'
          = Some (s ++ frame_writes
                         (camera_after_keys pressed (delta_time time v) c)
                         (mode_after_keys pressed (View.bOrthographicProjection v))).
Proof.
  intros Hc Hs. unfold View.PrepareSceneView, delta_time. cbv zeta.
  set (v0 := View.set_time v (float32 (float32 time - View.gLastFrame v)) (float32 time)).
  destruct (ProcessKeyboardEvents_with_camera pressed v0 c Hc) as (Hc' & Hmode & Hs').
  rewrite Hc', Hs'. cbn [v0 View.set_time View.m_pShaderManager]. rewrite Hs.
  eexists. split; [reflexivity |].
  cbn [View.set_shader View.g_pCamera View.bOrthographicProjection View.m_pShaderManager].
  rewrite Hc', Hmode. split; [done |]. split; [done |].
  unfold setVec3Value, setMat4Value, frame_writes. by rewrite <- !app_assoc.
Qed.

(** The movement of the camera does not look at the keys P and O. *)
Lemma camera_after_keys_ignores_P_O (pressed pressed' : View.Key → bool) (dt : Q) (c : Camera) :
  (∀ k, k ≠ View.GLFW_KEY_P → k ≠ View.GLFW_KEY_O → pressed' k = pressed k) →
  camera_after_keys pressed' dt c = camera_after_keys pressed dt c.
Proof.
  intros Hsame. unfold camera_after_keys, View.on_key.
  by rewrite !Hsame by discriminate.
Qed.


(** C7.  Two frames rendered from the same state, one entered in either
    projection mode and with any state of the keys P and O, the other
    likewise, all else equal: both push the same view matrix and the same
    camera position and leave the same camera; the sinks differ at most in
    the "projection" entry, and do differ there when the modes the two
    frames end up in differ. *)
Theorem PrepareSceneView_view_independent_of_projection_mode
    (currentFrame : Q) (pressed1 pressed2 : View.Key → bool) (b1 b2 : bool)
    (v : View.ViewManager) (c : Camera) (s : ShaderManager) :
  View.g_pCamera v = Some c →
  View.m_pShaderManager v = Some s →
  (∀ k, k ≠ View.GLFW_KEY_P → k ≠ View.GLFW_KEY_O → pressed2 k = pressed1 k) →
  ∃ (v1 v2 : View.ViewManager) (c' : Camera) (projection1 projection2 : mat4),
    View.PrepareSceneView currentFrame pressed1 (View.set_ortho v b1) = Some v1
    ∧ View.PrepareSceneView currentFrame pressed2 (View.set_ortho v b2) = Some v2
    ∧ View.g_pCamera v1 = Some c' ∧ View.g_pCamera v2 = Some c'
    ∧ View.m_pShaderManager v1
      = Some (s ++ [(View.g_ViewName, UMat4 (GetViewMatrix c'));
                    (View.g_ProjectionName, UMat4 projection1);
                    ("viewPosition", UVec3 (Position c'))])
    ∧ View.m_pShaderManager v2
      = Some (s ++ [(View.g_ViewName, UMat4 (GetViewMatrix c'));
                    (View.g_ProjectionName, UMat4 projection2);
                    ("viewPosition", UVec3 (Position c'))])
    ∧ projection1 = View.projection_matrix (View.bOrthographicProjection v1) (Zoom c')
    ∧ projection2 = View.projection_matrix (View.bOrthographicProjection v2) (Zoom c')
    ∧ (View.bOrthographicProjection v1 ≠ View.bOrthographicProjection v2 →
       projection1 ≠ projection2).
Proof.
  intros Hc Hs Hkeys.
  destruct (PrepareSceneView_writes currentFrame pressed1 (View.set_ortho v b1) c s Hc Hs)
    as (v1 & Hrun1 & Hc1 & Hmode1 & Hs1).
  destruct (PrepareSceneView_writes currentFrame pressed2 (View.set_ortho v b2) c s Hc Hs)
    as (v2 & Hrun2 & Hc2 & Hmode2 & Hs2).
  cbn [View.set_ortho View.gLastFrame View.bOrthographicProjection] in *.
  rewrite (camera_after_keys_ignores_P_O pressed1 pressed2 _ _ Hkeys) in Hc2, Hs2.
  exists v1, v2, (camera_after_keys pressed1 (delta_time currentFrame v) c).
  eexists _, _.
  split; [done |]. split; [done |]. split; [done |]. split; [done |].
  split; [exact Hs1 |]. split; [exact Hs2 |].
  rewrite Hmode1, Hmode2. split; [done |]. split; [done |].
  destruct (mode_after_keys pressed1 b1), (mode_after_keys pressed2 b2);
    intros Hne; try done; discriminate.
Qed.

(** With none of the six movement keys held the camera stays put. *)
Lemma camera_after_keys_idle (pressed : View.Key → bool) (dt : Q) (c : Camera) :
  pressed View.GLFW_KEY_W = false → pressed View.GLFW_KEY_S = false →
  pressed View.GLFW_KEY_A = false → pressed View.GLFW_KEY_D = false →
  pressed View.GLFW_KEY_Q = false → pressed View.GLFW_KEY_E = false →
  camera_after_keys pressed dt c = c.
Proof.
  intros HW HS HA HD HQ HE. unfold camera_after_keys, View.on_key.
  by rewrite HW, HS, HA, HD, HQ, HE.
Qed.

(** A frame in perspective mode, then the key O and a second frame: the
    second frame pushes the same view matrix as the first, and an
    orthographic projection in place of the perspective one. *)
Lemma PrepareSceneView_toggle_and_rerender (time1 time2 : Q)
    (v : View.ViewManager) (c : Camera) (s : ShaderManager) :
  View.g_pCamera v = Some c →
  View.m_pShaderManager v = Some s →
  View.bOrthographicProjection v = false →
  ∃ v1 v2,
    View.PrepareSceneView time1 no_key v = Some v1
    ∧ View.PrepareSceneView time2 key_O v1 = Some v2
    ∧ View.m_pShaderManager v1 = Some (s ++ frame_writes c false)
    ∧ View.m_pShaderManager v2 = Some ((s ++ frame_writes c false) ++ frame_writes c true)
    ∧ View.g_pCamera v2 = Some c.
Proof.
  intros Hc Hs Hmode.
  destruct (PrepareSceneView_writes time1 no_key v c s Hc Hs)
    as (v1 & Hrun1 & Hc1 & Hmode1 & Hs1).
  rewrite camera_after_keys_idle in Hc1, Hs1 by reflexivity.
  rewrite Hmode in Hmode1, Hs1. cbn [mode_after_keys no_key] in Hmode1, Hs1.
  destruct (PrepareSceneView_writes time2 key_O v1 c _ Hc1 Hs1)
    as (v2 & Hrun2 & Hc2 & Hmode2 & Hs2).
  rewrite camera_after_keys_idle in Hc2, Hs2 by reflexivity.
  cbn [mode_after_keys key_O] in Hs2.
  by exists v1, v2.
Qed.

End Frame.

(** ** The persistence store, when it is unavailable *)

Section Unavailable.

Context `{Db.Sqlite}.

(** A failed [sqlite3_open] leaves the helper without a connection. *)
Lemma open_failure_leaves_null (dbPath errmsg : string) :
  Db.sqlite3_open dbPath = inr errmsg →
  Db.db_ (Db.open dbPath) = None ∧ Db.isOpen (Db.open dbPath) = false.
Proof. intros Hfail. unfold Db.open, Db.isOpen. by rewrite Hfail. Qed.

Variable h : Db.DbHelper.
Hypothesis unavailable : Db.db_ h = None.

(** C8.  With the database handle null, [saveCameraProfile],
    [logTelemetry] and [logError] each return false and leave the helper
    exactly as it was: still without a connection, and with nothing added
    to the diagnostic stream.  The result does not depend on the engine,
    no function of which is reached; the calls are total, so nothing is
    thrown. *)
Theorem DbHelper_unavailable_returns_false
    (name projection source message : string) (x y z fov fps frameMs : Q) :
  Db.saveCameraProfile name x y z fov projection h = (false, h)
  ∧ Db.logTelemetry fps frameMs h = (false, h)
  ∧ Db.logError source message h = (false, h).
Proof.
  unfold Db.saveCameraProfile, Db.logTelemetry, Db.logError.
  by rewrite unavailable.
Qed.

End Unavailable.

(** ** The properties at the sample states *)

Lemma empty_scene_registry_ok : registry_ok empty_scene sample_world.
Proof. intros t h Hstored. cbn in Hstored. by rewrite lookup_empty in Hstored. Qed.

(** Reloading the tag "desk" with the map-based [CreateGLTexture]: first
    from an RGB file, then from an RGBA file. *)
Lemma CreateGLTexture_same_tag_twice_no_leak_sample :
  registry_ok empty_scene sample_world
  ∧ ∃ (first second : GLuint) (sm1 sm2 : SceneManager) (w1 loaded w2 : World),
      CreateGLTexture empty_scene "desk" "wood.jpeg" true sample_world = (true, sm1, w1)
      ∧ m_textureMap sm1 !! "desk" = Some first ∧ live w1 first
      ∧ loadTextureFromFile "leaf.png" 0%N false w1 = (true, second, loaded)
      ∧ CreateGLTexture sm1 "desk" "leaf.png" false w1 = (true, sm2, w2)
      ∧ w2 = glDeleteTextures first loaded
      ∧ m_textureMap sm2 = <["desk" := second]> (m_textureMap sm1)
      ∧ first ≠ second
      ∧ (∀ h, m_textureMap sm2 !! "desk" = Some h ↔ h = second)
      ∧ live w2 second ∧ ¬ live w2 first
      ∧ dom (gl_textures w2) = {[second]} ∪ (dom (gl_textures w1) ∖ {[first]})
      ∧ size (gl_textures w2) = size (gl_textures w1)
      ∧ gl_deleted w2 = gl_deleted w1 ++ [first].
Proof.
  split; [exact empty_scene_registry_ok |].
  apply (CreateGLTexture_same_tag_twice_no_leak empty_scene sample_world "desk"
           "wood.jpeg" "leaf.png" true false
           {| width := 4; height := 4; channels := 3 |}
           {| width := 2; height := 2; channels := 4 |} GL_RGB GL_RGBA).
  - exact empty_scene_registry_ok.
  - vm_compute. reflexivity.
  - vm_compute. reflexivity.
  - reflexivity.
  - reflexivity.
Defined.

(** Reloading the tag "desk" with each of the two versions of
    [CreateGLTexture]: first from an RGB file, then from an RGBA file. *)
Lemma CreateGLTexture_same_tag_twice_map_frees_array_keeps_witness :
  (∃ (first second : GLuint) (sm1 sm2 : SceneManager) (w1 w2 : World),
      CreateGLTexture empty_scene "desk" "wood.jpeg" true sample_world = (true, sm1, w1)
      ∧ CreateGLTexture sm1 "desk" "leaf.png" true w1 = (true, sm2, w2)
      ∧ m_textureMap sm1 !! "desk" = Some first ∧ live w1 first
      ∧ first ≠ second
      ∧ (∀ h, m_textureMap sm2 !! "desk" = Some h ↔ h = second)
      ∧ live w2 second ∧ ¬ live w2 first
      ∧ size (gl_textures w2) = size (gl_textures w1)
      ∧ gl_deleted w2 = gl_deleted w1 ++ [first])
  ∧ (∃ (first second : GLuint) (sm1 sm2 : SceneManager) (w1 w2 : World),
      Legacy.CreateGLTexture empty_scene "wood.jpeg" "desk" sample_world
      = Some (true, sm1, w1)
      ∧ Legacy.CreateGLTexture sm1 "leaf.png" "desk" w1 = Some (true, sm2, w2)
      ∧ m_textureIDs sm1
        = m_textureIDs empty_scene ++ [{| ID := first; tex_tag := "desk" |}]
      ∧ m_textureIDs sm2
        = m_textureIDs empty_scene ++ [{| ID := first; tex_tag := "desk" |};
                                       {| ID := second; tex_tag := "desk" |}]
      ∧ first ≠ second
      ∧ live w1 first ∧ live w2 first ∧ live w2 second
      ∧ size (gl_textures w2) = S (size (gl_textures w1))
      ∧ gl_deleted w1 = gl_deleted sample_world ∧ gl_deleted w2 = gl_deleted sample_world
      ∧ FindTextureSlot sm2 "desk" = FindTextureSlot sm1 "desk"
      ∧ Legacy.FindTextureID sm2 "desk" = Legacy.FindTextureID sm1 "desk"
      ∧ (FindTextureSlot empty_scene "desk" = (-1)%Z →
           FindTextureSlot sm2 "desk" = Z.of_nat (length (m_textureIDs empty_scene))
           ∧ Legacy.FindTextureID sm2 "desk" = int_of_GLuint first)).
Proof.
  destruct (CreateGLTexture_same_tag_twice_map_frees_array_keeps empty_scene sample_world
              "desk" "wood.jpeg" "leaf.png"
              {| width := 4; height := 4; channels := 3 |}
              {| width := 2; height := 2; channels := 4 |}) as [Hmap Harray].
  - exact empty_scene_registry_ok.
  - vm_compute. reflexivity.
  - vm_compute. reflexivity.
  - left. reflexivity.
  - right. reflexivity.
  - vm_compute. lia.
  - split; [exact (Hmap true true) | exact Harray].
Defined.

(** Evaluated, for the array of slots: the handles are 1 and 2, both are
    live after the second load, nothing was deleted, and the tag is
    answered with slot 0 and ID 1. *)
Lemma Legacy_CreateGLTexture_same_tag_twice :
  ∃ (sm1 sm2 : SceneManager) (w1 w2 : World),
    Legacy.CreateGLTexture empty_scene "wood.jpeg" "desk" sample_world = Some (true, sm1, w1)
    ∧ Legacy.CreateGLTexture sm1 "leaf.png" "desk" w1 = Some (true, sm2, w2)
    ∧ m_textureIDs sm2
      = [{| ID := 1%N; tex_tag := "desk" |}; {| ID := 2%N; tex_tag := "desk" |}]
    ∧ live w2 1%N ∧ live w2 2%N
    ∧ size (gl_textures w1) = 1%nat ∧ size (gl_textures w2) = 2%nat
    ∧ gl_deleted w2 = []
    ∧ FindTextureSlot sm2 "desk" = 0%Z
    ∧ Legacy.FindTextureID sm2 "desk" = 1%Z.
Proof.
  eexists _, _, _, _.
  split; [vm_compute; reflexivity |]. split; [vm_compute; reflexivity |].
  split; [reflexivity |].
  split; [apply elem_of_dom; vm_compute; by eexists |].
  split; [apply elem_of_dom; vm_compute; by eexists |].
  split; [by vm_compute |]. split; [by vm_compute |].
  split; [reflexivity |]. split; by vm_compute.
Qed.

(** The two-channel file of the sample world. *)
Lemma LoadTexture_unsupported_channels_uploaded_as_RGBA_witness :
  (∃ w0, loadTextureFromFile "grey_alpha.png" 0%N true sample_world = (false, 0%N, w0)
         ∧ gl_textures w0 = gl_textures sample_world)
  ∧ (∃ id w', LoadTexture "grey_alpha.png" sample_world = (id, w')
              ∧ id ≠ 0%N ∧ live w' id ∧ uploaded_format w' id = Some GL_RGBA).
Proof.
  apply (LoadTexture_unsupported_channels_uploaded_as_RGBA "grey_alpha.png" sample_world
           {| width := 2; height := 2; channels := 2 |}).
  - vm_compute. reflexivity.
  - discriminate.
  - discriminate.
  - discriminate.
Defined.

(** The same input, evaluated: the handle is 1 and its format GL_RGBA. *)
Lemma LoadTexture_grey_alpha :
  (LoadTexture "grey_alpha.png" sample_world).1 = 1%N
  ∧ uploaded_format (LoadTexture "grey_alpha.png" sample_world).2 1%N = Some GL_RGBA.
Proof. vm_compute. by split. Qed.





(** The sample view rendered with no key held and with the key O held. *)
Lemma PrepareSceneView_view_independent_of_projection_mode_witness :
  ∃ (v1 v2 : View.ViewManager) (c' : Camera) (projection1 projection2 : mat4),
    @View.PrepareSceneView sample_camera_lib sample_defines 1 no_key
      (View.set_ortho sample_view false) = Some v1
    ∧ @View.PrepareSceneView sample_camera_lib sample_defines 1 key_O
        (View.set_ortho sample_view false) = Some v2
    ∧ View.g_pCamera v1 = Some c' ∧ View.g_pCamera v2 = Some c'
    ∧ View.m_pShaderManager v1
      = Some ([] ++ [("view", UMat4 (GetViewMatrix c'));
                     ("projection", UMat4 projection1);
                     ("viewPosition", UVec3 (Position c'))])
    ∧ View.m_pShaderManager v2
      = Some ([] ++ [("view", UMat4 (GetViewMatrix c'));
                     ("projection", UMat4 projection2);
                     ("viewPosition", UVec3 (Position c'))])
    ∧ projection1
      = @View.projection_matrix sample_defines (View.bOrthographicProjection v1) (Zoom c')
    ∧ projection2
      = @View.projection_matrix sample_defines (View.bOrthographicProjection v2) (Zoom c')
    ∧ (View.bOrthographicProjection v1 ≠ View.bOrthographicProjection v2 →
       projection1 ≠ projection2).
Proof.
  apply (@PrepareSceneView_view_independent_of_projection_mode
           sample_camera_lib sample_defines 1 no_key key_O false false
           sample_view sample_camera []).
  - reflexivity.
  - reflexivity.
  - intros k HP HO. by destruct k.
Defined.

(** The helper constructed where the database cannot be opened. *)
Lemma DbHelper_unavailable_returns_false_witness :
  @Db.db_ sqlite_unavailable (Db.open "app.db") = None
  ∧ @Db.saveCameraProfile sqlite_unavailable "default" 0 5 12 80 "PERSPECTIVE"
      (Db.open "app.db") = (false, Db.open "app.db")
  ∧ @Db.logTelemetry sqlite_unavailable 60 16 (Db.open "app.db")
    = (false, Db.open "app.db")
  ∧ @Db.logError sqlite_unavailable "SceneManager" "stbi_load failed" (Db.open "app.db")
    = (false, Db.open "app.db").
Proof.
  split; [reflexivity |].
  apply (@DbHelper_unavailable_returns_false sqlite_unavailable (Db.open "app.db")).
  reflexivity.
Defined.

(** A registry with one texture, torn down twice. *)
Lemma DestroyGLTextures_idempotent_witness :
  let loaded := CreateGLTexture empty_scene "desk" "wood.jpeg" true sample_world in
  let once := DestroyGLTextures loaded.1.2 loaded.2 in
  let twice := DestroyGLTextures once.1 once.2 in
  m_textureMap once.1 = ∅
  ∧ (∀ t h, m_textureMap loaded.1.2 !! t = Some h → h ≠ 0%N →
            ¬ live once.2 h ∧ h ∈ gl_deleted once.2)
  ∧ gl_deleted once.2
    = gl_deleted loaded.2
      ++ filter (λ h, h ≠ 0%N) (map_to_list (m_textureMap loaded.1.2)).*2
  ∧ twice = once
  ∧ gl_deleted twice.2 = gl_deleted once.2
  ∧ m_textureMap twice.1 = ∅.
Proof.
  exact (DestroyGLTextures_idempotent
           (CreateGLTexture empty_scene "desk" "wood.jpeg" true sample_world).1.2
           (CreateGLTexture empty_scene "desk" "wood.jpeg" true sample_world).2).
Defined.

(** Evaluated: one deletion, of handle 1, and none at the second call. *)
Lemma DestroyGLTextures_sample :
  let loaded := CreateGLTexture empty_scene "desk" "wood.jpeg" true sample_world in
  let once := DestroyGLTextures loaded.1.2 loaded.2 in
  let twice := DestroyGLTextures once.1 once.2 in
  gl_deleted once.2 = [1%N] ∧ gl_deleted twice.2 = [1%N].
Proof. vm_compute. by split. Qed.

(* ===================================================================== *)
(** * Part III: further properties of the code *)
(* ===================================================================== *)

(** ** Loading textures: outcomes *)

(** The three outcomes of [loadTextureFromFile]. *)
Lemma loadTextureFromFile_cases (filePath : string) (outTex : GLuint) (flip : bool)
    (w : World) :
  match files w !! filePath with
  | Some img =>
      match format_of_channels (channels img) with
      | Some fmt =>
          loadTextureFromFile filePath outTex flip w
          = (true, fresh_name w, loaded_world w flip fmt img)
      | None =>
          loadTextureFromFile filePath outTex flip w
          = (false, outTex,
             print (msg_unsupported_channel_count (channels img) filePath)
                   (stbi_set_flip_vertically_on_load flip w))
      end
  | None =>
      loadTextureFromFile filePath outTex flip w
      = (false, outTex,
         print (msg_stbi_load_failed filePath) (stbi_set_flip_vertically_on_load flip w))
  end.
Proof.
  destruct (files w !! filePath) as [img|] eqn:Hdec;
    [destruct (format_of_channels (channels img)) as [fmt|] eqn:Hfmt |].
  - by apply loadTextureFromFile_supported.
  - unfold loadTextureFromFile, stbi_load. cbn [stbi_set_flip_vertically_on_load files].
    by rewrite Hdec, Hfmt.
  - unfold loadTextureFromFile, stbi_load. cbn [stbi_set_flip_vertically_on_load files].
    by rewrite Hdec.
Qed.


(** What [LoadTexture] does when the file does not decode. *)
Lemma LoadTexture_not_decoded (filepath : string) (w : World) :
  files w !! filepath = None →
  LoadTexture filepath w
  = (0%N,
     {| gl_textures :=
          <[fresh_name w :=
              {| tex_image := None;
                 tex_params := [(GL_TEXTURE_WRAP_S, GL_REPEAT); (GL_TEXTURE_WRAP_T, GL_REPEAT);
                                (GL_TEXTURE_MIN_FILTER, GL_LINEAR);
                                (GL_TEXTURE_MAG_FILTER, GL_LINEAR)];
                 tex_mipmaps := false |}]> (gl_textures w);
        gl_bound := fresh_name w;
        gl_deleted := gl_deleted w;
        stbi_flip := stbi_flip w;
        files := files w;
        console := console w ++ [msg_failed_to_load_texture filepath] |}).
Proof.
  intros Hdec. unfold LoadTexture, glGenTextures. cbv beta iota zeta.
  generalize (fresh_name w). intros id.
  unfold with_gl. rewrite glBindTexture_literal.
  unfold glTexParameteri. rewrite !on_bound_insert.
  unfold stbi_load. cbn [files]. rewrite Hdec. reflexivity.
Qed.

Lemma LoadTexture_dom (filepath : string) (w : World) :
  dom (gl_textures (LoadTexture filepath w).2) = {[fresh_name w]} ∪ dom (gl_textures w).
Proof.
  destruct (files w !! filepath) as [img|] eqn:Hdec.
  - rewrite (LoadTexture_decoded filepath w img Hdec). cbn [snd gl_textures].
    apply dom_insert_L.
  - rewrite (LoadTexture_not_decoded filepath w Hdec). cbn [snd gl_textures].
    apply dom_insert_L.
Qed.

(** X2.  Whatever the file, [LoadTexture] takes one new texture name into
    use and leaves it bound.  It returns that name when the file decodes
    and 0 when it does not; in the latter case the name it generated stays
    in use, without an image, and is not deleted. *)
Theorem LoadTexture_always_allocates (filepath : string) (w : World) :
  let r := LoadTexture filepath w in
  dom (gl_textures r.2) = {[fresh_name w]} ∪ dom (gl_textures w)
  ∧ size (gl_textures r.2) = S (size (gl_textures w))
  ∧ gl_bound r.2 = fresh_name w
  ∧ gl_deleted r.2 = gl_deleted w
  ∧ r.1 = match files w !! filepath with Some _ => fresh_name w | None => 0%N end
  ∧ (files w !! filepath = None →
       r.1 = 0%N ∧ live r.2 (fresh_name w) ∧ uploaded_format r.2 (fresh_name w) = None).
Proof.
  cbv zeta.
  assert (Hnone : gl_textures w !! fresh_name w = None)
    by apply not_elem_of_dom, fresh_name_unused.
  destruct (files w !! filepath) as [img|] eqn:Hdec.
  - rewrite (LoadTexture_decoded filepath w img Hdec). cbn [fst snd gl_textures gl_bound gl_deleted].
    rewrite dom_insert_L, map_size_insert_None by done. by repeat split.
  - rewrite (LoadTexture_not_decoded filepath w Hdec).
    cbn [fst snd gl_textures gl_bound gl_deleted].
    rewrite dom_insert_L, map_size_insert_None by done.
    repeat split; try done.
    + unfold live. cbn [gl_textures]. rewrite dom_insert_L.
      apply elem_of_union_l, elem_of_singleton. reflexivity.
    + unfold uploaded_format. cbn [gl_textures]. by rewrite lookup_insert_eq.
Qed.

(** ** The texture registry: lookups *)

Lemma release_previous_lookup_other (sm : SceneManager) (t : string) (h : GLuint) (w : World) :
  m_textureMap sm !! t ≠ Some h →
  gl_textures (release_previous sm t w) !! h = gl_textures w !! h.
Proof.
  intros Hne. unfold release_previous.
  destruct (m_textureMap sm !! t) as [old|] eqn:Hold; [| done].
  destruct (negb (old =? 0)%N); [| done].
  cbn [glDeleteTextures with_gl gl_textures]. apply lookup_delete_ne. congruence.
Qed.

Lemma release_previous_bound_zero (sm : SceneManager) (t : string) (w : World) :
  gl_bound w = 0%N → gl_bound (release_previous sm t w) = 0%N.
Proof.
  intros Hb. unfold release_previous.
  destruct (m_textureMap sm !! t) as [old|]; [| done].
  destruct (negb (old =? 0)%N); [| done].
  cbn [glDeleteTextures with_gl gl_bound]. rewrite Hb. by destruct (0 =? old)%N.
Qed.

Section Registered.

Variables (sm : SceneManager) (w : World).
Variables (t filePath : string) (flip : bool) (img : Image) (fmt : GLenum).
Hypothesis owned : registry_ok sm w.
Hypothesis decoded : files w !! filePath = Some img.
Hypothesis supported : format_of_channels (channels img) = Some fmt.

(** X3.  After a successful [CreateGLTexture] under a tag, the three
    queries find what was stored: [FindTextureID] yields the new non-zero
    handle, which names a live texture in the format of the file,
    [TextureExists] answers true and [BindTextureByTag] binds that handle
    and answers true.  The handles found under all other tags are what they
    were, and nothing is left bound by the load itself. *)
Theorem CreateGLTexture_then_lookup :
  let r := CreateGLTexture sm t filePath flip w in
  r.1.1 = true
  ∧ FindTextureID r.1.2 t = fresh_name w
  ∧ FindTextureID r.1.2 t ≠ 0%N
  ∧ live r.2 (FindTextureID r.1.2 t)
  ∧ uploaded_format r.2 (FindTextureID r.1.2 t) = Some fmt
  ∧ TextureExists r.1.2 t = true
  ∧ gl_bound r.2 = 0%N
  ∧ BindTextureByTag r.1.2 t r.2 = (true, glBindTexture (fresh_name w) r.2)
  ∧ (∀ t', t' ≠ t → FindTextureID r.1.2 t' = FindTextureID sm t'
                    ∧ TextureExists r.1.2 t' = TextureExists sm t').
Proof.
  cbv zeta. rewrite (CreateGLTexture_success sm w t filePath flip img fmt decoded supported).
  cbn [fst snd].
  assert (Hfind : FindTextureID
                    (with_textureMap sm (<[t:=fresh_name w]> (m_textureMap sm))) t
                  = fresh_name w).
  { unfold FindTextureID. cbn [with_textureMap m_textureMap]. by rewrite lookup_insert_eq. }
  assert (Hnz := fresh_name_nonzero w).
  assert (Hnew : m_textureMap sm !! t ≠ Some (fresh_name w)).
  { intros Hold. apply (fresh_name_unused w). by apply (owned t). }
  rewrite Hfind.
  split; [done |]. split; [done |]. split; [done |].
  split; [by apply CreateGLTexture_installs_live |].
  split.
  { unfold uploaded_format. rewrite release_previous_lookup_other by done.
    unfold loaded_world. cbn [gl_textures]. by rewrite lookup_insert_eq. }
  split.
  { unfold TextureExists. cbn [with_textureMap m_textureMap].
    rewrite lookup_insert_eq. by apply bool_decide_eq_true_2. }
  split; [by apply release_previous_bound_zero |].
  split.
  { unfold BindTextureByTag. rewrite Hfind.
    by rewrite (proj2 (N.eqb_neq _ _) Hnz). }
  intros t' Hne. unfold FindTextureID, TextureExists. cbn [with_textureMap m_textureMap].
  by rewrite lookup_insert_ne.
Qed.

End Registered.

(** X4.  A [CreateGLTexture] that fails changes neither the registry nor
    the textures: the scene manager is returned as it was (a texture stored
    under the tag before is still stored), and no texture is created,
    deleted or bound.  What does change is the flip setting of the decoder,
    and two lines are printed. *)
Theorem CreateGLTexture_failure_keeps_registry (sm : SceneManager) (w : World)
    (t filePath : string) (flip : bool) :
  let r := CreateGLTexture sm t filePath flip w in
  r.1.1 = false →
  r.1.2 = sm
  ∧ gl_textures r.2 = gl_textures w
  ∧ gl_bound r.2 = gl_bound w
  ∧ gl_deleted r.2 = gl_deleted w
  ∧ files r.2 = files w
  ∧ stbi_flip r.2 = flip
  ∧ ∃ m, console r.2 = console w ++ [m; msg_failed_to_create_texture t filePath].
Proof.
  cbv zeta. unfold CreateGLTexture.
  pose proof (loadTextureFromFile_cases filePath 0%N flip w) as Hcases.
  destruct (files w !! filePath) as [img|];
    [destruct (format_of_channels (channels img)) as [fmt|] |];
    rewrite Hcases; cbn [negb fst snd]; [done | |];
    intros _; (repeat split; try done); eexists;
    cbn [print console stbi_set_flip_vertically_on_load]; by rewrite <- app_assoc.
Qed.

(** X5.  In every state the texture operations can reach, every handle
    the registry stores is non-zero and names a live texture, and no two
    tags store the same handle. *)
Theorem reachable_handles_live_and_distinct (sm : SceneManager) (w : World) :
  reachable sm w →
  (∀ t h, m_textureMap sm !! t = Some h → h ≠ 0%N ∧ live w h)
  ∧ (∀ t1 t2 h, m_textureMap sm !! t1 = Some h → m_textureMap sm !! t2 = Some h → t1 = t2).
Proof. intros Hreach. exact (reachable_registry_inv sm w Hreach). Qed.

(** X6.  In every reachable state the three queries agree on every tag:
    [TextureExists] is true exactly when [FindTextureID] is not 0 and
    exactly when [BindTextureByTag] answers true.  When they do,
    the handle found is that of a live texture and it is what
    [BindTextureByTag] binds; when they do not, [BindTextureByTag] leaves
    the world alone. *)
Theorem reachable_lookups_agree (sm : SceneManager) (w : World) (t : string) :
  reachable sm w →
  (TextureExists sm t = true ↔ FindTextureID sm t ≠ 0%N)
  ∧ (BindTextureByTag sm t w).1 = TextureExists sm t
  ∧ (TextureExists sm t = true →
       live w (FindTextureID sm t)
       ∧ (BindTextureByTag sm t w).2 = glBindTexture (FindTextureID sm t) w)
  ∧ (TextureExists sm t = false → (BindTextureByTag sm t w).2 = w).
Proof.
  intros Hreach. destruct (reachable_registry_inv sm w Hreach) as [Hlive _].
  unfold TextureExists, BindTextureByTag, FindTextureID.
  destruct (m_textureMap sm !! t) as [h|] eqn:Hstored.
  - destruct (Hlive t h Hstored) as [Hnz Hl].
    rewrite (proj2 (N.eqb_neq _ _) Hnz).
    rewrite bool_decide_eq_true_2 by eauto. cbn [fst snd]. by repeat split.
  - rewrite bool_decide_eq_false_2 by (by intros [? ?]). cbn [N.eqb fst snd].
    by repeat split.
Qed.

(** ** The texture registry: what the teardown deletes *)

Lemma destroy_loop_live (l : list (string * GLuint)) (w : World) (h : GLuint) :
  live (foldl delete_entry w l) h ↔ live w h ∧ ¬ (h ≠ 0%N ∧ ∃ t, (t, h) ∈ l).
Proof.
  revert w. induction l as [|[t' h'] l IH]; intros w.
  - cbn [foldl]. split; [| tauto]. intros Hl. split; [done |].
    intros (_ & t & Hin). inversion Hin.
  - cbn [foldl]. rewrite IH. unfold delete_entry. cbn [snd].
    destruct (N.eqb_spec h' 0) as [-> | Hnz']; cbn [negb].
    + split.
      * intros [Hl Hnot]. split; [done |]. intros (Hnz & t & Hin).
        apply elem_of_cons in Hin as [[= -> ->] | Hin]; [done |]. apply Hnot. eauto.
      * intros [Hl Hnot]. split; [done |]. intros (Hnz & t & Hin).
        apply Hnot. split; [done |]. exists t. by right.
    + destruct (decide (h = h')) as [-> | Hne].
      * split.
        -- intros [Hl _]. by apply glDeleteTextures_not_live in Hl.
        -- intros [_ Hnot]. exfalso. apply Hnot. split; [done |]. exists t'. by left.
      * rewrite glDeleteTextures_live_other by done. split.
        -- intros [Hl Hnot]. split; [done |]. intros (Hnz & t & Hin).
           apply elem_of_cons in Hin as [[= -> ->] | Hin]; [done |]. apply Hnot. eauto.
        -- intros [Hl Hnot]. split; [done |]. intros (Hnz & t & Hin).
           apply Hnot. split; [done |]. exists t. by right.
Qed.

Lemma DestroyGLTextures_live_iff (sm : SceneManager) (w : World) (h : GLuint) :
  live (DestroyGLTextures sm w).2 h
  ↔ live w h ∧ ¬ (h ≠ 0%N ∧ ∃ t, m_textureMap sm !! t = Some h).
Proof.
  unfold DestroyGLTextures. cbn [snd]. rewrite destroy_loop_live.
  split; intros [Hl Hnot]; (split; [done |]); intros (Hnz & t & Hin);
    apply Hnot; (split; [done |]); exists t; by apply elem_of_map_to_list.
Qed.

(** X7.  [DestroyGLTextures] deletes the non-zero handles stored in the
    map and nothing else: a texture is live afterwards exactly when it was
    live before and is not such a handle.  Afterwards every lookup misses:
    [FindTextureID] yields 0, [TextureExists] false, and
    [BindTextureByTag] answers false without binding. *)
Theorem DestroyGLTextures_deletes_exactly_the_stored (sm : SceneManager) (w : World) :
  let r := DestroyGLTextures sm w in
  (∀ h, live r.2 h ↔ live w h ∧ ¬ (h ≠ 0%N ∧ ∃ t, m_textureMap sm !! t = Some h))
  ∧ (∀ t, FindTextureID r.1 t = 0%N
          ∧ TextureExists r.1 t = false
          ∧ BindTextureByTag r.1 t r.2 = (false, r.2)).
Proof.
  cbv zeta. split.
  - intros h. apply DestroyGLTextures_live_iff.
  - intros t. unfold FindTextureID, TextureExists, BindTextureByTag, FindTextureID.
    cbn [DestroyGLTextures fst snd with_textureMap m_textureMap].
    rewrite lookup_empty. cbn [N.eqb].
    split; [done |]. split; [| done].
    apply bool_decide_eq_false_2. by intros [? ?].
Qed.

(** X8.  The textures of [LoadTexture] are not in the registry, so the
    teardown does not free them: in a reachable state, the texture that
    [LoadTexture] took into use is still live after [DestroyGLTextures]. *)
Theorem LoadTexture_survives_DestroyGLTextures (sm : SceneManager) (w : World)
    (filepath : string) :
  reachable sm w →
  let loaded := LoadTexture filepath w in
  live loaded.2 (fresh_name w)
  ∧ live (DestroyGLTextures sm loaded.2).2 (fresh_name w).
Proof.
  intros Hreach. cbv zeta.
  destruct (reachable_registry_inv sm w Hreach) as [Hlive _].
  assert (Hl : live (LoadTexture filepath w).2 (fresh_name w)).
  { unfold live. rewrite LoadTexture_dom.
    apply elem_of_union_l, elem_of_singleton. reflexivity. }
  split; [done |].
  apply DestroyGLTextures_live_iff. split; [done |].
  intros (_ & t & Hstored). apply (fresh_name_unused w). by apply (Hlive t).
Qed.

(** ** The array of texture slots *)

(** The two loops over the slots, entered at a non-negative index: either
    no slot carries the tag and both yield -1, or the slot found is the
    first that carries it. *)
(** What [int_of_GLuint] makes of a 32-bit name. *)
Lemma int_of_GLuint_spec (id : GLuint) :
  ((id < 2 ^ 31)%N → int_of_GLuint id = Z.of_N id)
  ∧ ((2 ^ 31 ≤ id < 2 ^ 32)%N →
       int_of_GLuint id = (Z.of_N id - 2 ^ 32)%Z ∧ (int_of_GLuint id < 0)%Z)
  ∧ (int_of_GLuint id = (-1)%Z ↔ (id mod 2 ^ 32 = 4294967295)%N).
Proof.
  unfold int_of_GLuint. split; [| split].
  - intros Hlt. rewrite Z.mod_small by lia. lia.
  - intros [Hlo Hhi].
    assert (Hmod : ((Z.of_N id + 2 ^ 31) mod 2 ^ 32 = Z.of_N id - 2 ^ 31)%Z).
    { symmetry. apply (Z.mod_unique _ _ 1); lia. }
    rewrite Hmod. lia.
  - pose proof (N.mod_lt id (2 ^ 32) ltac:(done)) as Hlt.
    pose proof (N.div_mod id (2 ^ 32) ltac:(done)) as Hdiv.
    set (r := (id mod 2 ^ 32)%N) in *. set (q := (id / 2 ^ 32)%N) in *.
    assert (Hid : Z.of_N id = (2 ^ 32 * Z.of_N q + Z.of_N r)%Z) by lia.
    rewrite Hid.
    replace (2 ^ 32 * Z.of_N q + Z.of_N r + 2 ^ 31)%Z
      with ((Z.of_N r + 2 ^ 31) + Z.of_N q * 2 ^ 32)%Z by lia.
    rewrite Z.mod_add by lia.
    destruct (decide (r < 2 ^ 31)%N) as [Hsmall | Hlarge].
    + rewrite Z.mod_small by lia. lia.
    + assert (Hmod : ((Z.of_N r + 2 ^ 31) mod 2 ^ 32 = Z.of_N r - 2 ^ 31)%Z).
      { symmetry. apply (Z.mod_unique _ _ 1); lia. }
      rewrite Hmod. lia.
Qed.

(** X9.  [FindTextureSlot] yields -1 exactly when no slot carries the tag.
    Otherwise it yields the index of the first slot that carries it, an
    index below the number of loaded textures, and the earlier
    [FindTextureID] yields the ID stored in that very slot, read as an
    [int]: slot and ID belong together, also when a tag was loaded twice.
    The [int] is the ID itself for an ID below 2^31 and the ID less 2^32
    from there on: a tag whose slot holds the ID 4294967295 is answered
    with -1, the answer for a tag that has no slot. *)
Theorem FindTextureSlot_first_match (sm : SceneManager) (t : string) :
  let k := FindTextureSlot sm t in
  (k = (-1)%Z ↔ ∀ e, e ∈ m_textureIDs sm → tex_tag e ≠ t)
  ∧ (k = (-1)%Z → Legacy.FindTextureID sm t = (-1)%Z)
  ∧ (k ≠ (-1)%Z →
       (0 ≤ k < Z.of_nat (length (m_textureIDs sm)))%Z
       ∧ ∃ e, m_textureIDs sm !! Z.to_nat k = Some e
              ∧ tex_tag e = t
              ∧ (∀ (j : nat) e', (j < Z.to_nat k)%nat →
                                 m_textureIDs sm !! j = Some e' → tex_tag e' ≠ t)
              ∧ Legacy.FindTextureID sm t = int_of_GLuint (ID e)
              ∧ ((ID e < 2 ^ 31)%N → Legacy.FindTextureID sm t = Z.of_N (ID e))
              ∧ ((2 ^ 31 ≤ ID e < 2 ^ 32)%N →
                   Legacy.FindTextureID sm t = (Z.of_N (ID e) - 2 ^ 32)%Z)
              ∧ (ID e = 4294967295%N → Legacy.FindTextureID sm t = (-1)%Z)).
Proof.
  cbv zeta. unfold FindTextureSlot, Legacy.FindTextureID.
  destruct (FindTextureSlot_loop_spec (m_textureIDs sm) t 0 ltac:(lia))
    as [(Hnone & Hslot & Hid) | (n & e & Hn & Htag & Hfirst & Hslot & Hid)].
  - rewrite Hslot, Hid. by repeat split.
  - rewrite Hslot, Hid. replace (0 + Z.of_nat n)%Z with (Z.of_nat n) by lia.
    split; [| split].
    + split; [lia |]. intros Hnone. exfalso.
      apply (Hnone e); [| done]. by apply list_elem_of_lookup_2 in Hn.
    + lia.
    + intros _. rewrite Nat2Z.id. apply lookup_lt_Some in Hn as Hlt.
      split; [lia |]. exists e.
      destruct (int_of_GLuint_spec (ID e)) as (Hsmall & Hlarge & _).
      split; [done |]. split; [done |]. split; [done |]. split; [done |].
      split; [exact Hsmall |]. split; [intros Hr; by destruct (Hlarge Hr) |].
      intros ->. reflexivity.
Qed.

Section LegacyLoad.

Variables (sm : SceneManager) (w : World) (filename t : string) (img : Image).
Hypothesis decoded : files w !! filename = Some img.

(** X10.  The earlier [CreateGLTexture], on a file with 3 or 4 channels
    and with a slot left in the array of 16, fills the next slot with a
    fresh live texture and deletes nothing.  If no slot carried the tag,
    the tag is now found in the new slot, with the new ID read as an
    [int].  If a slot carried the tag already, lookups by that tag still
    find the old slot and the old ID, so that the new texture cannot be
    reached by its tag.  Lookups by other tags are not affected.  With all
    16 slots filled the store goes past the end of the array and the call
    has no defined result. *)
Theorem Legacy_CreateGLTexture_then_lookup :
  (channels img = 3 ∨ channels img = 4)%Z →
  ((length (m_textureIDs sm) < MAX_TEXTURES)%nat →
   ∃ r, Legacy.CreateGLTexture sm filename t w = Some r
     ∧ r.1.1 = true
     ∧ m_textureIDs r.1.2 = m_textureIDs sm ++ [{| ID := fresh_name w; tex_tag := t |}]
     ∧ ¬ live w (fresh_name w) ∧ live r.2 (fresh_name w)
     ∧ gl_deleted r.2 = gl_deleted w
     ∧ (FindTextureSlot sm t = (-1)%Z →
          FindTextureSlot r.1.2 t = Z.of_nat (length (m_textureIDs sm))
          ∧ Legacy.FindTextureID r.1.2 t = int_of_GLuint (fresh_name w))
     ∧ (FindTextureSlot sm t ≠ (-1)%Z →
          FindTextureSlot r.1.2 t = FindTextureSlot sm t
          ∧ Legacy.FindTextureID r.1.2 t = Legacy.FindTextureID sm t)
     ∧ (∀ t', t' ≠ t → FindTextureSlot r.1.2 t' = FindTextureSlot sm t'
                       ∧ Legacy.FindTextureID r.1.2 t' = Legacy.FindTextureID sm t'))
  ∧ ((MAX_TEXTURES ≤ length (m_textureIDs sm))%nat →
     Legacy.CreateGLTexture sm filename t w = None).
Proof.
  intros Hch.
  split; [| by apply (Legacy_CreateGLTexture_full sm w filename t img)].
  intros Hroom.
  destruct (Legacy_CreateGLTexture_uploaded sm w filename t img decoded Hch Hroom)
    as (w' & -> & Hdom & Hdel & _ & _).
  eexists. split; [reflexivity |].
  cbn [fst snd with_textureIDs m_textureIDs].
  split; [done |]. split; [done |]. split; [apply fresh_name_unused |].
  split. { unfold live. rewrite Hdom. apply elem_of_union_l, elem_of_singleton. reflexivity. }
  split; [done |].
  unfold FindTextureSlot, Legacy.FindTextureID. cbn [with_textureIDs m_textureIDs].
  split; [| split].
  - intros Hnone.
    destruct (slot_loops_snoc (m_textureIDs sm) {| ID := fresh_name w; tex_tag := t |} t 0
                ltac:(lia)) as [Hmiss _].
    destruct (Hmiss Hnone) as [-> ->]. cbn [tex_tag ID]. rewrite String.eqb_refl.
    split; [lia | done].
  - intros Hsome.
    destruct (slot_loops_snoc (m_textureIDs sm) {| ID := fresh_name w; tex_tag := t |} t 0
                ltac:(lia)) as [_ Hhit].
    exact (Hhit Hsome).
  - intros t' Hne.
    destruct (slot_loops_snoc (m_textureIDs sm) {| ID := fresh_name w; tex_tag := t |} t' 0
                ltac:(lia)) as [Hmiss Hhit].
    destruct (Z.eq_dec (FindTextureSlot_loop (m_textureIDs sm) t' 0%Z) (-1)%Z) as [Hnone | Hsome].
    + destruct (Hmiss Hnone) as [-> ->]. cbn [tex_tag ID].
      rewrite (proj2 (String.eqb_neq t t')) by congruence.
      split; [done |].
      destruct (FindTextureSlot_loop_spec (m_textureIDs sm) t' 0 ltac:(lia))
        as [(_ & _ & Hid) | (n & e & _ & _ & _ & Hslot & _)]; [done | lia].
    + exact (Hhit Hsome).
Qed.

(** X11.  The earlier [CreateGLTexture], on a file that decodes with a
    channel count other than 3 and 4 (a single-channel image, for one),
    returns false and registers nothing, but the texture name it generated
    stays in use, bound and without an image: it is neither deleted nor
    stored in a slot. *)
Theorem Legacy_CreateGLTexture_unsupported_leaks :
  channels img ≠ 3%Z → channels img ≠ 4%Z →
  ∃ r, Legacy.CreateGLTexture sm filename t w = Some r
  ∧ r.1.1 = false
  ∧ r.1.2 = sm
  ∧ ¬ live w (fresh_name w) ∧ live r.2 (fresh_name w)
  ∧ uploaded_format r.2 (fresh_name w) = None
  ∧ gl_bound r.2 = fresh_name w
  ∧ gl_deleted r.2 = gl_deleted w
  ∧ size (gl_textures r.2) = S (size (gl_textures w)).
Proof.
  intros H3 H4. unfold Legacy.CreateGLTexture, stbi_load.
  cbn [stbi_set_flip_vertically_on_load files]. rewrite decoded.
  rewrite (proj2 (Z.eqb_neq _ _) H3), (proj2 (Z.eqb_neq _ _) H4).
  eexists. split; [reflexivity |].
  unfold glGenTextures, print. cbv beta iota zeta.
  cbn [gl_textures gl_bound gl_deleted stbi_flip files console].
  change (fresh_name _) with (fresh_name w).
  assert (Hnone : gl_textures w !! fresh_name w = None)
    by apply not_elem_of_dom, fresh_name_unused.
  assert (Hunused := fresh_name_unused w). revert Hnone Hunused.
  unfold live, uploaded_format.
  generalize (fresh_name w). intros id Hnone Hunused.
  unfold with_gl. cbn [gl_textures gl_bound gl_deleted stbi_flip files console].
  rewrite glBindTexture_literal.
  unfold glTexParameteri. rewrite !on_bound_insert.
  cbn [fst snd gl_textures gl_bound gl_deleted].
  rewrite dom_insert_L, lookup_insert_eq, map_size_insert_None by done.
  repeat split; try done.
  apply elem_of_union_l, elem_of_singleton. reflexivity.
Qed.

End LegacyLoad.

(** ** Samplers and texture units *)

(** [CreateGLTexture] touches the map only: the slots and the shader
    manager of the scene manager are what they were. *)
Lemma CreateGLTexture_keeps_slots (sm : SceneManager) (w : World)
    (t filePath : string) (flip : bool) :
  m_textureIDs (CreateGLTexture sm t filePath flip w).1.2 = m_textureIDs sm
  ∧ m_pShaderManager (CreateGLTexture sm t filePath flip w).1.2 = m_pShaderManager sm.
Proof.
  unfold CreateGLTexture.
  destruct (loadTextureFromFile filePath 0%N flip w) as [[[|] tex] w']; by cbn.
Qed.

(** X12.  The registry of tag-to-handle mappings and the sampler lookup do
    not meet: [CreateGLTexture] never fills a slot, so [FindTextureSlot]
    finds after it what it found before.  With no slot filled, as in a
    scene manager that was just constructed, [SetShaderTexture] for the
    tag just registered switches texturing on and sets the sampler
    "objectTexture" to -1, although [TextureExists] is true for the tag. *)
Theorem SetShaderTexture_after_CreateGLTexture (sm : SceneManager) (w : World)
    (t filePath : string) (flip : bool) (s : ShaderManager) :
  m_pShaderManager sm = Some s →
  let sm' := (CreateGLTexture sm t filePath flip w).1.2 in
  (∀ t', FindTextureSlot sm' t' = FindTextureSlot sm t')
  ∧ (m_textureIDs sm = [] →
       (CreateGLTexture sm t filePath flip w).1.1 = true →
       TextureExists sm' t = true
       ∧ m_pShaderManager (SetShaderTexture sm' t)
         = Some (s ++ [("bUseTexture", UInt 1); ("objectTexture", USampler2D (-1))])).
Proof.
  intros Hs. cbv zeta.
  destruct (CreateGLTexture_keeps_slots sm w t filePath flip) as [Hslots Hshader].
  split.
  - intros t'. unfold FindTextureSlot. by rewrite Hslots.
  - intros Hempty Hok. split.
    + revert Hok. unfold CreateGLTexture.
      destruct (loadTextureFromFile filePath 0%N flip w) as [[[|] tex] w']; [| done].
      intros _. cbn [negb fst snd]. unfold TextureExists.
      cbn [with_textureMap m_textureMap]. rewrite lookup_insert_eq.
      by apply bool_decide_eq_true_2.
    + unfold SetShaderTexture, FindTextureSlot. rewrite Hshader, Hs, Hslots, Hempty.
      cbn [FindTextureSlot_loop with_shader m_pShaderManager].
      unfold setSampler2DValue, setIntValue. by rewrite <- app_assoc.
Qed.

(** The loop of [BindGLTextures], entered at a non-negative index: the
    units from that index on that have a slot are bound to the slot's ID,
    all other units keep their binding. *)
Lemma BindGLTextures_loop_binding (slots : list TEXTURE_INFO) (i : Z)
    (wu : World * TextureUnits) (k : Z) :
  unit_binding (Slots.BindGLTextures_loop slots i wu).2 !! k
  = if decide (i ≤ k < i + Z.of_nat (length slots))%Z
    then ID <$> slots !! Z.to_nat (k - i)
    else unit_binding wu.2 !! k.
Proof.
  revert i wu. induction slots as [|e slots IH]; intros i wu.
  - cbn [Slots.BindGLTextures_loop length]. rewrite decide_False by lia. done.
  - cbn [Slots.BindGLTextures_loop length]. rewrite IH.
    cbn [glBindTexture_unit glActiveTexture snd fst active_unit unit_binding].
    destruct (decide (i + 1 ≤ k < i + 1 + Z.of_nat (length slots))%Z) as [Hin | Hout].
    + rewrite decide_True by lia.
      replace (Z.to_nat (k - i)) with (S (Z.to_nat (k - (i + 1)))) by lia. done.
    + destruct (decide (k = i)) as [-> | Hne].
      * rewrite decide_True by lia. rewrite lookup_insert_eq.
        by replace (Z.to_nat (i - i)) with 0%nat by lia.
      * rewrite decide_False by lia. by rewrite lookup_insert_ne.
Qed.

(** X13.  After [BindGLTextures], texture unit i holds the texture of slot
    i, for every filled slot, and the other units are as before.  So for
    every tag that has a slot, the unit whose number [FindTextureSlot]
    hands to the sampler is the one bound to the texture whose ID, read as
    an [int], the earlier [FindTextureID] yields for the tag; for an ID
    below 2^31 that is the ID itself. *)
Theorem BindGLTextures_units_match_slots (sm : SceneManager) (wu : World * TextureUnits) :
  let units := unit_binding (Slots.BindGLTextures sm wu).2 in
  (∀ (i : nat) e, m_textureIDs sm !! i = Some e → units !! Z.of_nat i = Some (ID e))
  ∧ (∀ k, ¬ (0 ≤ k < Z.of_nat (length (m_textureIDs sm)))%Z →
          units !! k = unit_binding wu.2 !! k)
  ∧ (∀ t, FindTextureSlot sm t ≠ (-1)%Z →
          ∃ id, units !! FindTextureSlot sm t = Some id
                ∧ Legacy.FindTextureID sm t = int_of_GLuint id
                ∧ ((id < 2 ^ 31)%N → Legacy.FindTextureID sm t = Z.of_N id)).
Proof.
  cbv zeta. unfold Slots.BindGLTextures.
  assert (Hslot : ∀ (i : nat) e, m_textureIDs sm !! i = Some e →
            unit_binding (Slots.BindGLTextures_loop (m_textureIDs sm) 0 wu).2 !! Z.of_nat i
            = Some (ID e)).
  { intros i e Hi. rewrite BindGLTextures_loop_binding.
    apply lookup_lt_Some in Hi as Hlt. rewrite decide_True by lia.
    replace (Z.to_nat (Z.of_nat i - 0)) with i by lia. by rewrite Hi. }
  split; [done |]. split.
  - intros k Hout. rewrite BindGLTextures_loop_binding. by rewrite decide_False by lia.
  - intros t Hfound.
    destruct (FindTextureSlot_loop_spec (m_textureIDs sm) t 0 ltac:(lia))
      as [(_ & Hnone & _) | (n & e & Hn & _ & _ & Hslotn & Hid)]; [done |].
    exists (ID e). unfold FindTextureSlot, Legacy.FindTextureID.
    rewrite Hslotn, Hid. replace (0 + Z.of_nat n)%Z with (Z.of_nat n) by lia.
    split; [by apply Hslot |]. split; [done |].
    apply (int_of_GLuint_spec (ID e)).
Qed.

(** ** The earlier teardown *)

Lemma delete_slots_subseteq (l : list TEXTURE_INFO) (w : World) :
  dom (gl_textures (foldl Slots.delete_slot w l)) ⊆ dom (gl_textures w).
Proof.
  revert w. induction l as [|e l IH]; intros w; cbn [foldl]; [done |].
  etrans; [apply IH |]. unfold Slots.delete_slot.
  destruct (negb (ID e =? 0)%N); [| done].
  cbn [glDeleteTextures with_gl gl_textures]. rewrite dom_delete_L.
  apply subseteq_difference_l. reflexivity.
Qed.

Lemma delete_slots_not_live (l : list TEXTURE_INFO) (w : World) (e : TEXTURE_INFO) :
  e ∈ l → ID e ≠ 0%N → ¬ live (foldl Slots.delete_slot w l) (ID e).
Proof.
  revert w. induction l as [|e0 l IH]; intros w Hin Hnz; [inversion Hin |].
  apply elem_of_cons in Hin as [<- | Hin]; [| by apply IH].
  cbn [foldl]. unfold live. intros Hlive.
  apply delete_slots_subseteq in Hlive. revert Hlive.
  unfold Slots.delete_slot. rewrite (proj2 (N.eqb_neq _ _) Hnz). cbn [negb].
  apply glDeleteTextures_not_live.
Qed.

(** X14.  The earlier [DestroyGLTextures] deletes the texture of every
    slot with a non-zero ID and leaves no slot: afterwards no tag is found,
    by slot or by ID, and a second call changes nothing. *)
Theorem Slots_DestroyGLTextures_clears (sm : SceneManager) (w : World) :
  let once := Slots.DestroyGLTextures sm w in
  (∀ e, e ∈ m_textureIDs sm → ID e ≠ 0%N → ¬ live once.2 (ID e))
  ∧ m_textureIDs once.1 = []
  ∧ (∀ t, FindTextureSlot once.1 t = (-1)%Z ∧ Legacy.FindTextureID once.1 t = (-1)%Z)
  ∧ Slots.DestroyGLTextures once.1 once.2 = once.
Proof.
  cbv zeta. unfold Slots.DestroyGLTextures. cbn [fst snd with_textureIDs m_textureIDs foldl].
  split; [intros e He Hnz; by apply delete_slots_not_live |].
  split; [done |]. split; [done |]. done.
Qed.

(** ** Materials: the entry that is found *)

(** X15.  When entries carry the tag, [FindMaterial] hands back the colour
    fields of the first of them (the tag field of the out-parameter is not
    written), and [SetShaderMaterial] pushes exactly those three values, in
    the order diffuse, specular, shininess. *)
Theorem FindMaterial_first_match (sm : SceneManager) (t : string) (g : OBJECT_MATERIAL)
    (before after : list OBJECT_MATERIAL) (m : OBJECT_MATERIAL) (s : ShaderManager) :
  m_objectMaterials sm = before ++ m :: after →
  (∀ m', m' ∈ before → tag m' ≠ t) →
  tag m = t →
  m_pShaderManager sm = Some s →
  FindMaterial sm t g
  = (true, {| diffuseColor := diffuseColor m; specularColor := specularColor m;
              shininess := shininess m; tag := tag g |})
  ∧ SetShaderMaterial sm t g
    = Some (with_shader sm
              (Some (s ++ [("material.diffuseColor", UVec3 (diffuseColor m));
                           ("material.specularColor", UVec3 (specularColor m));
                           ("material.shininess", UFloat (shininess m))]))).
Proof.
  intros Htable Hbefore Htag Hs.
  assert (Hloop : FindMaterial_loop (before ++ m :: after) t g
                  = (true, {| diffuseColor := diffuseColor m;
                              specularColor := specularColor m;
                              shininess := shininess m; tag := tag g |})).
  { clear Htable. induction before as [|m0 before IH]; cbn [app FindMaterial_loop].
    - by rewrite (proj2 (String.eqb_eq _ _) Htag).
    - rewrite (proj2 (String.eqb_neq _ _)) by (apply Hbefore; left).
      apply IH. intros m' Hm'. apply Hbefore. by right. }
  assert (Hfind : FindMaterial sm t g
                  = (true, {| diffuseColor := diffuseColor m;
                              specularColor := specularColor m;
                              shininess := shininess m; tag := tag g |})).
  { unfold FindMaterial. rewrite Htable, Hloop.
    by destruct before. }
  split; [done |].
  unfold SetShaderMaterial. rewrite Hfind, Hs, Htable.
  replace (0 <? length (before ++ m :: after))%nat with true
    by (by destruct before).
  cbn [diffuseColor specularColor shininess].
  unfold setFloatValue, setVec3Value. by rewrite <- !app_assoc.
Qed.

(** ** Scene setup *)

Lemma via_shader_Some (f : ShaderManager → ShaderManager) (sm : SceneManager)
    (s : ShaderManager) :
  via_shader f (with_shader sm (Some s)) = Some (with_shader sm (Some (f s))).
Proof. reflexivity. Qed.

Lemma via_shader_None (f : ShaderManager → ShaderManager) (sm : SceneManager) :
  m_pShaderManager sm = None → via_shader f sm = None.
Proof. intros Hnull. unfold via_shader. by rewrite Hnull. Qed.

(** The current uniforms after more writes: the later writes win. *)
Lemma uniforms_app (s l : ShaderManager) : uniforms (s ++ l) = uniforms l ∪ uniforms s.
Proof.
  induction l as [|[k v] l IH] using rev_ind.
  - rewrite app_nil_r. unfold uniforms at 2. cbn [foldl]. by rewrite (left_id_L ∅ (∪)).
  - rewrite app_assoc, !uniforms_snoc, IH. by rewrite insert_union_l.
Qed.

Lemma uniforms_app_written (s l : ShaderManager) (k : string) (v : uniform_value) :
  uniforms l !! k = Some v → uniforms (s ++ l) !! k = Some v.
Proof. intros Hl. rewrite uniforms_app. by apply lookup_union_Some_l. Qed.

(** The writes of [SetupSceneLights], after whatever the sink held. *)
Lemma SetupSceneLights_writes (sm : SceneManager) (s : ShaderManager) :
  SetupSceneLights (with_shader sm (Some s))
  = Some (with_shader sm (Some (s ++
      [("bUseLighting", UBool true);
       ("directionalLight.bActive", UBool true);
       ("directionalLight.direction", UVec3 (Vec3 (-0.3) (-1) (-0.3)));
       ("directionalLight.ambient", UVec3 (Vec3 0.3 0.3 0.3));
       ("directionalLight.diffuse", UVec3 (Vec3 0.6 0.6 0.6));
       ("directionalLight.specular", UVec3 (Vec3 1 1 1));
       ("pointLights[0].bActive", UBool true);
       ("pointLights[0].position", UVec3 (Vec3 1 3 2));
       ("pointLights[0].ambient", UVec3 (Vec3 0.2 0.1 0.1));
       ("pointLights[0].diffuse", UVec3 (Vec3 0.9 0.3 0.3));
       ("pointLights[0].specular", UVec3 (Vec3 0.9 0.3 0.3));
       ("pointLights[1].bActive", UBool false);
       ("pointLights[2].bActive", UBool false);
       ("pointLights[3].bActive", UBool false);
       ("pointLights[4].bActive", UBool false);
       ("spotLight.bActive", UBool false)]))).
Proof.
  unfold SetupSceneLights.
  repeat (rewrite via_shader_Some; cbn [mbind option_bind]).
  replace (seqZ 1 4) with [1%Z; 2%Z; 3%Z; 4%Z] by (by vm_compute).
  cbn [foldl].
  repeat (cbn [mbind option_bind]; rewrite via_shader_Some).
  cbn [mbind option_bind].
  replace (pointLight_bActive 1) with "pointLights[1].bActive" by (by vm_compute).
  replace (pointLight_bActive 2) with "pointLights[2].bActive" by (by vm_compute).
  replace (pointLight_bActive 3) with "pointLights[3].bActive" by (by vm_compute).
  replace (pointLight_bActive 4) with "pointLights[4].bActive" by (by vm_compute).
  unfold setBoolValue, setVec3Value, vec3_splat.
  rewrite <- !app_assoc. reflexivity.
Qed.

(** A name that no write of a log carries has no value in it. *)
Lemma uniforms_not_written (l : ShaderManager) (name : string) :
  name ∉ l.*1 → uniforms l !! name = None.
Proof.
  induction l as [|[k v] l IH] using rev_ind; intros Hnot; [done |].
  rewrite uniforms_snoc. rewrite fmap_app in Hnot. cbn [fmap list_fmap fst] in Hnot.
  rewrite not_elem_of_app, not_elem_of_cons in Hnot. destruct Hnot as [Hl [Hk _]].
  rewrite lookup_insert_ne by done. by apply IH.
Qed.

(** X16.  Whatever the uniform sink held before, after [SetupSceneLights]
    lighting is on, the directional light and point light 0 are active
    with the direction, position and colours of the source, and point
    lights 1 to 4 and the spot light are inactive, so that no "active"
    flag of an earlier configuration survives.  These are sixteen
    uniforms; every uniform under another name keeps the value it had, or
    stays unset.  Without a shader manager the call has no result (it
    goes through the null pointer). *)
Theorem SetupSceneLights_sets_every_active_flag (sm : SceneManager) (s : ShaderManager) :
  (∃ s', SetupSceneLights (with_shader sm (Some s)) = Some (with_shader sm (Some s'))
         ∧ length s' = (length s + 16)%nat
         ∧ uniforms s' !! "bUseLighting" = Some (UBool true)
         ∧ uniforms s' !! "directionalLight.bActive" = Some (UBool true)
         ∧ uniforms s' !! "directionalLight.direction"
           = Some (UVec3 (Vec3 (-0.3) (-1) (-0.3)))
         ∧ uniforms s' !! "directionalLight.ambient" = Some (UVec3 (Vec3 0.3 0.3 0.3))
         ∧ uniforms s' !! "directionalLight.diffuse" = Some (UVec3 (Vec3 0.6 0.6 0.6))
         ∧ uniforms s' !! "directionalLight.specular" = Some (UVec3 (Vec3 1 1 1))
         ∧ uniforms s' !! "pointLights[0].bActive" = Some (UBool true)
         ∧ uniforms s' !! "pointLights[0].position" = Some (UVec3 (Vec3 1 3 2))
         ∧ uniforms s' !! "pointLights[0].ambient" = Some (UVec3 (Vec3 0.2 0.1 0.1))
         ∧ uniforms s' !! "pointLights[0].diffuse" = Some (UVec3 (Vec3 0.9 0.3 0.3))
         ∧ uniforms s' !! "pointLights[0].specular" = Some (UVec3 (Vec3 0.9 0.3 0.3))
         ∧ (∀ i, (1 ≤ i ≤ 4)%Z → uniforms s' !! pointLight_bActive i = Some (UBool false))
         ∧ uniforms s' !! "spotLight.bActive" = Some (UBool false)
         ∧ (∀ name,
              name ∉ ["bUseLighting";
                      "directionalLight.bActive"; "directionalLight.direction";
                      "directionalLight.ambient"; "directionalLight.diffuse";
                      "directionalLight.specular";
                      "pointLights[0].bActive"; "pointLights[0].position";
                      "pointLights[0].ambient"; "pointLights[0].diffuse";
                      "pointLights[0].specular";
                      "pointLights[1].bActive"; "pointLights[2].bActive";
                      "pointLights[3].bActive"; "pointLights[4].bActive";
                      "spotLight.bActive"] →
              uniforms s' !! name = uniforms s !! name))
  ∧ SetupSceneLights (with_shader sm None) = None.
Proof.
  split; [| reflexivity].
  eexists. split; [apply SetupSceneLights_writes |].
  split; [rewrite length_app; reflexivity |].
  do 11 (split; [apply uniforms_app_written; by vm_compute |]).
  split.
  { intros i Hi.
    assert (i = 1 ∨ i = 2 ∨ i = 3 ∨ i = 4)%Z as [-> | [-> | [-> | ->]]] by lia;
      apply uniforms_app_written; by vm_compute. }
  split; [apply uniforms_app_written; by vm_compute |].
  intros name Hother. rewrite uniforms_app. apply lookup_union_r.
  by apply uniforms_not_written.
Qed.

Lemma DefineObjectMaterials_writes (sm : SceneManager) (s : ShaderManager) :
  DefineObjectMaterials (with_shader sm (Some s))
  = Some (with_shader sm (Some (s ++
      [("material.diffuseColor", UVec3 (Vec3 1 1 1));
       ("material.specularColor", UVec3 (Vec3 0.6 0.6 0.6));
       ("material.shininess", UFloat 32)]))).
Proof.
  unfold DefineObjectMaterials.
  repeat (rewrite via_shader_Some; cbn [mbind option_bind]).
  unfold setFloatValue, setVec3Value. by rewrite <- !app_assoc.
Qed.

Lemma with_shader_eta (sm : SceneManager) (s : option ShaderManager) :
  m_pShaderManager sm = s → with_shader sm s = sm.
Proof. intros <-. by destruct sm. Qed.

Lemma LoadTexture_handle (filepath : string) (w : World) :
  (LoadTexture filepath w).1
  = match files w !! filepath with Some _ => fresh_name w | None => 0%N end.
Proof.
  destruct (files w !! filepath) as [img|] eqn:Hdec.
  - by rewrite (LoadTexture_decoded filepath w img Hdec).
  - by rewrite (LoadTexture_not_decoded filepath w Hdec).
Qed.

Lemma LoadTexture_files (filepath : string) (w : World) :
  files (LoadTexture filepath w).2 = files w.
Proof.
  destruct (files w !! filepath) as [img|] eqn:Hdec.
  - by rewrite (LoadTexture_decoded filepath w img Hdec).
  - by rewrite (LoadTexture_not_decoded filepath w Hdec).
Qed.

Lemma LoadTexture_bound (filepath : string) (w : World) :
  gl_bound (LoadTexture filepath w).2 = fresh_name w
  ∧ gl_deleted (LoadTexture filepath w).2 = gl_deleted w.
Proof.
  destruct (files w !! filepath) as [img|] eqn:Hdec.
  - by rewrite (LoadTexture_decoded filepath w img Hdec).
  - by rewrite (LoadTexture_not_decoded filepath w Hdec).
Qed.

Lemma LoadSceneTextures_keeps_manager (sc : Scene) (w : World) :
  manager (LoadSceneTextures sc w).1 = manager sc
  ∧ m_basicMeshes (LoadSceneTextures sc w).1 = m_basicMeshes sc.
Proof.
  unfold LoadSceneTextures.
  destruct (LoadTexture "textures/wood_seamless.jpeg" w) as [id1 w1].
  destruct (LoadTexture "textures/grey_mouse_body.jpeg" w1) as [id2 w2].
  destruct (LoadTexture "textures/dark_mouse_buttons.jpeg" w2) as [id3 w3].
  done.
Qed.

(** X17.  [LoadSceneTextures] takes three new texture names into use,
    pairwise different and none of them 0 or in use before.  Each of the
    three members holds its name when its file decodes and 0 when it does
    not.  Nothing is deleted, the last name stays bound, and the scene
    manager, its registry included, is not told about any of them. *)
Theorem LoadSceneTextures_three_fresh_textures (sc : Scene) (w : World) :
  let r := LoadSceneTextures sc w in
  ∃ wood body buttons : GLuint,
    wood ≠ body ∧ wood ≠ buttons ∧ body ≠ buttons
    ∧ wood ≠ 0%N ∧ body ≠ 0%N ∧ buttons ≠ 0%N
    ∧ ¬ live w wood ∧ ¬ live w body ∧ ¬ live w buttons
    ∧ dom (gl_textures r.2) = {[wood; body; buttons]} ∪ dom (gl_textures w)
    ∧ m_textureWood r.1
      = match files w !! "textures/wood_seamless.jpeg" with Some _ => wood | None => 0%N end
    ∧ m_textureMouseBody r.1
      = match files w !! "textures/grey_mouse_body.jpeg" with Some _ => body | None => 0%N end
    ∧ m_textureMouseButtons r.1
      = match files w !! "textures/dark_mouse_buttons.jpeg" with
        | Some _ => buttons | None => 0%N end
    ∧ gl_bound r.2 = buttons
    ∧ gl_deleted r.2 = gl_deleted w
    ∧ manager r.1 = manager sc ∧ m_basicMeshes r.1 = m_basicMeshes sc.
Proof.
  cbv zeta. unfold LoadSceneTextures.
  pose proof (LoadTexture_handle "textures/wood_seamless.jpeg" w) as Hh1.
  pose proof (LoadTexture_dom "textures/wood_seamless.jpeg" w) as Hd1.
  pose proof (LoadTexture_files "textures/wood_seamless.jpeg" w) as Hf1.
  pose proof (LoadTexture_bound "textures/wood_seamless.jpeg" w) as [_ Hx1].
  destruct (LoadTexture "textures/wood_seamless.jpeg" w) as [id1 w1].
  pose proof (LoadTexture_handle "textures/grey_mouse_body.jpeg" w1) as Hh2.
  pose proof (LoadTexture_dom "textures/grey_mouse_body.jpeg" w1) as Hd2.
  pose proof (LoadTexture_files "textures/grey_mouse_body.jpeg" w1) as Hf2.
  pose proof (LoadTexture_bound "textures/grey_mouse_body.jpeg" w1) as [_ Hx2].
  destruct (LoadTexture "textures/grey_mouse_body.jpeg" w1) as [id2 w2].
  pose proof (LoadTexture_handle "textures/dark_mouse_buttons.jpeg" w2) as Hh3.
  pose proof (LoadTexture_dom "textures/dark_mouse_buttons.jpeg" w2) as Hd3.
  pose proof (LoadTexture_bound "textures/dark_mouse_buttons.jpeg" w2) as [Hb3 Hx3].
  destruct (LoadTexture "textures/dark_mouse_buttons.jpeg" w2) as [id3 w3].
  cbn [fst snd] in *.
  cbn [m_textureWood m_textureMouseBody m_textureMouseButtons manager m_basicMeshes].
  assert (Hu1 := fresh_name_unused w). assert (Hu2 := fresh_name_unused w1).
  assert (Hu3 := fresh_name_unused w2). unfold live in *.
  rewrite Hd1 in Hu2. rewrite Hd2, Hd1 in Hu3.
  exists (fresh_name w), (fresh_name w1), (fresh_name w2).
  rewrite Hh1, Hh2, Hh3, Hf2, Hf1, Hd3, Hd2, Hd1, Hb3, Hx3, Hx2, Hx1.
  split. { intros Heq. apply Hu2. rewrite <- Heq. apply elem_of_union_l, elem_of_singleton. reflexivity. }
  split. { intros Heq. apply Hu3. rewrite <- Heq.
           apply elem_of_union_r, elem_of_union_l, elem_of_singleton. reflexivity. }
  split. { intros Heq. apply Hu3. rewrite <- Heq. apply elem_of_union_l, elem_of_singleton. reflexivity. }
  split; [apply fresh_name_nonzero |]. split; [apply fresh_name_nonzero |].
  split; [apply fresh_name_nonzero |].
  split; [done |].
  split. { intros Hin. apply Hu2. by apply elem_of_union_r. }
  split. { intros Hin. apply Hu3. by apply elem_of_union_r, elem_of_union_r. }
  split.
  { apply set_eq. intros x. rewrite !elem_of_union, !elem_of_singleton. tauto. }
  by repeat split.
Qed.

(** X18.  [PrepareScene] registers nothing: the material table, the
    tag-to-handle map and the slots of the scene manager are after it what
    they were before; it asks for the six meshes box, sphere, plane,
    cylinder, cone and torus, and it leaves the fixed material
    (1,1,1) / (0.6,0.6,0.6) / 32 in the sink.  In a scene manager that was
    just constructed, therefore, after [PrepareScene] no material and no
    texture is found under any tag, and [SetShaderMaterial] writes
    nothing.  Without a shader manager [PrepareScene] has no result. *)
Theorem PrepareScene_registers_nothing (sc : Scene) (w : World) (s : ShaderManager) :
  m_pShaderManager (manager sc) = Some s →
  (∃ sc' s',
      PrepareScene sc w = Some (sc', (LoadSceneTextures sc w).2)
      ∧ m_pShaderManager (manager sc') = Some s'
      ∧ m_objectMaterials (manager sc') = m_objectMaterials (manager sc)
      ∧ m_textureMap (manager sc') = m_textureMap (manager sc)
      ∧ m_textureIDs (manager sc') = m_textureIDs (manager sc)
      ∧ m_basicMeshes sc'
        = m_basicMeshes sc ++ [BoxMesh; SphereMesh; PlaneMesh; CylinderMesh; ConeMesh; TorusMesh]
      ∧ uniforms s' !! "material.diffuseColor" = Some (UVec3 (Vec3 1 1 1))
      ∧ uniforms s' !! "material.specularColor" = Some (UVec3 (Vec3 0.6 0.6 0.6))
      ∧ uniforms s' !! "material.shininess" = Some (UFloat 32)
      ∧ (m_objectMaterials (manager sc) = [] →
           ∀ t g, SetShaderMaterial (manager sc') t g = Some (manager sc')
                  ∧ (FindMaterial (manager sc') t g).1 = false)
      ∧ (m_textureMap (manager sc) = ∅ →
           ∀ t, TextureExists (manager sc') t = false ∧ FindTextureID (manager sc') t = 0%N))
  ∧ PrepareScene (with_manager sc (with_shader (manager sc) None)) w = None.
Proof.
  intros Hs. split.
  - unfold PrepareScene.
    destruct (LoadSceneTextures_keeps_manager sc w) as [Hman Hmesh].
    destruct (LoadSceneTextures sc w) as [sc1 w1]. cbn [fst snd] in *.
    rewrite Hman, <- (with_shader_eta (manager sc) (Some s) Hs).
    rewrite DefineObjectMaterials_writes. cbn [mbind option_bind].
    rewrite SetupSceneLights_writes. cbn [mbind option_bind].
    eexists _, _. split; [reflexivity |].
    cbn [manager with_shader m_pShaderManager m_objectMaterials m_textureMap m_textureIDs
         m_basicMeshes].
    split; [reflexivity |]. split; [done |]. split; [done |]. split; [done |].
    split; [by rewrite Hmesh |].
    rewrite <- app_assoc.
    split; [apply uniforms_app_written; by vm_compute |].
    split; [apply uniforms_app_written; by vm_compute |].
    split; [apply uniforms_app_written; by vm_compute |].
    split.
    + intros Hempty t g. unfold SetShaderMaterial, FindMaterial.
      cbn [with_shader m_objectMaterials]. by rewrite Hempty.
    + intros Hempty t. unfold TextureExists, FindTextureID.
      cbn [with_shader m_textureMap]. rewrite Hempty, lookup_empty.
      split; [| done]. apply bool_decide_eq_false_2. by intros [? ?].
  - unfold PrepareScene.
    destruct (LoadSceneTextures_keeps_manager
                (with_manager sc (with_shader (manager sc) None)) w) as [Hman _].
    destruct (LoadSceneTextures _ w) as [sc1 w1]. cbn [fst snd] in *.
    by rewrite Hman.
Qed.

(** ** One rendered frame *)

Lemma transform_step (sm : SceneManager) (s : ShaderManager) (w : World) (ds : list Draw)
    (scaleXYZ : vec3) (rx ry rz : Q) (positionXYZ : vec3) :
  transform scaleXYZ rx ry rz positionXYZ
    {| r_manager := with_shader sm (Some s); r_world := w; r_draws := ds |}
  = {| r_manager := with_shader sm
                      (Some (s ++ [("model", UMat4 (compose scaleXYZ rx ry rz positionXYZ))]));
       r_world := w; r_draws := ds |}.
Proof. reflexivity. Qed.

Lemma use_texture_step (sm : SceneManager) (s : ShaderManager) (w : World) (ds : list Draw)
    (b : bool) :
  use_texture b {| r_manager := with_shader sm (Some s); r_world := w; r_draws := ds |}
  = Some {| r_manager := with_shader sm (Some (s ++ [("bUseTexture", UBool b)]));
            r_world := w; r_draws := ds |}.
Proof. reflexivity. Qed.

Lemma bind_texture_step (sm : SceneManager) (s : ShaderManager) (w : World) (ds : list Draw)
    (id b : GLuint) :
  bind_texture id {| r_manager := with_shader sm (Some s);
                     r_world := with_gl w (gl_textures w) b (gl_deleted w); r_draws := ds |}
  = {| r_manager := with_shader sm (Some s);
       r_world := with_gl w (gl_textures w) id (gl_deleted w); r_draws := ds |}.
Proof. reflexivity. Qed.

Lemma shader_color_step (sm : SceneManager) (s : ShaderManager) (w : World) (ds : list Draw)
    (red green blue alpha : Q) :
  shader_color red green blue alpha
    {| r_manager := with_shader sm (Some s); r_world := w; r_draws := ds |}
  = {| r_manager := with_shader sm
                      (Some (s ++ [("bUseTexture", UInt 0);
                                   ("objectColor", UVec4 (Vec4 red green blue alpha))]));
       r_world := w; r_draws := ds |}.
Proof.
  unfold shader_color, SetShaderColor. cbn [r_manager r_world r_draws with_shader m_pShaderManager].
  unfold setVec4Value, setIntValue. cbn [int_of_bool]. by rewrite <- app_assoc.
Qed.

Lemma draw_step (sm : SceneManager) (s : ShaderManager) (w : World) (ds : list Draw)
    (m : Mesh) (b : GLuint) :
  draw m {| r_manager := with_shader sm (Some s);
            r_world := with_gl w (gl_textures w) b (gl_deleted w); r_draws := ds |}
  = {| r_manager := with_shader sm (Some s);
       r_world := with_gl w (gl_textures w) b (gl_deleted w);
       r_draws := ds ++ [{| drawn := m; draw_sink := Some s; draw_texture := b |}] |}.
Proof. reflexivity. Qed.

(** The rewriting that runs [RenderScene] on a sink. *)
Ltac run_frame :=
  unfold RenderScene, for_each;
  cbn [manager with_manager m_textureWood m_textureMouseBody m_textureMouseButtons];
  replace (seqZ 0 (Z.of_nat 2)) with [0%Z; 1%Z] by (by vm_compute);
  replace (seqZ 0 (Z.of_nat 3)) with [0%Z; 1%Z; 2%Z] by (by vm_compute);
  cbn [foldl];
  rewrite transform_step, use_texture_step; cbn [mbind option_bind];
  match goal with
  | |- context [bind_texture ?id {| r_manager := ?m; r_world := ?w; r_draws := ?d |}] =>
      change (bind_texture id {| r_manager := m; r_world := w; r_draws := d |})
        with {| r_manager := m; r_world := with_gl w (gl_textures w) id (gl_deleted w);
                r_draws := d |}
  end;
  repeat (rewrite ?transform_step, ?use_texture_step, ?bind_texture_step,
            ?shader_color_step, ?draw_step; cbn [mbind option_bind]);
  rewrite <- ?app_assoc; cbn [app].

(** The frame on an empty sink: eleven draw calls, each of which finds
    what it needs written in the frame itself. *)
Lemma frame_draws_self_contained (sc : Scene) :
  is_Some (empty_frame sc)
  ∧ length (frame_draws sc) = 11%nat
  ∧ Forall self_contained (frame_draws sc).
Proof.
  unfold frame_draws, empty_frame. run_frame. cbn [r_draws].
  split; [by eexists |]. split; [reflexivity |].
  repeat (apply Forall_cons; split;
           [unfold self_contained, current; cbn [draw_sink];
            split; [vm_compute; by eexists |];
            split; [vm_compute; by eexists |];
            first [left; by vm_compute | right; vm_compute; by eexists] |]).
  constructor.
Qed.

(** A frame rendered on a sink that holds [s] is the frame rendered on an
    empty sink, with [s] in front of every sink state; of the world only
    the binding changes. *)
Lemma RenderScene_shape (sc : Scene) (sm : SceneManager) (s : ShaderManager) (w : World) :
  RenderScene (with_manager sc (with_shader sm (Some s))) w
  = Some {| r_manager := with_shader sm (Some (s ++ frame_log sc));
            r_world := with_gl w (gl_textures w) (m_textureMouseButtons sc) (gl_deleted w);
            r_draws := after_sink s <$> frame_draws sc |}.
Proof.
  transitivity
    (r0 ← empty_frame sc;
     Some {| r_manager := with_shader sm (Some (s ++ default [] (m_pShaderManager (r_manager r0))));
             r_world := with_gl w (gl_textures w) (m_textureMouseButtons sc) (gl_deleted w);
             r_draws := after_sink s <$> r_draws r0 |}).
  - unfold empty_frame. run_frame. cbn [mbind option_bind].
    cbn [r_manager r_draws with_shader m_pShaderManager default fmap list_fmap
         after_sink drawn draw_sink draw_texture option_fmap option_map app].
    reflexivity.
  - destruct (frame_draws_self_contained sc) as [[r0 Hr0] _].
    unfold frame_log, frame_draws. by rewrite Hr0.
Qed.

Lemma current_after_sink (s : ShaderManager) (d : Draw) (name : string) :
  is_Some (current d name) → current (after_sink s d) name = current d name.
Proof.
  intros [v Hv]. rewrite Hv. revert Hv. unfold current, after_sink. cbn [draw_sink].
  destruct (draw_sink d) as [l|]; [| done]. cbn [fmap option_fmap option_map].
  apply uniforms_app_written.
Qed.

Lemma seen_after_sink (s : ShaderManager) (d : Draw) :
  self_contained d → seen (after_sink s d) = seen d.
Proof.
  intros (Hmodel & Htex & Hcolor). unfold seen.
  rewrite !current_after_sink by done. cbn [after_sink drawn draw_texture].
  destruct Hcolor as [Htrue | Hcolor].
  - by rewrite Htrue.
  - by rewrite (current_after_sink s d "objectColor").
Qed.

Lemma seen_frame (s : ShaderManager) (sc : Scene) :
  seen <$> (after_sink s <$> frame_draws sc) = seen <$> frame_draws sc.
Proof.
  destruct (frame_draws_self_contained sc) as (_ & _ & Hself).
  induction Hself as [|d ds Hd _ IH]; [done |].
  cbn [fmap list_fmap]. rewrite seen_after_sink by done. f_equal. exact IH.
Qed.

(** X19.  What the eleven draw calls of [RenderScene] find does not
    depend on the state the frame starts in: rendered from any two uniform
    sinks, scene managers and worlds, with the same three texture members,
    the draw calls agree one by one on the mesh, on the current "model" and
    "bUseTexture", on the bound texture and, where texturing is off, on
    "objectColor".  No draw call of the frame uses a value of these that
    was written before the frame. *)
Theorem RenderScene_draws_see_only_this_frame (sc : Scene) (sm1 sm2 : SceneManager)
    (s1 s2 : ShaderManager) (w1 w2 : World) :
  ∃ r1 r2,
    RenderScene (with_manager sc (with_shader sm1 (Some s1))) w1 = Some r1
    ∧ RenderScene (with_manager sc (with_shader sm2 (Some s2))) w2 = Some r2
    ∧ length (r_draws r1) = 11%nat
    ∧ Forall (λ d, is_Some (current d "model") ∧ is_Some (current d "bUseTexture"))
             (r_draws r1)
    ∧ seen <$> r_draws r1 = seen <$> r_draws r2.
Proof.
  eexists _, _. split; [apply RenderScene_shape |]. split; [apply RenderScene_shape |].
  cbn [r_draws].
  destruct (frame_draws_self_contained sc) as (_ & Hlen & Hself).
  split; [by rewrite length_fmap |]. split.
  - apply Forall_fmap. eapply Forall_impl; [exact Hself |].
    intros d (Hmodel & Htex & _). cbn. by rewrite !current_after_sink.
  - by rewrite !seen_frame.
Qed.

(** What each draw call of the frame is made with. *)
Lemma frame_draws_modes (sc : Scene) :
  (λ d, (drawn d, current d "bUseTexture", draw_texture d)) <$> frame_draws sc
  = [(PlaneMesh, Some (UBool true), m_textureWood sc);
     (SphereMesh, Some (UBool true), m_textureMouseBody sc);
     (TaperedCylinderMesh, Some (UBool true), m_textureMouseButtons sc);
     (TaperedCylinderMesh, Some (UBool true), m_textureMouseButtons sc);
     (BoxMesh, Some (UInt 0), m_textureMouseButtons sc);
     (SphereMesh, Some (UInt 0), m_textureMouseButtons sc);
     (SphereMesh, Some (UInt 0), m_textureMouseButtons sc);
     (SphereMesh, Some (UInt 0), m_textureMouseButtons sc);
     (TorusMesh, Some (UInt 0), m_textureMouseButtons sc);
     (TorusMesh, Some (UInt 0), m_textureMouseButtons sc);
     (BoxMesh, Some (UInt 0), m_textureMouseButtons sc)].
Proof. by vm_compute. Qed.

Lemma modes_frame (s : ShaderManager) (sc : Scene) :
  (λ d, (drawn d, current d "bUseTexture", draw_texture d)) <$> (after_sink s <$> frame_draws sc)
  = (λ d, (drawn d, current d "bUseTexture", draw_texture d)) <$> frame_draws sc.
Proof.
  destruct (frame_draws_self_contained sc) as (_ & _ & Hself).
  induction Hself as [|d ds Hd _ IH]; [done |].
  cbn [fmap list_fmap]. destruct Hd as (_ & Htex & _).
  rewrite current_after_sink by done. cbn [after_sink drawn draw_texture].
  f_equal. exact IH.
Qed.

(** X20.  One call of [RenderScene], with a shader manager: the plane, the
    sphere of the mouse body and the two tapered cylinders are drawn with
    texturing on and the wood, body and buttons texture bound, in this
    order; the seven draw calls after them are made with texturing off.
    The frame appends 23 writes to the sink and ends with "bUseTexture" at
    0; of the world it changes the binding only, which ends at the buttons
    texture; it creates and deletes no texture and changes neither the
    material table nor the registry.  Without a shader manager the call
    has no result. *)
Theorem RenderScene_frame (sc : Scene) (sm : SceneManager) (s : ShaderManager) (w : World) :
  (∃ r s',
      RenderScene (with_manager sc (with_shader sm (Some s))) w = Some r
      ∧ (λ d, (drawn d, current d "bUseTexture", draw_texture d)) <$> r_draws r
        = [(PlaneMesh, Some (UBool true), m_textureWood sc);
           (SphereMesh, Some (UBool true), m_textureMouseBody sc);
           (TaperedCylinderMesh, Some (UBool true), m_textureMouseButtons sc);
           (TaperedCylinderMesh, Some (UBool true), m_textureMouseButtons sc);
           (BoxMesh, Some (UInt 0), m_textureMouseButtons sc);
           (SphereMesh, Some (UInt 0), m_textureMouseButtons sc);
           (SphereMesh, Some (UInt 0), m_textureMouseButtons sc);
           (SphereMesh, Some (UInt 0), m_textureMouseButtons sc);
           (TorusMesh, Some (UInt 0), m_textureMouseButtons sc);
           (TorusMesh, Some (UInt 0), m_textureMouseButtons sc);
           (BoxMesh, Some (UInt 0), m_textureMouseButtons sc)]
      ∧ r_manager r = with_shader sm (Some s')
      ∧ length s' = (length s + 23)%nat
      ∧ uniforms s' !! "bUseTexture" = Some (UInt 0)
      ∧ gl_textures (r_world r) = gl_textures w
      ∧ gl_deleted (r_world r) = gl_deleted w
      ∧ gl_bound (r_world r) = m_textureMouseButtons sc)
  ∧ RenderScene (with_manager sc (with_shader sm None)) w = None.
Proof.
  split; [| reflexivity].
  eexists _, _. split; [apply RenderScene_shape |].
  cbn [r_draws r_manager r_world with_gl gl_textures gl_deleted gl_bound].
  split; [by rewrite modes_frame, frame_draws_modes |].
  split; [reflexivity |].
  split; [rewrite length_app; f_equal; by vm_compute |].
  split; [apply uniforms_app_written; by vm_compute | done].
Qed.

Lemma after_sink_textures (s : ShaderManager) (ds : list Draw) :
  draw_texture <$> (after_sink s <$> ds) = draw_texture <$> ds.
Proof. by rewrite <- list_fmap_compose. Qed.

Lemma after_sink_meshes (s : ShaderManager) (ds : list Draw) :
  drawn <$> (after_sink s <$> ds) = drawn <$> ds.
Proof. by rewrite <- list_fmap_compose. Qed.

Lemma frame_draws_textures (sc : Scene) :
  draw_texture <$> frame_draws sc
  = [m_textureWood sc; m_textureMouseBody sc] ++ replicate 9 (m_textureMouseButtons sc).
Proof. by vm_compute. Qed.

Lemma frame_draws_meshes (sc : Scene) :
  drawn <$> frame_draws sc
  = [PlaneMesh; SphereMesh; TaperedCylinderMesh; TaperedCylinderMesh; BoxMesh;
     SphereMesh; SphereMesh; SphereMesh; TorusMesh; TorusMesh; BoxMesh].
Proof. by vm_compute. Qed.

Lemma PrepareScene_run (sc : Scene) (w : World) (s : ShaderManager) :
  m_pShaderManager (manager sc) = Some s →
  ∃ s', PrepareScene sc w
        = Some ({| manager := with_shader (manager sc) (Some s');
                   m_textureWood := m_textureWood (LoadSceneTextures sc w).1;
                   m_textureMouseBody := m_textureMouseBody (LoadSceneTextures sc w).1;
                   m_textureMouseButtons := m_textureMouseButtons (LoadSceneTextures sc w).1;
                   m_basicMeshes := m_basicMeshes sc
                                    ++ [BoxMesh; SphereMesh; PlaneMesh;
                                        CylinderMesh; ConeMesh; TorusMesh] |},
                (LoadSceneTextures sc w).2).
Proof.
  intros Hs. unfold PrepareScene.
  destruct (LoadSceneTextures_keeps_manager sc w) as [Hman Hmesh].
  destruct (LoadSceneTextures sc w) as [sc1 w1]. cbn [fst snd] in *.
  rewrite Hman, <- (with_shader_eta (manager sc) (Some s) Hs).
  rewrite DefineObjectMaterials_writes. cbn [mbind option_bind].
  rewrite SetupSceneLights_writes. cbn [mbind option_bind].
  eexists. rewrite Hmesh. reflexivity.
Qed.

(** X21.  [PrepareScene] followed by [RenderScene], with a shader
    manager: both have a result, the frame draws with the three textures
    that [LoadSceneTextures] stored, and every mesh it draws is one of the
    six that [PrepareScene] asked for, except the tapered cylinder, which
    is drawn (twice) without [PrepareScene] having asked for it. *)
Theorem PrepareScene_then_RenderScene (sc : Scene) (w : World) (s : ShaderManager) :
  m_pShaderManager (manager sc) = Some s →
  TaperedCylinderMesh ∉ m_basicMeshes sc →
  ∃ sc' w' r,
    PrepareScene sc w = Some (sc', w')
    ∧ RenderScene sc' w' = Some r
    ∧ draw_texture <$> r_draws r
      = [m_textureWood (LoadSceneTextures sc w).1;
         m_textureMouseBody (LoadSceneTextures sc w).1]
        ++ replicate 9 (m_textureMouseButtons (LoadSceneTextures sc w).1)
    ∧ (∀ m, m ∈ drawn <$> r_draws r → m ∈ m_basicMeshes sc' ∨ m = TaperedCylinderMesh)
    ∧ TaperedCylinderMesh ∈ drawn <$> r_draws r
    ∧ TaperedCylinderMesh ∉ m_basicMeshes sc'.
Proof.
  intros Hs Hnot. destruct (PrepareScene_run sc w s Hs) as [s' Hrun].
  eexists _, _, _. split; [exact Hrun |].
  split.
  { match goal with
    | |- RenderScene {| manager := with_shader ?sm (Some ?l); m_textureWood := ?a;
                        m_textureMouseBody := ?b; m_textureMouseButtons := ?c;
                        m_basicMeshes := ?ms |} _ = _ =>
        change {| manager := with_shader sm (Some l); m_textureWood := a;
                  m_textureMouseBody := b; m_textureMouseButtons := c;
                  m_basicMeshes := ms |}
          with (with_manager {| manager := sm; m_textureWood := a;
                                m_textureMouseBody := b; m_textureMouseButtons := c;
                                m_basicMeshes := ms |} (with_shader sm (Some l)))
    end.
    apply RenderScene_shape. }
  cbn [r_draws].
  set (sc0 := {| manager := manager sc;
                 m_textureWood := m_textureWood (LoadSceneTextures sc w).1;
                 m_textureMouseBody := m_textureMouseBody (LoadSceneTextures sc w).1;
                 m_textureMouseButtons := m_textureMouseButtons (LoadSceneTextures sc w).1;
                 m_basicMeshes := m_basicMeshes sc
                                  ++ [BoxMesh; SphereMesh; PlaneMesh;
                                      CylinderMesh; ConeMesh; TorusMesh] |}).
  rewrite after_sink_textures, after_sink_meshes, frame_draws_textures, frame_draws_meshes.
  cbn [fmap list_fmap fst snd sc0 m_textureWood m_textureMouseBody m_textureMouseButtons
       replicate app m_basicMeshes].
  split; [reflexivity |]. split.
  { intros m Hm. rewrite !elem_of_cons in Hm. rewrite elem_of_app, !elem_of_cons.
    destruct Hm as [-> | [-> | [-> | [-> | [-> | [-> | [-> | [-> | [-> | [-> | [-> | Hm]]]]]]]]]]];
      [tauto .. | by apply elem_of_nil in Hm]. }
  split; [do 2 right; left |].
  rewrite elem_of_app, !elem_of_cons, elem_of_nil.
  intros [Hin | Hin]; [done |].
  destruct Hin as [? | [? | [? | [? | [? | [? | []]]]]]]; discriminate.
Qed.

(** ** The view manager: keys and frame bookkeeping *)

Section Keys.

Context `{CameraLib} `{View.Defines}.

(** What [ProcessKeyboardEvents] leaves alone, and what Escape does. *)
Lemma ProcessKeyboardEvents_frame (pressed : View.Key → bool) (v : View.ViewManager) :
  let v' := View.ProcessKeyboardEvents pressed v in
  View.windowShouldClose v' = View.windowShouldClose v || pressed View.GLFW_KEY_ESCAPE
  ∧ View.gLastX v' = View.gLastX v ∧ View.gLastY v' = View.gLastY v
  ∧ View.gFirstMouse v' = View.gFirstMouse v
  ∧ View.gDeltaTime v' = View.gDeltaTime v ∧ View.gLastFrame v' = View.gLastFrame v
  ∧ View.m_pShaderManager v' = View.m_pShaderManager v.
Proof.
  cbv zeta. unfold View.ProcessKeyboardEvents.
  destruct (pressed View.GLFW_KEY_ESCAPE);
    cbn [View.set_close View.g_pCamera View.gDeltaTime];
    (destruct (View.g_pCamera v) as [c|];
     [destruct (pressed View.GLFW_KEY_P), (pressed View.GLFW_KEY_O) |]);
    cbn; rewrite ?orb_true_r, ?orb_false_r; by repeat split.
Qed.

(** X22.  Without a camera the keyboard handler honours Escape only: the
    keys P and O do not change the projection mode, nothing else of the
    view manager changes, and [PrepareSceneView], which goes on to use the
    camera, has no result.  *)
Theorem ProcessKeyboardEvents_without_camera (pressed : View.Key → bool)
    (v : View.ViewManager) (currentFrame : Q) :
  View.g_pCamera v = None →
  View.ProcessKeyboardEvents pressed v
  = (if pressed View.GLFW_KEY_ESCAPE then View.set_close v true else v)
  ∧ View.bOrthographicProjection (View.ProcessKeyboardEvents pressed v)
    = View.bOrthographicProjection v
  ∧ View.g_pCamera (View.ProcessKeyboardEvents pressed v) = None
  ∧ View.PrepareSceneView currentFrame pressed v = None.
Proof.
  intros Hnull.
  assert (Hkeys : ∀ v0, View.g_pCamera v0 = None →
            View.ProcessKeyboardEvents pressed v0
            = (if pressed View.GLFW_KEY_ESCAPE then View.set_close v0 true else v0)).
  { intros v0 Hnull0. unfold View.ProcessKeyboardEvents.
    destruct (pressed View.GLFW_KEY_ESCAPE); cbn [View.set_close View.g_pCamera];
      by rewrite Hnull0. }
  split; [by apply Hkeys |]. rewrite Hkeys by done.
  split; [by destruct (pressed View.GLFW_KEY_ESCAPE) |].
  split; [by destruct (pressed View.GLFW_KEY_ESCAPE) |].
  unfold View.PrepareSceneView. rewrite Hkeys by done.
  destruct (pressed View.GLFW_KEY_ESCAPE);
    cbn [View.set_close View.set_time View.g_pCamera]; by rewrite Hnull.
Qed.

(** X23.  With a camera, the projection mode after the keyboard handler is
    orthographic when O is held (also when P is held with it),
    perspective when P alone is held, and what it was when neither is.
    Holding the same keys through a second call leaves the mode where the
    first call put it: a key that stays down does not make the mode flip
    back and forth. *)
Theorem ProcessKeyboardEvents_projection_mode (pressed : View.Key → bool)
    (v : View.ViewManager) (c : Camera) :
  View.g_pCamera v = Some c →
  let v1 := View.ProcessKeyboardEvents pressed v in
  let v2 := View.ProcessKeyboardEvents pressed v1 in
  (pressed View.GLFW_KEY_O = true → View.bOrthographicProjection v1 = true)
  ∧ (pressed View.GLFW_KEY_O = false → pressed View.GLFW_KEY_P = true →
       View.bOrthographicProjection v1 = false)
  ∧ (pressed View.GLFW_KEY_O = false → pressed View.GLFW_KEY_P = false →
       View.bOrthographicProjection v1 = View.bOrthographicProjection v)
  ∧ View.bOrthographicProjection v2 = View.bOrthographicProjection v1.
Proof.
  intros Hc. cbv zeta.
  destruct (ProcessKeyboardEvents_with_camera pressed v c Hc) as (Hc1 & Hmode1 & _).
  destruct (ProcessKeyboardEvents_with_camera pressed _ _ Hc1) as (_ & Hmode2 & _).
  rewrite Hmode2, Hmode1. unfold mode_after_keys.
  destruct (pressed View.GLFW_KEY_O), (pressed View.GLFW_KEY_P); by repeat split.
Qed.

(** X24.  One frame of [PrepareSceneView], with a camera and a clock
    within the range of [float]: the frame time becomes the clock value
    converted to [float], and the delta time the difference of that and
    the previous frame time, computed in [float].  So a frame whose clock
    value converts to the frame time of the frame before has a delta time
    of 0, and for clock values that are [float]s with a difference that is
    a [float] the delta time is the time between the two frames.  The
    close request is set when Escape is held and is never cleared; the
    mouse tracking state is not touched.  With a null shader manager the
    frame still has a result and writes nothing. *)
Theorem PrepareSceneView_bookkeeping (t1 t2 : Q) (pressed1 pressed2 : View.Key → bool)
    (v : View.ViewManager) (c : Camera) :
  View.g_pCamera v = Some c →
  in_float_range t1 → in_float_range t2 → in_float_range (View.gLastFrame v) →
  ∃ v1 v2,
    View.PrepareSceneView t1 pressed1 v = Some v1
    ∧ View.PrepareSceneView t2 pressed2 v1 = Some v2
    ∧ View.gLastFrame v1 = float32 t1
    ∧ View.gDeltaTime v1 = float32 (float32 t1 - View.gLastFrame v)
    ∧ View.gLastFrame v2 = float32 t2
    ∧ View.gDeltaTime v2 = float32 (float32 t2 - float32 t1)
    ∧ (float32 t2 = float32 t1 → View.gDeltaTime v2 = 0)
    ∧ (is_float t1 → is_float t2 → is_float (t2 - t1) → View.gDeltaTime v2 == t2 - t1)
    ∧ View.windowShouldClose v1
      = View.windowShouldClose v || pressed1 View.GLFW_KEY_ESCAPE
    ∧ (View.windowShouldClose v1 = true → View.windowShouldClose v2 = true)
    ∧ View.gLastX v2 = View.gLastX v ∧ View.gLastY v2 = View.gLastY v
    ∧ View.gFirstMouse v2 = View.gFirstMouse v
    ∧ (View.m_pShaderManager v = None →
         View.m_pShaderManager v1 = None ∧ View.m_pShaderManager v2 = None).
Proof.
  intros Hc _ _ _.
  assert (Hframe : ∀ t pressed v0 c0, View.g_pCamera v0 = Some c0 →
            ∃ v' c', View.PrepareSceneView t pressed v0 = Some v'
              ∧ View.g_pCamera v' = Some c'
              ∧ View.gLastFrame v' = float32 t
              ∧ View.gDeltaTime v' = float32 (float32 t - View.gLastFrame v0)
              ∧ View.windowShouldClose v'
                = View.windowShouldClose v0 || pressed View.GLFW_KEY_ESCAPE
              ∧ View.gLastX v' = View.gLastX v0 ∧ View.gLastY v' = View.gLastY v0
              ∧ View.gFirstMouse v' = View.gFirstMouse v0
              ∧ (View.m_pShaderManager v0 = None → View.m_pShaderManager v' = None)).
  { intros t pressed v0 c0 Hcam0. unfold View.PrepareSceneView. cbv zeta.
    set (vt := View.set_time v0 (float32 (float32 t - View.gLastFrame v0)) (float32 t)).
    destruct (ProcessKeyboardEvents_with_camera pressed vt c0 Hcam0) as (Hc' & _ & _).
    destruct (ProcessKeyboardEvents_frame pressed vt) as (Hclose & Hx & Hy & Hf & Hd & Hl & Hs).
    rewrite Hc', Hs. unfold vt in *. cbn [View.set_time View.m_pShaderManager] in *.
    destruct (View.m_pShaderManager v0) as [s|];
      eexists _, _; (split; [reflexivity |]);
      cbn [View.set_shader View.g_pCamera View.gLastFrame View.gDeltaTime
           View.windowShouldClose View.gLastX View.gLastY View.gFirstMouse
           View.m_pShaderManager];
      rewrite ?Hc', ?Hclose, ?Hx, ?Hy, ?Hf, ?Hd, ?Hl, ?Hs; by repeat split. }
  destruct (Hframe t1 pressed1 v c Hc)
    as (v1 & c1 & Hrun1 & Hc1 & Hl1 & Hd1 & Hclose1 & Hx1 & Hy1 & Hf1 & Hs1).
  destruct (Hframe t2 pressed2 v1 c1 Hc1)
    as (v2 & c2 & Hrun2 & Hc2 & Hl2 & Hd2 & Hclose2 & Hx2 & Hy2 & Hf2 & Hs2).
  exists v1, v2. rewrite Hl1 in Hd2.
  split; [done |]. split; [done |]. split; [done |]. split; [done |].
  split; [done |]. split; [done |].
  split.
  { intros Hsame. rewrite Hd2, Hsame. apply round_zero. ring. }
  split.
  { unfold is_float. intros Ht1 Ht2 Hdiff. rewrite Hd2.
    assert (Heq : float32 (float32 t2 - float32 t1) = float32 (t2 - t1)).
    { apply round_comp. by rewrite Ht1, Ht2. }
    rewrite Heq. exact Hdiff. }
  split; [done |].
  split; [intros Htrue; by rewrite Hclose2, Htrue |].
  split; [by rewrite Hx2 |]. split; [by rewrite Hy2 |]. split; [by rewrite Hf2 |].
  intros Hnull. split; [by apply Hs1 | by apply Hs2, Hs1].
Qed.

End Keys.

(** ** DbHelper with a connection *)

Section Store.

Context `{Db.Sqlite}.



End Store.

Section Writers.

Context `{Db.Sqlite}.

Lemma step_and_finalize_outcome (method : string) (stmt : Db.sqlite3_stmt)
    (db : Db.sqlite3) (h : Db.DbHelper) :
  writer_outcome method h (Db.step_and_finalize method stmt db h).
Proof.
  unfold writer_outcome, Db.step_and_finalize.
  destruct (Db.sqlite3_step stmt db) as [[|] db'];
    cbn [fst snd Db.set_db Db.report Db.db_ Db.cerr].
  - split; [by eexists |]. by split.
  - split; [by eexists |]. split; [done |]. intros _. eexists. by right.
Qed.

Variables (h : Db.DbHelper) (db : Db.sqlite3).
Hypothesis connected : Db.db_ h = Some db.

(** X26.  With a connection, each of the three writers leaves the helper
    open and reports a failure exactly when it returns false: a true
    result comes with nothing written to the diagnostic stream, a false
    result with exactly one line, naming the method, for the prepare or
    for the step that failed; after a failed prepare the connection is as
    it was. *)
Theorem DbHelper_writers_report_failures
    (name projection source message : string) (x y z fov fps frameMs : Q) :
  writer_outcome "saveCameraProfile" h (Db.saveCameraProfile name x y z fov projection h)
  ∧ writer_outcome "logTelemetry" h (Db.logTelemetry fps frameMs h)
  ∧ writer_outcome "logError" h (Db.logError source message h).
Proof.
  unfold Db.saveCameraProfile, Db.logTelemetry, Db.logError. rewrite connected.
  split; [| split];
    (match goal with
     | |- context [Db.sqlite3_prepare_v2 db ?sql] =>
         destruct (Db.sqlite3_prepare_v2 db sql) as [stmt|]
     end;
     [apply step_and_finalize_outcome |
      unfold writer_outcome; cbn [fst snd Db.report Db.db_ Db.cerr];
      rewrite connected; split; [by eexists |]; split; [done |];
      intros _; eexists; by left]).
Qed.

End Writers.

(** X27.  After [close()] the helper has no connection: [isOpen] is
    false, each writer and [ensureSchema] return false without writing to
    the diagnostic stream, and a second [close()] changes nothing. *)
Theorem DbHelper_close_then_unavailable `{Db.Sqlite} (h : Db.DbHelper)
    (name projection source message : string) (x y z fov fps frameMs : Q) :
  let closed := DbHelper_close h in
  Db.db_ closed = None
  ∧ Db.isOpen closed = false
  ∧ Db.cerr closed = Db.cerr h
  ∧ DbHelper_close closed = closed
  ∧ Db.saveCameraProfile name x y z fov projection closed = (false, closed)
  ∧ Db.logTelemetry fps frameMs closed = (false, closed)
  ∧ Db.logError source message closed = (false, closed)
  ∧ Db.ensureSchema closed = (false, closed).
Proof.
  cbv zeta.
  assert (Hnull : Db.db_ (DbHelper_close h) = None).
  { unfold DbHelper_close. by destruct (Db.db_ h) eqn:Hdb. }
  unfold Db.isOpen, Db.saveCameraProfile, Db.logTelemetry, Db.logError, Db.ensureSchema.
  rewrite Hnull. repeat split; try done.
  - unfold DbHelper_close. by destruct (Db.db_ h).
  - unfold DbHelper_close at 1. by rewrite Hnull.
Qed.

(** ** The further properties at sample inputs *)

(** The tag "desk" loaded from the RGB file of the sample world. *)
Lemma CreateGLTexture_then_lookup_witness :
  let r := CreateGLTexture empty_scene "desk" "wood.jpeg" true sample_world in
  r.1.1 = true
  ∧ FindTextureID r.1.2 "desk" = fresh_name sample_world
  ∧ FindTextureID r.1.2 "desk" ≠ 0%N
  ∧ live r.2 (FindTextureID r.1.2 "desk")
  ∧ uploaded_format r.2 (FindTextureID r.1.2 "desk") = Some GL_RGB
  ∧ TextureExists r.1.2 "desk" = true
  ∧ gl_bound r.2 = 0%N
  ∧ BindTextureByTag r.1.2 "desk" r.2
    = (true, glBindTexture (fresh_name sample_world) r.2)
  ∧ (∀ t', t' ≠ "desk" → FindTextureID r.1.2 t' = FindTextureID empty_scene t'
                         ∧ TextureExists r.1.2 t' = TextureExists empty_scene t').
Proof.
  apply (CreateGLTexture_then_lookup empty_scene sample_world "desk" "wood.jpeg" true
           {| width := 4; height := 4; channels := 3 |} GL_RGB).
  - intros t h Hstored. cbn in Hstored. by rewrite lookup_empty in Hstored.
  - vm_compute. reflexivity.
  - reflexivity.
Defined.

(** The tag "desk" loaded from a file that is not there. *)
Lemma CreateGLTexture_failure_keeps_registry_witness :
  let r := CreateGLTexture empty_scene "desk" "missing.png" true sample_world in
  r.1.1 = false
  ∧ r.1.2 = empty_scene
  ∧ gl_textures r.2 = gl_textures sample_world
  ∧ gl_bound r.2 = gl_bound sample_world
  ∧ gl_deleted r.2 = gl_deleted sample_world
  ∧ files r.2 = files sample_world
  ∧ stbi_flip r.2 = true
  ∧ ∃ m, console r.2
         = console sample_world ++ [m; msg_failed_to_create_texture "desk" "missing.png"].
Proof.
  cbv zeta.
  assert (Hfailed : (CreateGLTexture empty_scene "desk" "missing.png" true
                       sample_world).1.1 = false)
    by (vm_compute; reflexivity).
  split; [exact Hfailed |].
  exact (CreateGLTexture_failure_keeps_registry empty_scene sample_world "desk"
           "missing.png" true Hfailed).
Defined.

(** The state after one load into the empty registry. *)
Lemma reachable_handles_live_and_distinct_witness :
  let loaded := CreateGLTexture empty_scene "desk" "wood.jpeg" true sample_world in
  reachable loaded.1.2 loaded.2
  ∧ (∀ t h, m_textureMap loaded.1.2 !! t = Some h → h ≠ 0%N ∧ live loaded.2 h)
  ∧ (∀ t1 t2 h, m_textureMap loaded.1.2 !! t1 = Some h →
                m_textureMap loaded.1.2 !! t2 = Some h → t1 = t2).
Proof.
  cbv zeta.
  assert (Hreach : reachable
                     (CreateGLTexture empty_scene "desk" "wood.jpeg" true sample_world).1.2
                     (CreateGLTexture empty_scene "desk" "wood.jpeg" true sample_world).2)
    by (apply reach_CreateGLTexture, reach_new; reflexivity).
  split; [exact Hreach |].
  exact (reachable_handles_live_and_distinct _ _ Hreach).
Defined.

(** The three queries for "desk" after a load and a teardown. *)
Lemma reachable_lookups_agree_witness :
  let loaded := CreateGLTexture empty_scene "desk" "wood.jpeg" true sample_world in
  let torn := DestroyGLTextures loaded.1.2 loaded.2 in
  reachable torn.1 torn.2
  ∧ (TextureExists torn.1 "desk" = true ↔ FindTextureID torn.1 "desk" ≠ 0%N)
  ∧ (BindTextureByTag torn.1 "desk" torn.2).1 = TextureExists torn.1 "desk"
  ∧ (TextureExists torn.1 "desk" = true →
       live torn.2 (FindTextureID torn.1 "desk")
       ∧ (BindTextureByTag torn.1 "desk" torn.2).2
         = glBindTexture (FindTextureID torn.1 "desk") torn.2)
  ∧ (TextureExists torn.1 "desk" = false →
       (BindTextureByTag torn.1 "desk" torn.2).2 = torn.2).
Proof.
  cbv zeta.
  assert (Hreach : reachable
                     (DestroyGLTextures
                        (CreateGLTexture empty_scene "desk" "wood.jpeg" true
                           sample_world).1.2
                        (CreateGLTexture empty_scene "desk" "wood.jpeg" true
                           sample_world).2).1
                     (DestroyGLTextures
                        (CreateGLTexture empty_scene "desk" "wood.jpeg" true
                           sample_world).1.2
                        (CreateGLTexture empty_scene "desk" "wood.jpeg" true
                           sample_world).2).2)
    by (apply reach_DestroyGLTextures, reach_CreateGLTexture, reach_new; reflexivity).
  split; [exact Hreach |].
  exact (reachable_lookups_agree _ _ "desk" Hreach).
Defined.

(** A texture loaded by [LoadTexture] beside a registered one. *)
Lemma LoadTexture_survives_DestroyGLTextures_witness :
  let registered := CreateGLTexture empty_scene "desk" "wood.jpeg" true sample_world in
  let loaded := LoadTexture "leaf.png" registered.2 in
  reachable registered.1.2 registered.2
  ∧ live loaded.2 (fresh_name registered.2)
  ∧ live (DestroyGLTextures registered.1.2 loaded.2).2 (fresh_name registered.2).
Proof.
  cbv zeta.
  assert (Hreach : reachable
                     (CreateGLTexture empty_scene "desk" "wood.jpeg" true sample_world).1.2
                     (CreateGLTexture empty_scene "desk" "wood.jpeg" true sample_world).2)
    by (apply reach_CreateGLTexture, reach_new; reflexivity).
  split; [exact Hreach |].
  exact (LoadTexture_survives_DestroyGLTextures _ _ "leaf.png" Hreach).
Defined.

(** The array-slot variant on the RGB file of the sample world, with no
    slot filled before. *)
Lemma Legacy_CreateGLTexture_then_lookup_witness :
  ∃ r, Legacy.CreateGLTexture empty_scene "wood.jpeg" "desk" sample_world = Some r
    ∧ r.1.1 = true
    ∧ m_textureIDs r.1.2 = [{| ID := fresh_name sample_world; tex_tag := "desk" |}]
    ∧ ¬ live sample_world (fresh_name sample_world)
    ∧ live r.2 (fresh_name sample_world)
    ∧ gl_deleted r.2 = gl_deleted sample_world
    ∧ FindTextureSlot r.1.2 "desk" = 0%Z
    ∧ Legacy.FindTextureID r.1.2 "desk" = int_of_GLuint (fresh_name sample_world)
    ∧ (∀ t', t' ≠ "desk" →
             FindTextureSlot r.1.2 t' = FindTextureSlot empty_scene t'
             ∧ Legacy.FindTextureID r.1.2 t' = Legacy.FindTextureID empty_scene t').
Proof.
  destruct (Legacy_CreateGLTexture_then_lookup empty_scene sample_world "wood.jpeg" "desk"
              {| width := 4; height := 4; channels := 3 |}) as [Hroom _].
  - vm_compute. reflexivity.
  - left. reflexivity.
  - destruct Hroom as (r & Hrun & Hok & Hslots & Hfresh & Hlive & Hdel & Hnew & _ & Hothers).
    { vm_compute. lia. }
    destruct Hnew as [Hslot Hid]; [reflexivity |].
    exists r. by repeat (split; [assumption |]).
Defined.

(** The array-slot variant on the two-channel file of the sample world. *)
Lemma Legacy_CreateGLTexture_unsupported_leaks_witness :
  ∃ r, Legacy.CreateGLTexture empty_scene "grey_alpha.png" "desk" sample_world = Some r
  ∧ r.1.1 = false
  ∧ r.1.2 = empty_scene
  ∧ ¬ live sample_world (fresh_name sample_world)
  ∧ live r.2 (fresh_name sample_world)
  ∧ uploaded_format r.2 (fresh_name sample_world) = None
  ∧ gl_bound r.2 = fresh_name sample_world
  ∧ gl_deleted r.2 = gl_deleted sample_world
  ∧ size (gl_textures r.2) = S (size (gl_textures sample_world)).
Proof.
  apply (Legacy_CreateGLTexture_unsupported_leaks empty_scene sample_world
           "grey_alpha.png" "desk" {| width := 2; height := 2; channels := 2 |}).
  - vm_compute. reflexivity.
  - discriminate.
  - discriminate.
Defined.

(** The sampler written for "desk" right after it was loaded. *)
Lemma SetShaderTexture_after_CreateGLTexture_witness :
  let sm' := (CreateGLTexture empty_scene "desk" "wood.jpeg" true sample_world).1.2 in
  (∀ t', FindTextureSlot sm' t' = FindTextureSlot empty_scene t')
  ∧ (m_textureIDs empty_scene = [] →
       (CreateGLTexture empty_scene "desk" "wood.jpeg" true sample_world).1.1 = true →
       TextureExists sm' "desk" = true
       ∧ m_pShaderManager (SetShaderTexture sm' "desk")
         = Some ([] ++ [("bUseTexture", UInt 1); ("objectTexture", USampler2D (-1))])).
Proof.
  apply (SetShaderTexture_after_CreateGLTexture empty_scene sample_world "desk"
           "wood.jpeg" true []).
  reflexivity.
Defined.

(** The table that registers "glass", asked for "glass". *)
Lemma FindMaterial_first_match_witness :
  FindMaterial (glass_table []) "glass" glass
  = (true, {| diffuseColor := diffuseColor glass; specularColor := specularColor glass;
              shininess := shininess glass; tag := tag glass |})
  ∧ SetShaderMaterial (glass_table []) "glass" glass
    = Some (with_shader (glass_table [])
              (Some ([] ++ [("material.diffuseColor", UVec3 (diffuseColor glass));
                            ("material.specularColor", UVec3 (specularColor glass));
                            ("material.shininess", UFloat (shininess glass))]))).
Proof.
  apply (FindMaterial_first_match (glass_table []) "glass" glass [] [] glass []).
  - reflexivity.
  - intros m' Hin. inversion Hin.
  - reflexivity.
  - reflexivity.
Defined.

(** The sample scene prepared in the sample world. *)
Lemma PrepareScene_registers_nothing_witness :
  (∃ sc' s',
      PrepareScene sample_scene sample_world
      = Some (sc', (LoadSceneTextures sample_scene sample_world).2)
      ∧ m_pShaderManager (manager sc') = Some s'
      ∧ m_objectMaterials (manager sc') = m_objectMaterials (manager sample_scene)
      ∧ m_textureMap (manager sc') = m_textureMap (manager sample_scene)
      ∧ m_textureIDs (manager sc') = m_textureIDs (manager sample_scene)
      ∧ m_basicMeshes sc'
        = m_basicMeshes sample_scene
          ++ [BoxMesh; SphereMesh; PlaneMesh; CylinderMesh; ConeMesh; TorusMesh]
      ∧ uniforms s' !! "material.diffuseColor" = Some (UVec3 (Vec3 1 1 1))
      ∧ uniforms s' !! "material.specularColor" = Some (UVec3 (Vec3 0.6 0.6 0.6))
      ∧ uniforms s' !! "material.shininess" = Some (UFloat 32)
      ∧ (m_objectMaterials (manager sample_scene) = [] →
           ∀ t g, SetShaderMaterial (manager sc') t g = Some (manager sc')
                  ∧ (FindMaterial (manager sc') t g).1 = false)
      ∧ (m_textureMap (manager sample_scene) = ∅ →
           ∀ t, TextureExists (manager sc') t = false
                ∧ FindTextureID (manager sc') t = 0%N))
  ∧ PrepareScene (with_manager sample_scene (with_shader (manager sample_scene) None))
      sample_world = None.
Proof.
  apply (PrepareScene_registers_nothing sample_scene sample_world []).
  reflexivity.
Defined.

(** The sample scene prepared and rendered once. *)
Lemma PrepareScene_then_RenderScene_witness :
  ∃ sc' w' r,
    PrepareScene sample_scene sample_world = Some (sc', w')
    ∧ RenderScene sc' w' = Some r
    ∧ draw_texture <$> r_draws r
      = [m_textureWood (LoadSceneTextures sample_scene sample_world).1;
         m_textureMouseBody (LoadSceneTextures sample_scene sample_world).1]
        ++ replicate 9 (m_textureMouseButtons (LoadSceneTextures sample_scene sample_world).1)
    ∧ (∀ m, m ∈ drawn <$> r_draws r → m ∈ m_basicMeshes sc' ∨ m = TaperedCylinderMesh)
    ∧ TaperedCylinderMesh ∈ drawn <$> r_draws r
    ∧ TaperedCylinderMesh ∉ m_basicMeshes sc'.
Proof.
  apply (PrepareScene_then_RenderScene sample_scene sample_world []).
  - reflexivity.
  - intros Hin. inversion Hin.
Defined.

(** Escape and P held in a view manager that has no camera. *)
Lemma ProcessKeyboardEvents_without_camera_witness :
  @View.ProcessKeyboardEvents sample_camera_lib key_Escape_P sample_view_no_camera
  = (if key_Escape_P View.GLFW_KEY_ESCAPE
     then View.set_close sample_view_no_camera true else sample_view_no_camera)
  ∧ View.bOrthographicProjection
      (@View.ProcessKeyboardEvents sample_camera_lib key_Escape_P sample_view_no_camera)
    = View.bOrthographicProjection sample_view_no_camera
  ∧ View.g_pCamera
      (@View.ProcessKeyboardEvents sample_camera_lib key_Escape_P sample_view_no_camera)
    = None
  ∧ @View.PrepareSceneView sample_camera_lib sample_defines 1 key_Escape_P
      sample_view_no_camera = None.
Proof.
  apply (@ProcessKeyboardEvents_without_camera sample_camera_lib sample_defines
           key_Escape_P sample_view_no_camera 1).
  reflexivity.
Defined.

(** The key O held for two frames of the sample view. *)
Lemma ProcessKeyboardEvents_projection_mode_witness :
  let v1 := @View.ProcessKeyboardEvents sample_camera_lib key_O sample_view in
  let v2 := @View.ProcessKeyboardEvents sample_camera_lib key_O v1 in
  (key_O View.GLFW_KEY_O = true → View.bOrthographicProjection v1 = true)
  ∧ (key_O View.GLFW_KEY_O = false → key_O View.GLFW_KEY_P = true →
       View.bOrthographicProjection v1 = false)
  ∧ (key_O View.GLFW_KEY_O = false → key_O View.GLFW_KEY_P = false →
       View.bOrthographicProjection v1 = View.bOrthographicProjection sample_view)
  ∧ View.bOrthographicProjection v2 = View.bOrthographicProjection v1.
Proof.
  apply (@ProcessKeyboardEvents_projection_mode sample_camera_lib key_O sample_view
           sample_camera).
  reflexivity.
Defined.

(** Two frames of the sample view, at the clock values 2^24 and 2^24 + 1,
    the second with Escape and P held: the second clock value converts to
    the first, and the second frame has a delta time of 0. *)
Lemma PrepareSceneView_bookkeeping_witness :
  ∃ v1 v2,
    @View.PrepareSceneView sample_camera_lib sample_defines 16777216 no_key sample_view
    = Some v1
    ∧ @View.PrepareSceneView sample_camera_lib sample_defines 16777217 key_Escape_P v1
      = Some v2
    ∧ View.gLastFrame v1 = float32 16777216
    ∧ View.gDeltaTime v1 = float32 (float32 16777216 - View.gLastFrame sample_view)
    ∧ View.gLastFrame v2 = float32 16777217
    ∧ View.gDeltaTime v2 = 0
    ∧ View.windowShouldClose v1 = false
    ∧ View.gLastX v2 = View.gLastX sample_view ∧ View.gLastY v2 = View.gLastY sample_view
    ∧ View.gFirstMouse v2 = View.gFirstMouse sample_view.
Proof.
  destruct (@PrepareSceneView_bookkeeping sample_camera_lib sample_defines
              16777216 16777217 no_key key_Escape_P sample_view sample_camera)
    as (v1 & v2 & Hrun1 & Hrun2 & Hlast1 & Hdelta1 & Hlast2 & _ & Hzero & _ & Hclose1 & _
        & Hx & Hy & Hfirst & _).
  - reflexivity.
  - vm_compute. discriminate.
  - vm_compute. discriminate.
  - vm_compute. discriminate.
  - exists v1, v2.
    split; [exact Hrun1 |]. split; [exact Hrun2 |]. split; [exact Hlast1 |].
    split; [exact Hdelta1 |]. split; [exact Hlast2 |].
    split; [apply Hzero; vm_compute; reflexivity |].
    split; [exact Hclose1 |]. by repeat split.
Defined.

(** The three writers on an engine that opens the database and on which no
    step completes. *)
Lemma DbHelper_writers_report_failures_witness :
  @Db.db_ sqlite_step_fails (Db.open "app.db") = Some tt
  ∧ @writer_outcome sqlite_step_fails "saveCameraProfile" (Db.open "app.db")
      (Db.saveCameraProfile "default" 0 5 12 80 "PERSPECTIVE" (Db.open "app.db"))
  ∧ @writer_outcome sqlite_step_fails "logTelemetry" (Db.open "app.db")
      (Db.logTelemetry 60 16 (Db.open "app.db"))
  ∧ @writer_outcome sqlite_step_fails "logError" (Db.open "app.db")
      (Db.logError "SceneManager" "stbi_load failed" (Db.open "app.db")).
Proof.
  split; [reflexivity |].
  apply (@DbHelper_writers_report_failures sqlite_step_fails (Db.open "app.db") tt).
  reflexivity.
Defined.

(** Evaluated: on that engine each writer returns false. *)
Lemma DbHelper_writers_sample :
  (@Db.saveCameraProfile sqlite_step_fails "default" 0 5 12 80 "PERSPECTIVE"
     (Db.open "app.db")).1 = false
  ∧ (@Db.logTelemetry sqlite_step_fails 60 16 (Db.open "app.db")).1 = false
  ∧ (@Db.logError sqlite_step_fails "SceneManager" "stbi_load failed"
       (Db.open "app.db")).1 = false.
Proof. vm_compute. by repeat split. Qed.
